(** * Oracle SCM connector: token lifecycle and BI-report download

    A shallow embedding of [mcp_oracle_scm/common/auth.py] (the PKCE
    generator, the callback handler and [OracleAuth]) and of
    [mcp_oracle_scm/common/report_service.py] ([OracleReportService]), with
    the properties the specification states of them.

    How the Python program is read.
    - A [str] is a Rocq [string] holding its UTF-8 bytes, so that
      [s.encode()] is the identity and [bytes.decode('utf-8')] a validity
      check; [bytes] are lists of integers below 256.
    - The floats of the program are timestamps; they are integers here
      (whole seconds), and [time.sleep(1)] adds one.  Where a property
      depends on what the addition, [str] and [float] do with them, it
      assumes whole seconds below 2^51 ([in_seconds],
      [lifetimes_in_seconds]), which binary64 holds, adds and prints
      exactly; an expiry text with a fraction is outside the model.
    - [None] is [None]; a method that can raise returns an [outcome], and
      the state it leaves is kept when it raises, as in Python.
    - The outside world (token endpoint, report server, browser user,
      random source) is an [Env] of answers; the effects on it are recorded
      as a [trace].  The clock moves in [time.sleep] only: how long a
      request takes is not modelled, and no property bounds the duration
      of a call that sends one.
    - The keyring is a finite map; its only failure is the
      [PasswordDeleteError] of deleting a secret that is not there.
    - A token response is a JSON object whose three keys, when present, hold
      values of the expected type.
    - The two SOAP envelopes are given by the values rendered into them, and
      [ET.fromstring] is a parameter of the pipeline.
    - [hashlib.sha256], [base64] and the UTF-8 check are written out and
      run on the standard test vectors.
    - [Logger.log] has no influence on control flow and is left out of the
      methods; what it hands to the [logging] module is modelled on its own.

    Beside the two modules the development embeds what they call,
    [get_env_config] of [config/environment.py] and [LoggerConfig] of
    [config/logger_config.py], and the small callers of [get_connection]
    in the order, location and setup-export services. *)

From Stdlib Require Import ZArith List String Ascii Lia Bool DecimalString DecimalZ
  DecimalPos.
From stdpp Require Import base option list gmap strings.

Local Open Scope string_scope.
Local Open Scope Z_scope.

(** ** Python string primitives *)

Module Py.

(** Truthiness of [Optional[str]]: [None] and the empty string are falsy. *)
Definition truthy (o : option string) : bool :=
  match o with
  | Some (String _ _) => true
  | _ => false
  end.

(** [str(x)] for an optional value printed with [show]: [str(None)] is
    the four letters "None". *)
Definition str_opt {A} (show : A -> string) (o : option A) : string :=
  match o with
  | Some a => show a
  | None => "None"
  end.

(** [str(n)] for an integer. *)
Definition str_int (z : Z) : string := NilZero.string_of_int (Z.to_int z).

Definition is_space (c : ascii) : bool :=
  let n := nat_of_ascii c in
  ((9 <=? n)%nat && (n <=? 13)%nat) || (n =? 32)%nat.

Fixpoint lstrip_space (s : string) : string :=
  match s with
  | String c s' => if is_space c then lstrip_space s' else s
  | EmptyString => EmptyString
  end.

Fixpoint rstrip_space (s : string) : string :=
  match s with
  | EmptyString => EmptyString
  | String c s' =>
      match rstrip_space s' with
      | EmptyString => if is_space c then EmptyString else String c EmptyString
      | r => String c r
      end
  end.

Definition is_digit (c : ascii) : bool :=
  let n := nat_of_ascii c in (48 <=? n)%nat && (n <=? 57)%nat.

(** Digits, single underscores allowed between them. *)
Fixpoint digits_value (acc : Z) (s : string) : option Z :=
  match s with
  | EmptyString => Some acc
  | String c s' =>
      if is_digit c
      then digits_value (10 * acc + Z.of_nat (nat_of_ascii c - 48)) s'
      else if Ascii.eqb c "_"
      then match s' with
           | String d _ => if is_digit d then digits_value acc s' else None
           | EmptyString => None
           end
      else None
  end.

Definition unsigned_value (s : string) : option Z :=
  match s with
  | String c _ => if is_digit c then digits_value 0 s else None
  | EmptyString => None
  end.

Definition signed_value (s : string) : option Z :=
  match s with
  | String "-" r => Z.opp <$> unsigned_value r
  | String "+" r => unsigned_value r
  | _ => unsigned_value s
  end.

(** [int(s)] for a decimal literal: white space around it is ignored, a sign
    may precede the digits.  [None] stands for the [ValueError].  This is
    [int] on ASCII texts; of the other characters [int] reads more as white
    space and as digits (the no-break space, the digits of other scripts),
    so [None] on a text that is not ASCII says nothing about [int].  The
    limit [int] puts on the number of digits (4300 by default) is left
    out. *)
Definition int (s : string) : option Z :=
  signed_value (rstrip_space (lstrip_space s)).

(** [str(x)] for a float holding a whole number: the digits and ".0". *)
Definition str_float (z : Z) : string := str_int z +:+ ".0".

(** The text before the first "." and, if there is one, the text after it. *)
Fixpoint split_point (s : string) : string * option string :=
  match s with
  | EmptyString => (EmptyString, None)
  | String c s' =>
      if Ascii.eqb c "."
      then (EmptyString, Some s')
      else let '(a, b) := split_point s' in (String c a, b)
  end.

Fixpoint all_zero (s : string) : bool :=
  match s with
  | EmptyString => true
  | String c s' => Ascii.eqb c "0" && all_zero s'
  end.

(** [float(s)] on the timestamps of the model, which are whole seconds: a
    decimal literal whose fraction, if it has one, is zero.  [None] stands
    for the [ValueError], raised in particular for the text "None".  Literals
    with another fraction or an exponent, and "inf" and "nan", denote no
    timestamp of the model: [float] reads them and [Py.float] gives [None],
    so a [None] is the [ValueError] only on the texts of
    [whole_second_text] below, to which the properties of the store
    confine the expiry entry. *)
Definition float (s : string) : option Z :=
  match split_point (rstrip_space (lstrip_space s)) with
  | (whole, None) => signed_value whole
  | (whole, Some fraction) => if all_zero fraction then signed_value whole else None
  end.

(** [s.replace(old, new)] for a non-empty [old]: left to right, without
    overlap.  [skip] counts the characters of a match still to drop. *)
Fixpoint replace_from (old new : string) (skip : nat) (s : string) : string :=
  match s with
  | EmptyString => EmptyString
  | String c s' =>
      match skip with
      | S k => replace_from old new k s'
      | O =>
          if String.prefix old s
          then new +:+ replace_from old new (String.length old - 1) s'
          else String c (replace_from old new 0 s')
      end
  end.

Definition replace (old new s : string) : string := replace_from old new 0 s.

(** [s.rstrip(c)] for a single character [c]. *)
Fixpoint rstrip (c : ascii) (s : string) : string :=
  match s with
  | EmptyString => EmptyString
  | String a s' =>
      match rstrip c s' with
      | EmptyString => if Ascii.eqb a c then EmptyString else String a EmptyString
      | r => String a r
      end
  end.

(** [s.split(sep)[-1]]: what follows the last [sep]. *)
Fixpoint last_segment_from (sep : ascii) (acc s : string) : string :=
  match s with
  | EmptyString => acc
  | String c s' =>
      if Ascii.eqb c sep
      then last_segment_from sep EmptyString s'
      else last_segment_from sep (acc +:+ String c EmptyString) s'
  end.

Definition last_segment (sep : ascii) (s : string) : string :=
  last_segment_from sep EmptyString s.

(** [s[:n]] *)
Fixpoint take (n : nat) (s : string) : string :=
  match n, s with
  | S k, String c s' => String c (take k s')
  | _, _ => EmptyString
  end.

Fixpoint last_char (s : string) : option ascii :=
  match s with
  | EmptyString => None
  | String c EmptyString => Some c
  | String _ s' => last_char s'
  end.

Fixpoint chars (s : string) : list ascii :=
  match s with
  | EmptyString => []
  | String c s' => c :: chars s'
  end.

Fixpoint of_chars (l : list ascii) : string :=
  match l with
  | [] => EmptyString
  | c :: l' => String c (of_chars l')
  end.

(** [s.encode()] and back: the bytes of a string. *)
Definition encode (s : string) : list Z :=
  map (fun c => Z.of_nat (nat_of_ascii c)) (chars s).

Definition cont (b : Z) : bool := (0x80 <=? b) && (b <=? 0xbf).
Definition between (lo hi b : Z) : bool := (lo <=? b) && (b <=? hi).

(** Well-formed UTF-8 (no overlong forms, no surrogates, at most U+10FFFF):
    what [bytes.decode('utf-8')] accepts. *)
Fixpoint utf8_valid (fuel : nat) (bs : list Z) : bool :=
  match fuel with
  | O => false
  | S k =>
      match bs with
      | [] => true
      | a :: r1 =>
          if between 0 0x7f a then utf8_valid k r1
          else
            match r1 with
            | [] => false
            | b :: r2 =>
                if between 0xc2 0xdf a then cont b && utf8_valid k r2
                else
                  match r2 with
                  | [] => false
                  | c :: r3 =>
                      if between 0xe0 0xef a then
                        (if a =? 0xe0 then between 0xa0 0xbf b
                         else if a =? 0xed then between 0x80 0x9f b
                         else cont b)
                        && cont c && utf8_valid k r3
                      else
                        match r3 with
                        | [] => false
                        | d :: r4 =>
                            between 0xf0 0xf4 a
                            && (if a =? 0xf0 then between 0x90 0xbf b
                                else if a =? 0xf4 then between 0x80 0x8f b
                                else cont b)
                            && cont c && cont d && utf8_valid k r4
                        end
                  end
            end
      end
  end.

Definition of_bytes (b : list Z) : string :=
  of_chars (map (fun z => ascii_of_nat (Z.to_nat z)) b).

End Py.

(** ** [hashlib.sha256]: FIPS 180-4 on 32-bit words held in [Z] *)

Module Sha256.

Definition mask32 : Z := 0xffffffff.
Definition add32 (a b : Z) : Z := (a + b) mod 2 ^ 32.
Definition rotr (n x : Z) : Z :=
  Z.lor (Z.shiftr x n) (Z.land (Z.shiftl x (32 - n)) mask32).
Definition not32 (x : Z) : Z := Z.lxor x mask32.

Definition Ch (x y z : Z) : Z := Z.lxor (Z.land x y) (Z.land (not32 x) z).
Definition Maj (x y z : Z) : Z :=
  Z.lxor (Z.lxor (Z.land x y) (Z.land x z)) (Z.land y z).
Definition Sigma0 (x : Z) : Z := Z.lxor (Z.lxor (rotr 2 x) (rotr 13 x)) (rotr 22 x).
Definition Sigma1 (x : Z) : Z := Z.lxor (Z.lxor (rotr 6 x) (rotr 11 x)) (rotr 25 x).
Definition sigma0 (x : Z) : Z := Z.lxor (Z.lxor (rotr 7 x) (rotr 18 x)) (Z.shiftr x 3).
Definition sigma1 (x : Z) : Z := Z.lxor (Z.lxor (rotr 17 x) (rotr 19 x)) (Z.shiftr x 10).

(** The round constants and the initial hash value are the first 32 bits of
    the fractional parts of the cube roots of the first sixty-four primes
    and of the square roots of the first eight. *)
Definition is_prime (n : nat) : bool :=
  forallb (fun d => negb (n mod d =? 0)%nat) (seq 2 (n - 2)).

Definition primes : list Z := map Z.of_nat (filter is_prime (seq 2 310)).

(** The integer cube root, bit by bit from bit [k - 1] down. *)
Fixpoint cube_root (k : nat) (acc n : Z) : Z :=
  match k with
  | O => acc
  | S k' =>
      let c := Z.lor acc (Z.shiftl 1 (Z.of_nat k')) in
      cube_root k' (if c * c * c <=? n then c else acc) n
  end.

Definition K : list Z :=
  Eval vm_compute in map (fun p => cube_root 36 0 (p * 2 ^ 96) mod 2 ^ 32) primes.

Definition H0 : list Z :=
  Eval vm_compute in map (fun p => Z.sqrt (p * 2 ^ 64) mod 2 ^ 32) (firstn 8 primes).

(** Big-endian bytes of a [n]-byte unsigned integer. *)
Fixpoint be_bytes (n : nat) (x : Z) : list Z :=
  match n with
  | O => []
  | S k => Z.land (Z.shiftr x (8 * Z.of_nat k)) 0xff :: be_bytes k x
  end.

Fixpoint be_word (acc : Z) (bs : list Z) : Z :=
  match bs with
  | [] => acc
  | b :: bs' => be_word (Z.lor (Z.shiftl acc 8) b) bs'
  end.

(** Message padding: a one bit, zeros up to 56 mod 64 and the bit length. *)
Definition pad (msg : list Z) : list Z :=
  let len := Z.of_nat (length msg) in
  let zeros := Z.to_nat ((55 - len) mod 64) in
  msg ++ 0x80 :: repeat 0 zeros ++ be_bytes 8 (8 * len).

(** Cut a byte list into [n] chunks of [sz] bytes. *)
Fixpoint chunks (n sz : nat) (bs : list Z) : list (list Z) :=
  match n with
  | O => []
  | S k => firstn sz bs :: chunks k sz (skipn sz bs)
  end.

Definition block_words (block : list Z) : list Z :=
  map (be_word 0) (chunks 16 4 block).

(** Message schedule: extend the sixteen words of a block to sixty-four. *)
Fixpoint expand (n : nat) (ws : list Z) : list Z :=
  match n with
  | O => ws
  | S k =>
      let t := length ws in
      let w i := nth (t - i) ws 0 in
      expand k (ws ++ [add32 (add32 (sigma1 (w 2%nat)) (w 7%nat))
                             (add32 (sigma0 (w 15%nat)) (w 16%nat))])
  end.

Record regs := Regs { ra : Z; rb : Z; rc : Z; rd : Z; re : Z; rf : Z; rg : Z; rh : Z }.

Definition round (s : regs) (kw : Z * Z) : regs :=
  let '(k, w) := kw in
  let t1 := add32 (add32 (add32 (rh s) (Sigma1 (re s)))
                         (add32 (Ch (re s) (rf s) (rg s)) k)) w in
  let t2 := add32 (Sigma0 (ra s)) (Maj (ra s) (rb s) (rc s)) in
  Regs (add32 t1 t2) (ra s) (rb s) (rc s) (add32 (rd s) t1) (re s) (rf s) (rg s).

Definition regs_of (h : list Z) : regs :=
  let g i := nth i h 0 in
  Regs (g 0%nat) (g 1%nat) (g 2%nat) (g 3%nat) (g 4%nat) (g 5%nat) (g 6%nat) (g 7%nat).

Definition list_of (s : regs) : list Z :=
  [ra s; rb s; rc s; rd s; re s; rf s; rg s; rh s].

Definition compress (h : list Z) (block : list Z) : list Z :=
  let ws := expand 48 (block_words block) in
  let s := fold_left round (combine K ws) (regs_of h) in
  map (fun p => add32 (fst p) (snd p)) (combine h (list_of s)).

(** [hashlib.sha256(msg).digest()]: thirty-two bytes. *)
Definition digest (msg : list Z) : list Z :=
  let padded := pad msg in
  let blocks := chunks (length padded / 64) 64 padded in
  flat_map (be_bytes 4) (fold_left compress blocks H0).

End Sha256.

(** ** [base64.b64encode] *)

Module Base64.

Definition alphabet : string :=
  "ABCDEFGHIJKLMNOPQRSTUVWXYZabcdefghijklmnopqrstuvwxyz0123456789+/".

Definition sextet (i : Z) : ascii :=
  nth (Z.to_nat i) (Py.chars alphabet) "A"%char.

(** Three bytes give four characters; a final group of one or two bytes
    is padded with "=". *)
Fixpoint encode_chars (bs : list Z) : list ascii :=
  match bs with
  | [] => []
  | [a] =>
      [sextet (Z.shiftr a 2); sextet (Z.shiftl (Z.land a 3) 4); "="; "="]%char
  | [a; b] =>
      [sextet (Z.shiftr a 2);
       sextet (Z.lor (Z.shiftl (Z.land a 3) 4) (Z.shiftr b 4));
       sextet (Z.shiftl (Z.land b 15) 2); "="%char]
  | a :: b :: c :: rest =>
      sextet (Z.shiftr a 2)
      :: sextet (Z.lor (Z.shiftl (Z.land a 3) 4) (Z.shiftr b 4))
      :: sextet (Z.lor (Z.shiftl (Z.land b 15) 2) (Z.shiftr c 6))
      :: sextet (Z.land c 63)
      :: encode_chars rest
  end.

Definition b64encode (bs : list Z) : string := Py.of_chars (encode_chars bs).

(** Value of a character of the alphabet. *)
Definition sextet_value (c : ascii) : option Z :=
  let n := Z.of_nat (nat_of_ascii c) in
  if (65 <=? n) && (n <=? 90) then Some (n - 65)
  else if (97 <=? n) && (n <=? 122) then Some (n - 71)
  else if (48 <=? n) && (n <=? 57) then Some (n + 4)
  else if n =? 43 then Some 62
  else if n =? 47 then Some 63
  else None.

(** [binascii.a2b_base64] in its default, lenient mode: characters outside
    the alphabet are skipped; "=" counts as padding only once two
    characters of a group were read, and a completed padding ends the
    input; data ending inside a group is the [binascii.Error]. *)
Fixpoint a2b_base64 (cs : list ascii) (quad_pos : nat) (leftchar : Z) (pads : nat)
    (out : list Z) : option (list Z) :=
  match cs with
  | [] => if (quad_pos =? 0)%nat then Some out else None
  | c :: cs' =>
      if Ascii.eqb c "="
      then
        if (2 <=? quad_pos)%nat
        then
          if (4 <=? quad_pos + S pads)%nat then Some out
          else a2b_base64 cs' quad_pos leftchar (S pads) out
        else a2b_base64 cs' quad_pos leftchar pads out
      else
        match sextet_value c with
        | None => a2b_base64 cs' quad_pos leftchar pads out
        | Some v =>
            match quad_pos with
            | 0%nat => a2b_base64 cs' 1 v 0 out
            | 1%nat =>
                a2b_base64 cs' 2 (Z.land v 15) 0
                  (out ++ [Z.lor (Z.shiftl leftchar 2) (Z.shiftr v 4)])
            | 2%nat =>
                a2b_base64 cs' 3 (Z.land v 3) 0
                  (out ++ [Z.lor (Z.shiftl leftchar 4) (Z.shiftr v 2)])
            | _ =>
                a2b_base64 cs' 0 0 0 (out ++ [Z.lor (Z.shiftl leftchar 6) v])
            end
        end
  end.

Definition is_ascii (c : ascii) : bool := (nat_of_ascii c <? 128)%nat.

End Base64.


(** [base64.b64decode(s).decode('utf-8')] on a [str] argument: the text must
    be ASCII ([ValueError]), decode ([binascii.Error]) and be UTF-8
    ([UnicodeDecodeError]).  The result names the failing step. *)
Inductive decode_error := NotAscii | BadBase64 | BadUtf8.

Definition b64decode_utf8 (s : string) : decode_error + string :=
  let cs := Py.chars s in
  if forallb Base64.is_ascii cs then
    match Base64.a2b_base64 cs 0 0 0 [] with
    | Some bs =>
        if Py.utf8_valid (S (length bs)) bs then inr (Py.of_bytes bs) else inl BadUtf8
    | None => inl BadBase64
    end
  else inl NotAscii.

(** ** PKCE challenge generator ([auth.py], lines 19-36) *)

Module Pkce.

Definition ascii_letters : string :=
  "abcdefghijklmnopqrstuvwxyzABCDEFGHIJKLMNOPQRSTUVWXYZ".
Definition digits : string := "0123456789".

(** [chars = string.ascii_letters + string.digits + "-._~"] *)
Definition chars : string := ascii_letters +:+ digits +:+ "-._~".

(** [secrets.choice(seq)] is [seq[randbelow(len(seq))]]; [r] is the number
    drawn from the system random source, reduced below the length. *)
Definition choice (seq : string) (r : nat) : ascii :=
  nth (r mod String.length seq) (Py.chars seq) "000"%char.

(** [''.join(secrets.choice(chars) for _ in range(128))], the [i]-th draw
    being [rand i]. *)
Definition generate_code_verifier (rand : nat -> nat) : string :=
  Py.of_chars (map (fun i => choice chars (rand i)) (seq 0 128)).

Definition generate_code_challenge (verifier : string) : string :=
  let hash := Sha256.digest (Py.encode verifier) in
  Py.rstrip "="
    (Py.replace "/" "_" (Py.replace "+" "-" (Base64.b64encode hash))).

(** The character class [A-Za-z0-9-._~] of the specification. *)
Definition in_class (c : ascii) : bool :=
  let n := nat_of_ascii c in
  ((65 <=? n) && (n <=? 90) || (97 <=? n) && (n <=? 122)
   || (48 <=? n) && (n <=? 57)
   || (n =? 45) || (n =? 46) || (n =? 95) || (n =? 126))%nat.

(** The transform in the words of the specification: SHA-256, base64,
    "+" to "-", "/" to "_", trailing "=" removed. *)
Definition url_safe (c : ascii) : ascii :=
  if Ascii.eqb c "+" then "-"%char else if Ascii.eqb c "/" then "_"%char else c.

Fixpoint drop_pad (l : list ascii) : list ascii :=
  match l with
  | c :: l' => if Ascii.eqb c "=" then drop_pad l' else l
  | [] => []
  end.

Definition derive_challenge (verifier : string) : string :=
  let b64 := Base64.encode_chars (Sha256.digest (Py.encode verifier)) in
  Py.of_chars (rev (drop_pad (rev (map url_safe b64)))).

End Pkce.

(** ** Exceptions, the environment and the state *)

Inductive exn :=
| Exception (msg : string)
| TimeoutError (msg : string)
| ConnectionError            (* requests: the POST did not get a response *)
| HTTPError (status : Z)     (* requests: [raise_for_status] *)
| JSONDecodeError            (* requests: [response.json()] *)
| KeyError (key : string)
| ClientError                (* aiohttp: the POST did not get a response *)
| ParseError                 (* [ET.fromstring] *)
| ValueError
| TypeError
| BinasciiError
| UnicodeDecodeError
| PasswordDeleteError.       (* keyring: nothing to delete *)

(** [Diverge] is a loop still running when the iteration budget of the
    model is used up. *)
Inductive outcome (A : Type) :=
| Ok (a : A)
| Raise (e : exn)
| Diverge.
Arguments Ok {A} a.
Arguments Raise {A} e.
Arguments Diverge {A}.

(** The JSON object of a token response: a key is absent or holds a value. *)
Record token_data := TokenData {
  td_access_token : option string;
  td_expires_in : option Z;
  td_refresh_token : option string }.

(** What [requests.post] on the token endpoint meets. *)
Inductive post_reply :=
| PostFailed
| PostResponse (status : Z) (json : option token_data).

(** What the aiohttp POST on the report service meets. *)
Inductive soap_reply :=
| SoapFailed
| SoapResponse (status : Z) (text : string).

(** The two SOAP envelopes, by the values rendered into them. *)
Inductive soap_request :=
| RunReport (report_path : string) (parameters : list (string * string))
| DownloadReportDataChunk (file_id : string) (begin_idx : Z) (size : Z).

#[local] Set Warnings "-register-all".

(** An element tree as [xml.etree.ElementTree] builds it: the tag in the
    form "{namespace}name", the text before the first child, the children. *)
Inductive element :=
| Element (tag : string) (text : option string) (children : list element).

(** Effects on the outside world, in the order they happen. *)
Inductive event :=
| ServerStarted
| ServerShutdown
| BrowserOpened (url : string) (params : list (string * string))
| CallbackAnswered (status : Z)
| TokenPost (url : string) (params : list (string * string))
| SoapPost (url : string) (body : soap_request) (bearer : string).

(** The outside world.  The [n]-th POST to the token endpoint meets
    [token_endpoint n], the [n]-th SOAP POST [soap_endpoint n]; during the
    [n]-th second slept the listener receives the GET requests
    [callbacks n], each given by its [code] query parameter; [random n] is
    the [n]-th number drawn, [uuid4 n] the text of a UUID drawn as [n]-th
    value, and [strftime t] the local time [t] as [%Y%m%d_%H%M%S]. *)
Record Env := {
  token_endpoint : nat -> post_reply;
  soap_endpoint : nat -> soap_reply;
  callbacks : nat -> list (option string);
  random : nat -> nat;
  uuid4 : nat -> string;
  strftime : Z -> string;
  downloads_dir : string;
  base_url : string }.

(** The fields of an [OracleAuth] object. *)
Record OracleAuth := {
  auth_url : string;
  token_url : string;
  client_id : string;
  scope : string;
  redirect_uri : string;
  access_token : option string;
  token_expiry : option Z;
  refresh_token : option string }.

(** The [OracleAuth] object of the service and the world around it.  The
    four counters tell how many answers of the environment were used. *)
Record State := {
  self : OracleAuth;
  clock : Z;                                 (* [time.time()] *)
  keyring : gmap (string * string) string;   (* (service, user) to secret *)
  files : gmap string string;                (* path to content *)
  auth_code : option string;                 (* [OAuthCallbackHandler.auth_code] *)
  serving : bool;                            (* the local listener runs *)
  posts : nat;
  soaps : nat;
  sleeps : nat;
  draws : nat;
  trace : list event }.

Definition with_self (f : OracleAuth -> OracleAuth) (s : State) : State :=
  {| self := f (self s); clock := clock s; keyring := keyring s; files := files s;
     auth_code := auth_code s; serving := serving s; posts := posts s;
     soaps := soaps s; sleeps := sleeps s; draws := draws s; trace := trace s |}.

Definition with_clock (t : Z) (s : State) : State :=
  {| self := self s; clock := t; keyring := keyring s; files := files s;
     auth_code := auth_code s; serving := serving s; posts := posts s;
     soaps := soaps s; sleeps := sleeps s; draws := draws s; trace := trace s |}.

Definition with_keyring (k : gmap (string * string) string) (s : State) : State :=
  {| self := self s; clock := clock s; keyring := k; files := files s;
     auth_code := auth_code s; serving := serving s; posts := posts s;
     soaps := soaps s; sleeps := sleeps s; draws := draws s; trace := trace s |}.

Definition with_files (f : gmap string string) (s : State) : State :=
  {| self := self s; clock := clock s; keyring := keyring s; files := f;
     auth_code := auth_code s; serving := serving s; posts := posts s;
     soaps := soaps s; sleeps := sleeps s; draws := draws s; trace := trace s |}.

Definition with_auth_code (c : option string) (s : State) : State :=
  {| self := self s; clock := clock s; keyring := keyring s; files := files s;
     auth_code := c; serving := serving s; posts := posts s;
     soaps := soaps s; sleeps := sleeps s; draws := draws s; trace := trace s |}.

Definition with_serving (b : bool) (s : State) : State :=
  {| self := self s; clock := clock s; keyring := keyring s; files := files s;
     auth_code := auth_code s; serving := b; posts := posts s;
     soaps := soaps s; sleeps := sleeps s; draws := draws s; trace := trace s |}.

Definition with_posts (n : nat) (s : State) : State :=
  {| self := self s; clock := clock s; keyring := keyring s; files := files s;
     auth_code := auth_code s; serving := serving s; posts := n;
     soaps := soaps s; sleeps := sleeps s; draws := draws s; trace := trace s |}.

Definition with_soaps (n : nat) (s : State) : State :=
  {| self := self s; clock := clock s; keyring := keyring s; files := files s;
     auth_code := auth_code s; serving := serving s; posts := posts s;
     soaps := n; sleeps := sleeps s; draws := draws s; trace := trace s |}.

Definition with_sleeps (n : nat) (s : State) : State :=
  {| self := self s; clock := clock s; keyring := keyring s; files := files s;
     auth_code := auth_code s; serving := serving s; posts := posts s;
     soaps := soaps s; sleeps := n; draws := draws s; trace := trace s |}.

Definition with_draws (n : nat) (s : State) : State :=
  {| self := self s; clock := clock s; keyring := keyring s; files := files s;
     auth_code := auth_code s; serving := serving s; posts := posts s;
     soaps := soaps s; sleeps := sleeps s; draws := n; trace := trace s |}.

Definition emit (e : event) (s : State) : State :=
  {| self := self s; clock := clock s; keyring := keyring s; files := files s;
     auth_code := auth_code s; serving := serving s; posts := posts s;
     soaps := soaps s; sleeps := sleeps s; draws := draws s;
     trace := trace s ++ [e] |}.

Definition set_access_token (v : option string) (a : OracleAuth) : OracleAuth :=
  {| auth_url := auth_url a; token_url := token_url a; client_id := client_id a;
     scope := scope a; redirect_uri := redirect_uri a;
     access_token := v; token_expiry := token_expiry a;
     refresh_token := refresh_token a |}.

Definition set_token_expiry (v : option Z) (a : OracleAuth) : OracleAuth :=
  {| auth_url := auth_url a; token_url := token_url a; client_id := client_id a;
     scope := scope a; redirect_uri := redirect_uri a;
     access_token := access_token a; token_expiry := v;
     refresh_token := refresh_token a |}.

Definition set_refresh_token (v : option string) (a : OracleAuth) : OracleAuth :=
  {| auth_url := auth_url a; token_url := token_url a; client_id := client_id a;
     scope := scope a; redirect_uri := redirect_uri a;
     access_token := access_token a; token_expiry := token_expiry a;
     refresh_token := v |}.

(** ** A state and exception monad *)

Definition M (A : Type) : Type := State -> outcome A * State.

Definition ret {A} (a : A) : M A := fun s => (Ok a, s).
Definition raise {A} (e : exn) : M A := fun s => (Raise e, s).
Definition diverge {A} : M A := fun s => (Diverge, s).

Definition bind {A B} (m : M A) (k : A -> M B) : M B :=
  fun s =>
    match m s with
    | (Ok a, s') => k a s'
    | (Raise e, s') => (Raise e, s')
    | (Diverge, s') => (Diverge, s')
    end.

(** [try: m  except Exception as e: h e] *)
Definition try_except {A} (m : M A) (h : exn -> M A) : M A :=
  fun s =>
    match m s with
    | (Raise e, s') => h e s'
    | r => r
    end.

Definition lift {A} (o : outcome A) : M A := fun s => (o, s).
Definition get {A} (f : State -> A) : M A := fun s => (Ok (f s), s).
Definition modify (f : State -> State) : M unit := fun s => (Ok tt, f s).

Declare Scope py_scope.
Delimit Scope py_scope with py.
Notation "x <- m ;; k" := (bind m (fun x => k))
  (at level 100, m at next level, right associativity) : py_scope.
Notation "m ;; k" := (bind m (fun _ => k))
  (at level 100, right associativity) : py_scope.
Local Open Scope py_scope.

(** ** Token lifecycle manager ([auth.py]) *)

Section Auth.

Variable env : Env.

(** *** Library calls *)

Definition time : M Z := get clock.

(** [keyring.set_password], [get_password] and [delete_password]; deleting
    a secret that is not there raises [PasswordDeleteError]. *)
Definition set_password (service user password : string) : M unit :=
  modify (fun s => with_keyring (<[(service, user) := password]> (keyring s)) s).

Definition get_password (service user : string) : M (option string) :=
  get (fun s => keyring s !! (service, user)).

Definition delete_password (service user : string) : M unit :=
  fun s =>
    match keyring s !! (service, user) with
    | Some _ => (Ok tt, with_keyring (delete (service, user) (keyring s)) s)
    | None => (Raise PasswordDeleteError, s)
    end.

(** [requests.post(url, data=params)].  The call has no timeout; the time
    it takes is not modelled, the clock stays as it is. *)
Definition requests_post (url : string) (params : list (string * string)) : M post_reply :=
  fun s =>
    (Ok (token_endpoint env (posts s)),
     with_posts (S (posts s)) (emit (TokenPost url params) s)).

(** [response.raise_for_status()] followed by [response.json()] *)
Definition json_of (r : post_reply) : M token_data :=
  match r with
  | PostFailed => raise ConnectionError
  | PostResponse status body =>
      if (400 <=? status) && (status <? 600) then raise (HTTPError status)
      else match body with
           | Some td => ret td
           | None => raise JSONDecodeError
           end
  end.

(** [token_data[key]] *)
Definition item {A} (key : string) (v : option A) : M A :=
  match v with
  | Some a => ret a
  | None => raise (KeyError key)
  end.

(** [OAuthCallbackHandler.do_GET] for a request whose query has the given
    [code] parameter, if any. *)
Definition do_GET (code : option string) (s : State) : State :=
  match code with
  | Some c => emit (CallbackAnswered 200) (with_auth_code (Some c) s)
  | None => emit (CallbackAnswered 400) s
  end.

(** [time.sleep(1)]: a second passes, during which the listener thread,
    if it runs, handles the requests that arrive. *)
Definition sleep1 : M unit :=
  modify (fun s =>
    let s1 := if serving s then fold_left (fun st c => do_GET c st) (callbacks env (sleeps s)) s
              else s in
    with_sleeps (S (sleeps s)) (with_clock (clock s + 1) s1)).

(** [HTTPServer(...)] with its thread started, and [server.shutdown()] *)
Definition server_start : M unit :=
  modify (fun s => with_serving true (emit ServerStarted s)).

Definition server_shutdown : M unit :=
  modify (fun s => with_serving false (emit ServerShutdown s)).

Definition webbrowser_open (url : string) (params : list (string * string)) : M unit :=
  modify (emit (BrowserOpened url params)).

(** [generate_code_verifier()] on the system random source *)
Definition generate_code_verifier : M string :=
  fun s =>
    (Ok (Pkce.generate_code_verifier (fun i => random env (draws s + i)%nat)),
     with_draws (draws s + 128)%nat s).

(** *** [OracleAuth] *)

Definition save_to_keychain (token : string) (expiry_time : option Z)
    (refresh : option string) : M unit :=
  try_except
    (set_password "mcp_oracle" "oauth_token" token ;;
     set_password "mcp_oracle" "oauth_token_expiry" (Py.str_opt Py.str_float expiry_time) ;;
     match refresh with
     | Some (String c r) => set_password "mcp_oracle" "oauth_refresh_token" (String c r)
     | _ => ret tt
     end)
    (fun _ => ret tt).

(** The expiry is read with [Py.float], which is [float] on the texts
    [save_to_keychain] writes at whole seconds. *)
Definition load_from_keychain : M (option string * option Z * option string) :=
  try_except
    (token <- get_password "mcp_oracle" "oauth_token" ;;
     expiry_str <- get_password "mcp_oracle" "oauth_token_expiry" ;;
     refresh <- get_password "mcp_oracle" "oauth_refresh_token" ;;
     expiry <- match expiry_str with
               | Some (String c r) =>
                   match Py.float (String c r) with
                   | Some z => ret (Some z)
                   | None => raise ValueError
                   end
               | _ => ret None
               end ;;
     ret (token, expiry, refresh))
    (fun _ => ret (None, None, None)).

Definition clear_keychain : M unit :=
  try_except
    (delete_password "mcp_oracle" "oauth_token" ;;
     delete_password "mcp_oracle" "oauth_token_expiry" ;;
     delete_password "mcp_oracle" "oauth_refresh_token")
    (fun _ => ret tt).

Definition timeout : Z := 300.

(** The loop [while OAuthCallbackHandler.auth_code is None: ...] of
    [start_auth_server].  [n] bounds the seconds still to be slept. *)
Fixpoint wait_for_code (n : nat) (start_time : Z) : M string :=
  code <- get auth_code ;;
  match code with
  | Some c => ret c
  | None =>
      now <- time ;;
      if now - start_time >? timeout
      then server_shutdown ;;
           raise (TimeoutError "Authorization timed out after 5 minutes")
      else match n with
           | O => diverge
           | S k => sleep1 ;; wait_for_code k start_time
           end
  end.

Definition start_auth_server : M (string * string) :=
  try_except
    (server_start ;;
     modify (with_auth_code None) ;;
     code_verifier <- generate_code_verifier ;;
     let code_challenge := Pkce.generate_code_challenge code_verifier in
     a <- get self ;;
     webbrowser_open (auth_url a)
       [("client_id", client_id a); ("response_type", "code");
        ("redirect_uri", redirect_uri a); ("scope", scope a);
        ("code_challenge", code_challenge); ("code_challenge_method", "S256")] ;;
     start_time <- time ;;
     auth_code <- wait_for_code (Z.to_nat (timeout + 1)) start_time ;;
     server_shutdown ;;
     ret (auth_code, code_verifier))
    (fun e => raise e).

(** The statements [get_token] (lines 211-234) and [refresh_access_token]
    (lines 269-290) have in common: the fields of the response go into the
    object, [save_to_keychain] persists them, the access token is handed
    back.  [time.time() + expires_in] is the sum in [Z], which is the sum of
    binary64 as long as it stays below 2^53. *)
Definition store_token_data (td : token_data) : M string :=
  tok <- item "access_token" (td_access_token td) ;;
  modify (with_self (set_access_token (Some tok))) ;;
  match td_expires_in td with
  | Some d => now <- time ;; modify (with_self (set_token_expiry (Some (now + d))))
  | None => ret tt
  end ;;
  match td_refresh_token td with
  | Some r => modify (with_self (set_refresh_token (Some r)))
  | None => ret tt
  end ;;
  a <- get self ;;
  save_to_keychain tok (token_expiry a)
    (match td_refresh_token td with Some _ => refresh_token a | None => None end) ;;
  ret tok.

Definition get_token (auth_code code_verifier : string) : M token_data :=
  a <- get self ;;
  try_except
    (response <- requests_post (token_url a)
       [("grant_type", "authorization_code"); ("code", auth_code);
        ("redirect_uri", redirect_uri a); ("client_id", client_id a);
        ("code_verifier", code_verifier)] ;;
     td <- json_of response ;;
     store_token_data td ;;
     ret td)
    (fun e => raise e).

Definition refresh_access_token : M (option string) :=
  a <- get self ;;
  refresh <- (if Py.truthy (refresh_token a) then ret (refresh_token a)
              else r <- load_from_keychain ;; ret (snd r)) ;;
  match refresh with
  | Some (String c r) =>
      try_except
        (response <- requests_post (token_url a)
           [("grant_type", "refresh_token"); ("refresh_token", String c r);
            ("client_id", client_id a)] ;;
         td <- json_of response ;;
         tok <- store_token_data td ;;
         ret (Some tok))
        (fun _ =>
           modify (with_self (set_access_token None)) ;;
           modify (with_self (set_refresh_token None)) ;;
           modify (with_self (set_token_expiry None)) ;;
           clear_keychain ;;
           ret None)
  | _ => ret None
  end.

Definition margin : Z := 300.

(** The test of both cached paths: the expiry is truthy (neither [None]
    nor zero) and [time.time() < expiry - 300]. *)
Definition fresh (now : Z) (expiry : option Z) : bool :=
  match expiry with
  | Some e => negb (e =? 0) && (now <? e - margin)
  | None => false
  end.

(** The last part of [get_connection]: the body of its [try] block, and
    the block with its handler. *)
Definition full_auth_body : M (option string) :=
  r <- start_auth_server ;;
  td <- get_token (fst r) (snd r) ;;
  tok <- item "access_token" (td_access_token td) ;;
  ret (Some tok).

Definition full_auth_flow : M (option string) :=
  try_except full_auth_body (fun _ => ret None).

Definition refresh_or_full_auth : M (option string) :=
  refreshed <- refresh_access_token ;;
  if Py.truthy refreshed then ret refreshed else full_auth_flow.

Definition get_connection : M (option string) :=
  a <- get self ;;
  now <- time ;;
  if Py.truthy (access_token a) && fresh now (token_expiry a)
  then ret (access_token a)
  else
    r <- load_from_keychain ;;
    let token := fst (fst r) in
    let expiry := snd (fst r) in
    now <- time ;;
    if Py.truthy token && fresh now expiry
    then modify (with_self (set_access_token token)) ;;
         modify (with_self (set_token_expiry expiry)) ;;
         ret token
    else refresh_or_full_auth.

Definition close_connection : M unit :=
  modify (with_self (set_access_token None)) ;;
  modify (with_self (set_token_expiry None)) ;;
  modify (with_self (set_refresh_token None)) ;;
  clear_keychain.

(** [get_oauth_headers]: the bearer header, or the exception a caller sees
    when no token could be had. *)
Definition get_oauth_headers : M (list (string * string)) :=
  access_token <- get_connection ;;
  match access_token with
  | Some (String c r) =>
      ret [("Authorization", "Bearer " +:+ String c r);
           ("Content-Type", "application/json")]
  | _ => raise (Exception "Failed to get access token")
  end.

End Auth.

(** ** Report execution pipeline ([report_service.py]) *)

(** [root.find('.//name')]: the first proper descendant, in document
    order, with the given tag. *)
Fixpoint descendants (e : element) : list element :=
  match e with
  | Element _ _ cs =>
      (fix go (l : list element) : list element :=
         match l with
         | [] => []
         | c :: l' => c :: descendants c ++ go l'
         end) cs
  end.

Definition tag_of (e : element) : string := let 'Element t _ _ := e in t.
Definition text_of (e : element) : option string := let 'Element _ t _ := e in t.

Definition find (name : string) (root : element) : option element :=
  List.find (fun e => String.eqb (tag_of e) name) (descendants root).

Definition ns2 (local : string) : string :=
  "{http://xmlns.oracle.com/oxp/service/PublicReportService}" +:+ local.

(** [os.path.join(a, b)] *)
Definition path_join (a b : string) : string :=
  match b with
  | String "/" _ => b
  | _ =>
      match Py.last_char a with
      | None => b
      | Some "/"%char => a +:+ b
      | Some _ => a +:+ "/" +:+ b
      end
  end.

Section Report.

Variable env : Env.

(** [ET.fromstring]: the tree of a document, [None] for a [ParseError]. *)
Variable ET_fromstring : string -> option element.

Definition soap_url : string :=
  Py.rstrip "/" (base_url env) +:+ "/xmlpserver/services/PublicReportWSSService".

Definition _generate_output_filename (report_path : string) : M string :=
  let report_name := Py.replace ".xdo" "" (Py.last_segment "/" report_path) in
  now <- time ;;
  let timestamp := strftime env now in
  n <- get draws ;;
  modify (with_draws (S n)) ;;
  let unique_id := Py.take 8 (uuid4 env n) in
  let filename := report_name +:+ "_" +:+ timestamp +:+ "_" +:+ unique_id +:+ ".csv" in
  ret (path_join (downloads_dir env) filename).

(** [session.post(self.soap_url, data=soap_body, headers=headers)] *)
Definition session_post (body : soap_request) (bearer : string) : M soap_reply :=
  fun s =>
    (Ok (soap_endpoint env (soaps s)),
     with_soaps (S (soaps s)) (emit (SoapPost soap_url body bearer) s)).

Definition soap_failed (status : Z) (response_text : string) : string :=
  "SOAP request failed with status " +:+ Py.str_int status +:+ ": " +:+ response_text.

Definition _make_soap_request (soap_body : soap_request) : M string :=
  access_token <- get_connection env ;;
  match access_token with
  | Some (String c r) =>
      try_except
        (reply <- session_post soap_body (String c r) ;;
         match reply with
         | SoapFailed => raise ClientError
         | SoapResponse status response_text =>
             if negb (status =? 200)
             then raise (Exception (soap_failed status response_text))
             else ret response_text
         end)
        (fun e => raise e)
  | _ => raise (Exception "Failed to get OAuth access token")
  end.

Definition _create_run_report_envelope (report_path : string)
    (parameters : list (string * string)) : soap_request :=
  RunReport report_path parameters.

Definition _create_download_chunk_envelope (file_id : option string)
    (begin_idx chunk_size : Z) : soap_request :=
  DownloadReportDataChunk (Py.str_opt id file_id) begin_idx chunk_size.

(** The two parsers do not touch the state; they are functions into
    [outcome], lifted where the pipeline calls them. *)
Definition _parse_run_report_response (response_text : string)
    : outcome (option string) :=
  match ET_fromstring response_text with
  | None => Raise ParseError
  | Some root =>
      match find (ns2 "reportFileID") root with
      | Some file_id_elem => Ok (text_of file_id_elem)
      | None => Raise (Exception "Could not find reportFileID in response")
      end
  end.

Definition _parse_download_chunk_response (response_text : string)
    : outcome (option string * Z) :=
  match ET_fromstring response_text with
  | None => Raise ParseError
  | Some root =>
      match find (ns2 "reportDataChunk") root, find (ns2 "reportDataOffset") root with
      | Some chunk_elem, Some offset_elem =>
          match text_of offset_elem with
          | None => Raise TypeError
          | Some t =>
              match Py.int t with
              | Some offset => Ok (text_of chunk_elem, offset)
              | None => Raise ValueError
              end
          end
      | _, _ =>
          Raise (Exception "Could not find reportDataChunk or reportDataOffset in response")
      end
  end.

(** [open(output_file, mode, ...)] then [f.write(decoded_data)]: mode "w"
    replaces the content, mode "a" extends it. *)
Definition write_file (path : string) (first_chunk : bool) (data : string) : M unit :=
  modify (fun s =>
    let old := if first_chunk then "" else default "" (files s !! path) in
    with_files (<[path := old +:+ data]> (files s)) s).

Definition decode_chunk (chunk_data : string) : M string :=
  match b64decode_utf8 chunk_data with
  | inr decoded_data => ret decoded_data
  | inl NotAscii => raise ValueError
  | inl BadBase64 => raise BinasciiError
  | inl BadUtf8 => raise UnicodeDecodeError
  end.

Definition chunk_size : Z := 5000.

(** The loop [while True: ...] of [get_report_data]; [fuel] bounds the
    number of download requests.  The row count, which is only logged, is
    left out. *)
Fixpoint download_loop (fuel : nat) (file_id : option string) (output_file : string)
    (begin_idx : Z) (first_chunk : bool) : M unit :=
  match fuel with
  | O => diverge
  | S k =>
      let download_envelope := _create_download_chunk_envelope file_id begin_idx chunk_size in
      response <- _make_soap_request download_envelope ;;
      r <- lift (_parse_download_chunk_response response) ;;
      let chunk_data := fst r in
      let offset := snd r in
      first_chunk' <-
        match chunk_data with
        | Some (String c cs) =>
            decoded_data <- decode_chunk (String c cs) ;;
            write_file output_file first_chunk decoded_data ;;
            ret false
        | _ => ret first_chunk
        end ;;
      if offset =? -1 then ret tt
      else download_loop k file_id output_file (begin_idx + chunk_size) first_chunk'
  end.

Definition get_report_data (fuel : nat) (report_path : string)
    (parameters : list (string * string)) : M string :=
  try_except
    (output_file <- _generate_output_filename report_path ;;
     let run_report_envelope := _create_run_report_envelope report_path parameters in
     response <- _make_soap_request run_report_envelope ;;
     file_id <- lift (_parse_run_report_response response) ;;
     download_loop fuel file_id output_file 0 true ;;
     ret output_file)
    (fun e => raise e).

End Report.

(** ** Text helpers of the configuration and logging code *)

Module Str.

(** [s.upper()] on ASCII text: the letters a-z go to A-Z, everything else
    stays.  Text with other characters is outside this model. *)
Definition upper_char (c : ascii) : ascii :=
  let n := nat_of_ascii c in
  if ((97 <=? n) && (n <=? 122))%nat then ascii_of_nat (n - 32) else c.

Fixpoint upper (s : string) : string :=
  match s with
  | EmptyString => EmptyString
  | String c s' => String (upper_char c) (upper s')
  end.

Definition is_ascii (s : string) : bool :=
  forallb (fun c => (nat_of_ascii c <? 128)%nat) (Py.chars s).

(** [sep.join(l)] *)
Fixpoint join (sep : string) (l : list string) : string :=
  match l with
  | [] => ""
  | [a] => a
  | a :: l' => a +:+ sep +:+ join sep l'
  end.

(** [x in l] for a collection of strings *)
Definition mem (x : string) (l : list string) : bool := existsb (String.eqb x) l.

End Str.

(** ** Environment configuration ([config/environment.py]) *)

Module Environment.

(** An entry of [ORACLE_CONFIGS]. *)
Record oracle_config := OracleConfig {
  cfg_base_url : string;
  cfg_auth_url : string;
  cfg_token_url : string;
  cfg_client_id : string;
  cfg_scope : string }.

(** The dictionary, in the order of its keys. *)
Definition ORACLE_CONFIGS : list (string * oracle_config) :=
  [ ("DEV1",
     OracleConfig "https://ehsg-dev1.fa.us6.oraclecloud.com"
       "https://idcs-10a29e74c18944ec81b18f08f9fc1362.identity.oraclecloud.com/oauth2/v1/authorize"
       "https://idcs-10a29e74c18944ec81b18f08f9fc1362.identity.oraclecloud.com/oauth2/v1/token"
       "522f1ba486ff4d32951f94faba65ec64"
       "urn:opc:resource:fa:instanceid=589866548urn:opc:resource:consumer::all");
    ("TEST",
     OracleConfig "https://ehsg-test.fa.us6.oraclecloud.com"
       "https://idcs-a57149b4f14045039295c03cb5771671.identity.oraclecloud.com/oauth2/v1/authorize"
       "https://idcs-a57149b4f14045039295c03cb5771671.identity.oraclecloud.com/oauth2/v1/token"
       "b2be270e16a64940ad414af496795d93"
       "urn:opc:resource:fa:instanceid=589866549urn:opc:resource:consumer::all");
    ("PROD",
     OracleConfig "https://ehsg.fa.us6.oraclecloud.com"
       "https://idcs-24cbca7916e44e3da0d4b5bfda3820a3.identity.oraclecloud.com/oauth2/v1/authorize"
       "https://idcs-24cbca7916e44e3da0d4b5bfda3820a3.identity.oraclecloud.com/oauth2/v1/token"
       "d93df868766f45d9b6ac4fb9c6d8bcad"
       "urn:opc:resource:fa:instanceid=1716952urn:opc:resource:consumer::all") ].

(** [API_CONFIG]: the time-outs in seconds and the two paths. *)
Record api_config := ApiConfig {
  timeout_default : Z;
  timeout_cancel : Z;
  timeout_connect : Z;
  timeout_sock_connect : Z;
  path_base_api : string;
  path_soap_service : string }.

Definition API_CONFIG : api_config :=
  ApiConfig 180 300 60 30 "/fscmRestApi/resources/11.13.18.05" "/fscmService".

(** The dictionary [get_env_config] returns: the entry of the environment,
    its name under ['env'] and [API_CONFIG] under ['api']. *)
Record config := Config {
  entry : oracle_config;
  env : string;
  api : api_config }.

Definition lookup (key : string) (table : list (string * oracle_config))
    : option oracle_config :=
  snd <$> List.find (fun p => String.eqb (fst p) key) table.

(** [get_env_config()] in a process environment; [inl msg] stands for
    [ValueError(msg)]. *)
Definition get_env_config (environ : gmap string string) : string + config :=
  let env := Str.upper (default "PROD" (environ !! "ORACLE_ENV")) in
  match lookup env ORACLE_CONFIGS with
  | None =>
      inl ("Invalid Oracle Environment: " +:+ env +:+ ". Valid values are: "
           +:+ Str.join ", " (map fst ORACLE_CONFIGS))
  | Some c => inr (Config c env API_CONFIG)
  end.

End Environment.

(** [OracleAuth.__init__] ([auth.py], lines 69-83): the fields of the
    configuration, the fixed redirect address, and no token. *)
Definition OracleAuth_init (config : Environment.config) : OracleAuth :=
  {| auth_url := Environment.cfg_auth_url (Environment.entry config);
     token_url := Environment.cfg_token_url (Environment.entry config);
     client_id := Environment.cfg_client_id (Environment.entry config);
     scope := Environment.cfg_scope (Environment.entry config);
     redirect_uri := "http://127.0.0.1:3009/callback";
     access_token := None; token_expiry := None; refresh_token := None |}.

(** ** Logging ([config/logger_config.py]) *)

Module LoggerConfig.

Definition ENV_DEBUG_ENABLED : string := "MCP_DEBUG_ENABLED".
Definition ENV_DEBUG_LEVEL : string := "MCP_DEBUG_LEVEL".
Definition DEFAULT_ENABLED : string := "No".
Definition DEFAULT_LEVEL : string := "ERROR".

Definition VALID_LOG_LEVELS : list string :=
  ["DEBUG"; "INFO"; "WARNING"; "ERROR"; "CRITICAL"].

Definition ALWAYS_LOG_LEVELS : list string := ["WARNING"; "ERROR"; "CRITICAL"].

(** The fields [_initialize] sets that [log] reads; [_logger] is set
    exactly when debugging is enabled. *)
Record instance := Instance {
  debug_enabled : bool;
  debug_level : string;
  _logger : bool }.

(** [os.getenv(name, default)] *)
Definition getenv (environ : gmap string string) (name default_value : string) : string :=
  default default_value (environ !! name).

Definition _initialize (environ : gmap string string) : instance :=
  let debug_enabled :=
    String.eqb (Str.upper (getenv environ ENV_DEBUG_ENABLED DEFAULT_ENABLED)) "YES" in
  let debug_level := Str.upper (getenv environ ENV_DEBUG_LEVEL DEFAULT_LEVEL) in
  let debug_level :=
    if Str.mem debug_level VALID_LOG_LEVELS then debug_level else DEFAULT_LEVEL in
  Instance debug_enabled debug_level debug_enabled.

(** The level [log] gives a message: the one asked for, in upper case, if
    it is a valid one, else the configured level. *)
Definition message_level (i : instance) (level : option string) : string :=
  let message_level :=
    match level with
    | Some (String c r) => Str.upper (String c r)
    | _ => debug_level i
    end in
  if Str.mem message_level VALID_LOG_LEVELS then message_level else debug_level i.

(** [LoggerConfig.log(message, level, **kwargs)], called from a module of
    the service [service_name]: what it hands to the [logging] module, as
    level and text, or [None] when it returns without logging.  The
    keyword arguments come as they print. *)
Definition log (i : instance) (service_name message : string) (level : option string)
    (kwargs : list (string * string)) : option (string * string) :=
  if negb (debug_enabled i) || negb (_logger i) then None
  else
    let message_level := message_level i level in
    let should_log :=
      Str.mem message_level ALWAYS_LOG_LEVELS || String.eqb message_level (debug_level i) in
    if negb should_log then None
    else
      let log_parts := ["[" +:+ service_name +:+ "]"; message] in
      let log_parts :=
        match kwargs with
        | [] => log_parts
        | _ =>
            let context := Str.join " " (map (fun kv => fst kv +:+ "=" +:+ snd kv) kwargs) in
            (log_parts ++ ["- " +:+ context])%list
        end in
      Some (message_level, Str.join " " log_parts).

End LoggerConfig.

(** ** Callers of [get_connection] *)

Section Callers.

Variable env : Env.

(** [_get_auth_header] of the order and location services
    ([order_service.py], lines 68-77; [location_service.py], lines 43-51). *)
Definition _get_auth_header : M (list (string * string)) :=
  access_token <- get_connection env ;;
  match access_token with
  | Some (String c r) =>
      ret [("Authorization", "Bearer " +:+ String c r);
           ("Content-Type", "application/json")]
  | _ => raise (Exception "Failed to get OAuth access token")
  end.

(** [SetupTaskCSVExportService._get_headers] ([setup_export_service.py],
    lines 21-28): a new [OracleAuth()] for every call, and no test of what
    [get_connection] returns.  The state has one place for the object
    [get_connection] works on; the new object is put there for the call and
    the object that was there is put back. *)
Definition _get_headers (environ : gmap string string) : M (list (string * string)) :=
  fun s =>
    match Environment.get_env_config environ with
    | inl _ => (Raise ValueError, s)
    | inr config =>
        let auth := OracleAuth_init config in
        match get_connection env (with_self (fun _ => auth) s) with
        | (Ok token, s') =>
            (Ok [("Authorization", "Bearer " +:+ Py.str_opt id token);
                 ("Content-Type", "application/json")],
             with_self (fun _ => self s) s')
        | (Raise e, s') => (Raise e, with_self (fun _ => self s) s')
        | (Diverge, s') => (Diverge, with_self (fun _ => self s) s')
        end
    end.

End Callers.

(** ** A scripted outside world, for the examples *)

Module Mock.

Definition auth0 : OracleAuth :=
  {| auth_url := "https://idcs.example/oauth2/v1/authorize";
     token_url := "https://idcs.example/oauth2/v1/token";
     client_id := "client";
     scope := "urn:opc:resource:consumer::all";
     redirect_uri := "http://127.0.0.1:3009/callback";
     access_token := None; token_expiry := None; refresh_token := None |}.

Definition state0 : State :=
  {| self := auth0; clock := 1000000; keyring := ∅; files := ∅;
     auth_code := None; serving := false;
     posts := 0; soaps := 0; sleeps := 0; draws := 0; trace := [] |}.

(** A token endpoint that rejects everything and a browser that is never
    used: nothing ever calls back. *)
Definition silent : Env :=
  {| token_endpoint := fun _ => PostResponse 400 None;
     soap_endpoint := fun _ => SoapFailed;
     callbacks := fun _ => [];
     random := fun n => n;
     uuid4 := fun _ => "0f8fad5b-d9cb-469f-a165-70867728950e";
     strftime := fun _ => "20250101_120000";
     downloads_dir := "/home/u/Downloads";
     base_url := "https://fa.example/" |}.

(** The user answers in the browser during the [k]-th second. *)
Definition answering (k : nat) (code : string) (reply : post_reply) : Env :=
  {| token_endpoint := fun _ => reply;
     soap_endpoint := soap_endpoint silent;
     callbacks := fun n => if (n =? k)%nat then [None; Some code] else [];
     random := random silent; uuid4 := uuid4 silent; strftime := strftime silent;
     downloads_dir := downloads_dir silent; base_url := base_url silent |}.

(** A report server answering from a list; it fails once the list is used up.
    A response text is the key of its tree in [trees]. *)
Definition serving_reports (replies : list soap_reply) : Env :=
  {| token_endpoint := token_endpoint silent;
     soap_endpoint := fun n => nth n replies SoapFailed;
     callbacks := callbacks silent;
     random := random silent; uuid4 := uuid4 silent; strftime := strftime silent;
     downloads_dir := downloads_dir silent; base_url := base_url silent |}.

Definition envelope (body : list element) : element :=
  Element "{http://www.w3.org/2003/05/soap-envelope}Envelope" None
    [Element "{http://www.w3.org/2003/05/soap-envelope}Body" None body].

Definition run_response (file_id : string) : element :=
  envelope [Element (ns2 "runReportResponse") None
    [Element (ns2 "runReportReturn") None
       [Element (ns2 "reportFileID") (Some file_id) []]]].

Definition chunk_response (chunk : option string) (offset : string) : element :=
  envelope [Element (ns2 "downloadReportDataChunkResponse") None
    [Element (ns2 "downloadReportDataChunkReturn") None
       [Element (ns2 "reportDataChunk") chunk [];
        Element (ns2 "reportDataOffset") (Some offset) []]]].

Definition trees : list (string * element) :=
  [ ("run", run_response "FILE123");
    ("A", chunk_response (Some "QQ==") "0");
    ("B", chunk_response (Some "Qg==") "5000");
    ("C", chunk_response (Some "Qw==") "10000");
    ("D", chunk_response (Some "RA==") "-1");
    ("rows", chunk_response (Some "aDEsaDIKcjEscjIK") "0");
    ("empty", chunk_response None "0");
    ("end", chunk_response None "-1");
    ("nothing", envelope []) ].

Definition fromstring (text : string) : option element :=
  snd <$> List.find (fun p => String.eqb (fst p) text) trees.

(** An object holding a token that stays valid for an hour. *)
Definition logged_in : State :=
  with_self (fun a => set_token_expiry (Some (clock state0 + 3600))
                        (set_access_token (Some "TOKEN") a)) state0.

(** A new process whose store holds a token that stays valid for an hour. *)
Definition in_store : State :=
  {| self := auth0; clock := 1000000;
     keyring := <[("mcp_oracle", "oauth_token_expiry") := "1003600.0"]>
                  (<[("mcp_oracle", "oauth_token") := "TOKEN"]> ∅);
     files := ∅; auth_code := None; serving := false;
     posts := 0; soaps := 0; sleeps := 0; draws := 0; trace := [] |}.

(** The server of the chunked-download scenario: offsets 0, 5000, 10000
    and -1, and one more answer that must not be asked for. *)
Definition four_chunks : Env :=
  serving_reports (map (SoapResponse 200) ["run"; "A"; "B"; "C"; "D"; "A"]).

Definition no_chunks : Env :=
  serving_reports (map (SoapResponse 200) ["run"; "empty"; "end"]).

Definition failing_second_download : Env :=
  serving_reports [SoapResponse 200 "run"; SoapResponse 200 "A";
                   SoapResponse 503 "Service Unavailable"].

(** The end-to-end scenario: one chunk of two lines, then the end. *)
Definition two_rows : Env :=
  serving_reports (map (SoapResponse 200) ["run"; "rows"; "end"]).

(** The token endpoint answers the code exchange with an access token and a
    refresh token but no [expires_in]. *)
Definition no_expires_in : Env :=
  answering 0 "CODE" (PostResponse 200 (Some (TokenData (Some "T") None (Some "R")))).

Definition report_path : string := "/X/Y/Report.xdo".
Definition parameters : list (string * string) := [("P_A", "1")].
Definition output_file : string :=
  "/home/u/Downloads/Report_20250101_120000_0f8fad5b.csv".
Definition url : string :=
  "https://fa.example/xmlpserver/services/PublicReportWSSService".

End Mock.

(** * Vocabulary of the properties *)

(** [returns m]: the computation ends with a value in every state;
    [halts m]: it never uses up the iteration budget. *)
Definition returns {A} (m : M A) : Prop := forall s, exists a s', m s = (Ok a, s').
Definition halts {A} (m : M A) : Prop := forall s, fst (m s) <> Diverge.

Abbreviation k_token := ("mcp_oracle", "oauth_token").
Abbreviation k_expiry := ("mcp_oracle", "oauth_token_expiry").
Abbreviation k_refresh := ("mcp_oracle", "oauth_refresh_token").

(** What [load_from_keychain] reads in a store whose expiry entry, if
    there is one, is a [whole_second_text]: on another text [Py.float] may
    give [None] where [float] reads a number. *)
Definition stored (k : gmap (string * string) string)
    : option string * option Z * option string :=
  match k !! k_expiry with
  | Some (String c r) =>
      match Py.float (String c r) with
      | Some z => (k !! k_token, Some z, k !! k_refresh)
      | None => (None, None, None)
      end
  | _ => (k !! k_token, None, k !! k_refresh)
  end.

(** What [save_to_keychain] leaves in a store. *)
Definition saved (token : string) (expiry_time : option Z) (refresh : option string)
    (k : gmap (string * string) string) : gmap (string * string) string :=
  let k' := <[k_expiry := Py.str_opt Py.str_float expiry_time]> (<[k_token := token]> k) in
  match refresh with
  | Some (String c r) => <[k_refresh := String c r]> k'
  | _ => k'
  end.

(** What [clear_keychain] leaves in a store: the deletions stop at the
    first secret that is not there. *)
Definition cleared (k : gmap (string * string) string) : gmap (string * string) string :=
  match k !! k_token with
  | None => k
  | Some _ =>
      let k1 := delete k_token k in
      match k1 !! k_expiry with
      | None => k1
      | Some _ =>
          let k2 := delete k_expiry k1 in
          match k2 !! k_refresh with
          | None => k2
          | Some _ => delete k_refresh k2
          end
      end
  end.

(** A store as [save_to_keychain] and a completed [clear_keychain] leave it:
    a refresh token only beside an expiry, an expiry only beside a token. *)
Definition consistent (k : gmap (string * string) string) : Prop :=
  (is_Some (k !! k_refresh) -> is_Some (k !! k_expiry))
  /\ (is_Some (k !! k_expiry) -> is_Some (k !! k_token)).

Definition empty_of_credentials (k : gmap (string * string) string) : Prop :=
  k !! k_token = None /\ k !! k_expiry = None /\ k !! k_refresh = None.

(** The token endpoint's answer makes the request fail: no response, an
    error status, a body that is not JSON or a body without access token. *)
Definition rejected (r : post_reply) : bool :=
  match r with
  | PostFailed => true
  | PostResponse status body =>
      (400 <=? status) && (status <? 600)
      || match body with
         | Some td => match td_access_token td with Some _ => false | None => true end
         | None => true
         end
  end.

(** The refresh token [refresh_access_token] sends: the one in memory, else
    the one in the store. *)
Definition refresh_token_at (s : State) : option string :=
  if Py.truthy (refresh_token (self s)) then refresh_token (self s)
  else snd (stored (keyring s)).

Definition forget (a : OracleAuth) : OracleAuth :=
  set_token_expiry None (set_refresh_token None (set_access_token None a)).

Definition refresh_params (a : OracleAuth) (refresh : string) : list (string * string) :=
  [("grant_type", "refresh_token"); ("refresh_token", refresh);
   ("client_id", client_id a)].

(** A store holding a refresh token and nothing else, as it is when the
    other two secrets were removed from outside. *)
Definition orphan_refresh_token : State :=
  with_keyring {[ k_refresh := "R" ]} Mock.state0.

Definition timed_out : exn := TimeoutError "Authorization timed out after 5 minutes".

(** The code the handler holds after a batch of callbacks: the last one
    that came with a code, else what it held before. *)
Definition captured (held : option string) (batch : list (option string)) : option string :=
  fold_left (fun acc c => match c with Some x => Some x | None => acc end) batch held.

Definition handled (s : State) (batch : list (option string)) : State :=
  fold_left (fun st c => do_GET c st) batch s.

(** The state once the listener runs and the browser is open. *)
Definition listening (env : Env) (s : State) : State :=
  let verifier := Pkce.generate_code_verifier (fun i => random env (draws s + i)%nat) in
  emit (BrowserOpened (auth_url (self s))
          [("client_id", client_id (self s)); ("response_type", "code");
           ("redirect_uri", redirect_uri (self s)); ("scope", scope (self s));
           ("code_challenge", Pkce.generate_code_challenge verifier);
           ("code_challenge_method", "S256")])
    (with_draws (draws s + 128)%nat
       (with_auth_code None (with_serving true (emit ServerStarted s)))).

(** The poll, counted from the start of the wait, at which a code is first
    seen, and that code: the search runs over the seconds [from], ...,
    [from + n - 1] of the environment, [j] seconds having passed. *)
Fixpoint first_code (env : Env) (n from j : nat) : option (nat * string) :=
  match n with
  | O => None
  | S k =>
      match captured None (callbacks env from) with
      | Some c => Some (S j, c)
      | None => first_code env k (S from) (S j)
      end
  end.


Definition verifier_at (env : Env) (s : State) : string :=
  Pkce.generate_code_verifier (fun i => random env (draws s + i)%nat).


(** The object after a token response was stored at time [now]. *)
Definition updated (td : token_data) (tok : string) (now : Z) (a : OracleAuth) : OracleAuth :=
  let a1 := set_access_token (Some tok) a in
  let a2 := match td_expires_in td with
            | Some d => set_token_expiry (Some (now + d)) a1
            | None => a1
            end in
  match td_refresh_token td with
  | Some r => set_refresh_token (Some r) a2
  | None => a2
  end.

Definition persisted (td : token_data) (tok : string) (s : State) : State :=
  let a := updated td tok (clock s) (self s) in
  with_keyring
    (saved tok (token_expiry a)
       (match td_refresh_token td with Some _ => refresh_token a | None => None end)
       (keyring s))
    (with_self (fun _ => a) s).

Definition posted (url : string) (params : list (string * string)) (s : State) : State :=
  with_posts (S (posts s)) (emit (TokenPost url params) s).

Definition code_params (a : OracleAuth) (auth_code code_verifier : string)
    : list (string * string) :=
  [("grant_type", "authorization_code"); ("code", auth_code);
   ("redirect_uri", redirect_uri a); ("client_id", client_id a);
   ("code_verifier", code_verifier)].

(** The expiry leaves more than the 300-second margin at time [now]. *)
Definition within_margin (now : Z) (expiry : option Z) : Prop :=
  exists e, expiry = Some e /\ e <> 0 /\ now < e - 300.

(** The magnitude below which the whole numbers of seconds of the model,
    their sums and their differences are floats of the program, so that its
    arithmetic and its comparisons are the exact ones. *)
Definition second_bound : Z := 2 ^ 51.

(** The text of an expiry entry as the program writes it at a whole second:
    [str(None)] or [str(x)] for a whole [x].  On these texts (and on no
    entry) [Py.float] is the [float] of Python. *)
Definition whole_second_text (t : string) : Prop :=
  t = "None" \/ exists z, Z.abs z < second_bound /\ t = Py.str_float z.

(** A state within the model: clock and expiry are whole seconds below the
    bound, and so is the expiry written in the store. *)
Definition in_seconds (s : State) : Prop :=
  Z.abs (clock s) < second_bound
  /\ (forall e, token_expiry (self s) = Some e -> Z.abs e < second_bound)
  /\ (forall t, keyring s !! k_expiry = Some t -> whole_second_text t).


Definition stored_token (s : State) : option string := fst (fst (stored (keyring s))).
Definition stored_expiry (s : State) : option Z := snd (fst (stored (keyring s))).

(** A token of the store moved into the object. *)
Definition promoted (s : State) : State :=
  with_self (fun a => set_token_expiry (stored_expiry s)
                        (set_access_token (stored_token s) a)) s.

(** The first thing a refresh or a new authorization does to the world. *)
Definition attempt (a : OracleAuth) (ev : event) : Prop :=
  ev = ServerStarted
  \/ exists refresh, ev = TokenPost (token_url a) (refresh_params a refresh).



(** The object holds the token [tok], within the margin. *)
Definition logged_in (s : State) (tok : string) : Prop :=
  access_token (self s) = Some tok /\ tok <> ""
  /\ within_margin (clock s) (token_expiry (self s)).

(** The state once [get_report_data] has made up the name of its output
    file, which takes a value of the random source. *)
Definition named (s : State) : State := with_draws (S (draws s)) s.

(** The run gets its bearer token: the first call of [get_connection],
    made in the state [s0] and by whatever path, returns [tok] and leaves the
    state [s1], in which the object holds [tok] within the margin. *)
Definition authorized (env : Env) (s0 : State) (tok : string) (s1 : State) : Prop :=
  get_connection env s0 = (Ok (Some tok), s1) /\ logged_in s1 tok.

(** The state after a SOAP request went out. *)
Definition sent (env : Env) (body : soap_request) (tok : string) (s : State) : State :=
  with_soaps (S (soaps s)) (emit (SoapPost (soap_url env) body tok) s).

(** The state after a decoded chunk, if any, went to the output file. *)
Definition received (out : string) (first_chunk : bool) (p : option string) (s : State)
    : State :=
  match p with
  | Some d =>
      with_files
        (<[out := (if first_chunk then "" else default "" (files s !! out)) +:+ d]> (files s)) s
  | None => s
  end.

Definition still_first (first_chunk : bool) (p : option string) : bool :=
  match p with Some _ => false | None => first_chunk end.

(** What the loop does with the text of a chunk element: nothing for
    [None] and for the empty text, else the decoded text is written. *)
Definition payload (chunk : option string) : decode_error + option string :=
  match chunk with
  | Some (String c r) =>
      match b64decode_utf8 (String c r) with
      | inr d => inr (Some d)
      | inl e => inl e
      end
  | _ => inr None
  end.

Definition download_request (file_id : option string) (begin_idx : Z) : soap_request :=
  DownloadReportDataChunk (Py.str_opt id file_id) begin_idx 5000.

(** The file name [_generate_output_filename] makes up in a state. *)
Definition output_path (env : Env) (report_path : string) (s : State) : string :=
  path_join (downloads_dir env)
    (Py.replace ".xdo" "" (Py.last_segment "/" report_path) +:+ "_"
     +:+ strftime env (clock s) +:+ "_" +:+ Py.take 8 (uuid4 env (draws s)) +:+ ".csv").

Section PipelineTerms.

Variable env : Env.
Variable ET : string -> option element.

(** The server answers status 200 with a document holding the file id. *)
Definition run_reply (r : soap_reply) (file_id : option string) : Prop :=
  exists text, r = SoapResponse 200 text
               /\ _parse_run_report_response ET text = Ok file_id.

(** The server answers status 200 with a document holding a chunk and an
    offset, and the chunk decodes to the payload [p]. *)
Definition chunk_reply (r : soap_reply) (p : option string) (offset : Z) : Prop :=
  exists text chunk,
    r = SoapResponse 200 text
    /\ _parse_download_chunk_response ET text = Ok (chunk, offset)
    /\ payload chunk = inr p.

(** From its [k]-th answer on, the server answers with these payloads and
    offsets, one after the other. *)
Inductive serves : nat -> list (option string * Z) -> Prop :=
| serves_nil k : serves k []
| serves_cons k p offset rest :
    chunk_reply (soap_endpoint env k) p offset ->
    serves (S k) rest ->
    serves k ((p, offset) :: rest).

(** The state after the download requests for the payloads [ps], the
    first of them asking from [begin_idx] on. *)
Fixpoint downloaded (tok : string) (file_id : option string) (out : string)
    (begin_idx : Z) (first_chunk : bool) (ps : list (option string)) (s : State) : State :=
  match ps with
  | [] => s
  | p :: ps' =>
      downloaded tok file_id out (begin_idx + 5000) (still_first first_chunk p) ps'
        (received out first_chunk p (sent env (download_request file_id begin_idx) tok s))
  end.

(** The text the payloads add up to; [None] when there is no payload at all. *)
Fixpoint joined (ps : list (option string)) : option string :=
  match ps with
  | [] => None
  | None :: ps' => joined ps'
  | Some d :: ps' => Some (d +:+ default "" (joined ps'))
  end.

(** The answer that breaks the run ([true]) or a download ([false]), and
    the exception it leads to. *)
Inductive broken : bool -> soap_reply -> exn -> Prop :=
| broken_status is_run status text :
    status <> 200 ->
    broken is_run (SoapResponse status text) (Exception (soap_failed status text))
| broken_file_id text root :
    ET text = Some root -> find (ns2 "reportFileID") root = None ->
    broken true (SoapResponse 200 text)
      (Exception "Could not find reportFileID in response")
| broken_chunk text root :
    ET text = Some root ->
    find (ns2 "reportDataChunk") root = None
    \/ find (ns2 "reportDataOffset") root = None ->
    broken false (SoapResponse 200 text)
      (Exception "Could not find reportDataChunk or reportDataOffset in response").

End PipelineTerms.

(** ** Vocabulary of the further properties *)

(** The characters of the URL-safe alphabet without padding. *)
Definition base64url (c : ascii) : bool :=
  let n := nat_of_ascii c in
  ((65 <=? n) && (n <=? 90) || (97 <=? n) && (n <=? 122)
   || (48 <=? n) && (n <=? 57) || (n =? 45) || (n =? 95))%nat.

(** Text without white space and without a point, as the digits are. *)
Definition plain (s : string) : Prop :=
  Forall (fun c => Py.is_space c = false /\ Ascii.eqb c "." = false) (Py.chars s).

(** The configuration of the object, which no method changes. *)
Definition same_config (a b : OracleAuth) : Prop :=
  auth_url a = auth_url b /\ token_url a = token_url b /\ client_id a = client_id b
  /\ scope a = scope b /\ redirect_uri a = redirect_uri b.

(** The footprint of a call that sends at most [n] token requests. *)
Definition footprint (n : nat) (s s' : State) : Prop :=
  (serving s = false -> serving s' = false)
  /\ (posts s <= posts s' <= posts s + n)%nat
  /\ soaps s' = soaps s /\ files s' = files s
  /\ same_config (self s') (self s)
  /\ forall key, key <> k_token -> key <> k_expiry -> key <> k_refresh ->
       keyring s' !! key = keyring s !! key.

(** The same of a step that leaves the listener as it is. *)
Definition instant (n : nat) (s s' : State) : Prop :=
  serving s' = serving s
  /\ (posts s <= posts s' <= posts s + n)%nat
  /\ soaps s' = soaps s /\ files s' = files s
  /\ same_config (self s') (self s)
  /\ forall key, key <> k_token -> key <> k_expiry -> key <> k_refresh ->
       keyring s' !! key = keyring s !! key.

(** The query of the authorization address. *)
Definition auth_params (a : OracleAuth) (code_challenge : string) : list (string * string) :=
  [("client_id", client_id a); ("response_type", "code");
   ("redirect_uri", redirect_uri a); ("scope", scope a);
   ("code_challenge", code_challenge); ("code_challenge_method", "S256")].

(** The exception of each failing step of [b64decode(...).decode('utf-8')]. *)
Definition decode_exn (err : decode_error) : exn :=
  match err with
  | NotAscii => ValueError
  | BadBase64 => BinasciiError
  | BadUtf8 => UnicodeDecodeError
  end.

Section FailureTerms.

Variable ET : string -> option element.

(** A download answer the loop cannot use, and the exception of the
    library call that fails on it.  The offset text that is no integer is
    an ASCII text: of other characters [int] knows more spaces and digits
    than [Py.int]. *)
Inductive unusable : soap_reply -> exn -> Prop :=
| unusable_transport : unusable SoapFailed ClientError
| unusable_document text :
    ET text = None -> unusable (SoapResponse 200 text) ParseError
| unusable_offset_empty text root chunk_elem offset_elem :
    ET text = Some root ->
    find (ns2 "reportDataChunk") root = Some chunk_elem ->
    find (ns2 "reportDataOffset") root = Some offset_elem ->
    text_of offset_elem = None ->
    unusable (SoapResponse 200 text) TypeError
| unusable_offset_text text root chunk_elem offset_elem t :
    ET text = Some root ->
    find (ns2 "reportDataChunk") root = Some chunk_elem ->
    find (ns2 "reportDataOffset") root = Some offset_elem ->
    text_of offset_elem = Some t -> Str.is_ascii t = true -> Py.int t = None ->
    unusable (SoapResponse 200 text) ValueError
| unusable_chunk text chunk offset err :
    _parse_download_chunk_response ET text = Ok (Some chunk, offset) ->
    chunk <> "" -> b64decode_utf8 chunk = inl err ->
    unusable (SoapResponse 200 text) (decode_exn err).

End FailureTerms.

(** [c] repeated [k] times. *)
Definition copies (k : nat) (c : ascii) : string := Py.of_chars (repeat c k).

(** A value a byte can hold. *)
Definition byte (b : Z) : Prop := 0 <= b < 256.

(** A character of the alphabet stands for its index and is no padding. *)
Definition sextet_ok (i : Z) : bool :=
  match Base64.sextet_value (Base64.sextet i) with
  | Some v => (v =? i) && negb (Ascii.eqb (Base64.sextet i) "=")
  | None => false
  end.

(** The range of six bits. *)
Definition in64 (x : Z) : bool := (0 <=? x) && (x <? 64).

(** The first and second character of a group, from the bytes [a] and [b]. *)
Definition first_two (a b : Z) : bool :=
  let s1 := Z.shiftr a 2 in
  let s2 := Z.lor (Z.shiftl (Z.land a 3) 4) (Z.shiftr b 4) in
  in64 s1 && in64 s2
  && (Z.lor (Z.shiftl s1 2) (Z.shiftr s2 4) =? a)
  && (Z.land s2 15 =? Z.shiftr b 4).

(** The third and fourth character, from the bytes [b] and [c]. *)
Definition last_two (b c : Z) : bool :=
  let s3 := Z.lor (Z.shiftl (Z.land b 15) 2) (Z.shiftr c 6) in
  let s4 := Z.land c 63 in
  in64 s3 && in64 s4
  && (Z.lor (Z.shiftl (Z.shiftr b 4) 4) (Z.shiftr s3 2) =? b)
  && (Z.lor (Z.shiftl (Z.land s3 3) 6) s4 =? c).

(** A group cut short after one or two bytes. *)
Definition short_group (a : Z) : bool :=
  let s2 := Z.shiftl (Z.land a 3) 4 in
  let s3 := Z.shiftl (Z.land a 15) 2 in
  in64 s2 && in64 s3
  && (Z.lor (Z.shiftl (Z.shiftr a 2) 2) (Z.shiftr s2 4) =? a)
  && (Z.lor (Z.shiftl (Z.shiftr a 4) 4) (Z.shiftr s3 2) =? a).

(** ** Scenarios of the further properties *)

Module Sample.

(** A token endpoint granting a token for an hour, with a new refresh
    token. *)
Definition hour : token_data := TokenData (Some "T") (Some 3600) (Some "R2").

Definition granting (td : token_data) : Env :=
  Mock.answering 0 "CODE" (PostResponse 200 (Some td)).

(** A token that lives a minute. *)
Definition minute : token_data := TokenData (Some "T") (Some 60) None.

(** An object holding a refresh token and nothing else. *)
Definition refreshable : State :=
  with_self (set_refresh_token (Some "R")) Mock.state0.

(** A new process beside the store another one left. *)
Definition restarted (k : gmap (string * string) string) : State :=
  with_keyring k Mock.state0.

(** An object that holds a token, beside the store [save_to_keychain] left
    with it: the token, its expiry and a refresh token. *)
Definition signed_in : State :=
  with_keyring (saved "TOKEN" (Some 1003600) (Some "R") ∅) Mock.logged_in.

(** A new process beside a store whose token ran out, without a refresh
    token. *)
Definition run_out : State :=
  with_keyring (saved "OLD" (Some 999000) None ∅) Mock.state0.

(** Documents with a chunk that is not base64 and with an offset that is
    no number. *)
Definition trees : list (string * element) :=
  ("bad", Mock.chunk_response (Some "QQ=") "0")
  :: ("nan", Mock.chunk_response (Some "QQ==") "x")
  :: Mock.trees.

Definition fromstring (text : string) : option element :=
  snd <$> List.find (fun p => String.eqb (fst p) text) trees.

Definition bad_second_chunk : Env :=
  Mock.serving_reports (map (SoapResponse 200) ["run"; "A"; "bad"]).

(** The configuration of a process that does not set [ORACLE_ENV]. *)
Definition production : Environment.config :=
  Environment.Config
    (snd (nth 2 Environment.ORACLE_CONFIGS ("", Environment.OracleConfig "" "" "" "" "")))
    "PROD" Environment.API_CONFIG.

End Sample.

(** * Properties *)

(** ** The library functions of the model on sample inputs *)

Example int_samples :
  Py.int "-1" = Some (-1) /\ Py.int (" -1" +:+ String (ascii_of_nat 10) "") = Some (-1)
  /\ Py.int "+5" = Some 5 /\ Py.int "00012" = Some 12 /\ Py.int "1_0" = Some 10
  /\ Py.int "- 1" = None /\ Py.int "+-1" = None /\ Py.int "-" = None
  /\ Py.int "" = None /\ Py.int "1e3" = None /\ Py.int "_1" = None
  /\ Py.int "1__0" = None.
Proof. repeat split; reflexivity. Qed.

Example float_samples :
  Py.float (Py.str_float 1000200) = Some 1000200 /\ Py.str_float 1000200 = "1000200.0"
  /\ Py.float " 12 " = Some 12 /\ Py.float "1." = Some 1
  /\ Py.float "None" = None /\ Py.float "" = None
  /\ Py.str_opt Py.str_float None = "None".
Proof. repeat split; reflexivity. Qed.

Example replace_samples :
  Py.replace ".xdo" "" "a.xdo.xdo" = "a" /\ Py.replace ".xdo" "" "xx.xd.xdoo" = "xx.xdo"
  /\ Py.replace "aXa" "b" "aXaXa" = "bXa" /\ Py.replace "aa" "b" "aaa" = "ba"
  /\ Py.replace "+" "-" "a+b+" = "a-b-".
Proof. repeat split; reflexivity. Qed.

Example rstrip_samples :
  Py.rstrip "=" "ab==" = "ab" /\ Py.rstrip "=" "==" = ""
  /\ Py.rstrip "=" "=a=b" = "=a=b" /\ Py.rstrip "/" "https://x//" = "https://x".
Proof. repeat split; reflexivity. Qed.

Example path_samples :
  Py.last_segment "/" "/X/Y/Report.xdo" = "Report.xdo"
  /\ Py.last_segment "/" "/X/Y/" = "" /\ Py.last_segment "/" "Report" = "Report"
  /\ path_join "/home/u/Downloads" "a.csv" = "/home/u/Downloads/a.csv"
  /\ path_join "/home/u/Downloads/" "a.csv" = "/home/u/Downloads/a.csv"
  /\ path_join "" "a.csv" = "a.csv" /\ path_join "/d" "/abs.csv" = "/abs.csv".
Proof. repeat split; reflexivity. Qed.

(** FIPS 180-4, appendix B.1: the digest of "abc". *)
Example sha256_abc :
  Sha256.digest (Py.encode "abc")
  = [ 0xba; 0x78; 0x16; 0xbf; 0x8f; 0x01; 0xcf; 0xea; 0x41; 0x41; 0x40; 0xde;
      0x5d; 0xae; 0x22; 0x23; 0xb0; 0x03; 0x61; 0xa3; 0x96; 0x17; 0x7a; 0x9c;
      0xb4; 0x10; 0xff; 0x61; 0xf2; 0x00; 0x15; 0xad ].
Proof. vm_compute. reflexivity. Qed.

Example b64decode_samples :
  b64decode_utf8 "aDEsaDI=" = inr "h1,h2" /\ b64decode_utf8 "aDEsaDI==" = inr "h1,h2"
  /\ b64decode_utf8 "aD=EsaDI=" = inr "h1,h2" /\ b64decode_utf8 "QQ==" = inr "A"
  /\ b64decode_utf8 "=" = inr "" /\ b64decode_utf8 "QQ==Qg==" = inr "A"
  /\ b64decode_utf8 "aDEsaDI" = inl BadBase64 /\ b64decode_utf8 "a" = inl BadBase64
  /\ b64decode_utf8 "gA==" = inl BadUtf8 /\ b64decode_utf8 "wIA=" = inl BadUtf8
  /\ b64decode_utf8 "4oKs" = inr (Py.of_bytes [0xe2; 0x82; 0xac]).
Proof. repeat split; reflexivity. Qed.

Example verifier_alphabet :
  Pkce.chars = "abcdefghijklmnopqrstuvwxyzABCDEFGHIJKLMNOPQRSTUVWXYZ0123456789-._~"
  /\ String.length Pkce.chars = 66%nat.
Proof. split; reflexivity. Qed.

(** ** Strings *)

Lemma chars_of_chars (l : list ascii) : Py.chars (Py.of_chars l) = l.
Proof. induction l as [|c l IH]; simpl; [reflexivity | now rewrite IH]. Qed.

Lemma of_chars_chars (s : string) : Py.of_chars (Py.chars s) = s.
Proof. induction s as [|c s IH]; simpl; [reflexivity | now rewrite IH]. Qed.

Lemma length_of_chars (l : list ascii) : String.length (Py.of_chars l) = length l.
Proof. induction l as [|c l IH]; simpl; [reflexivity | now rewrite IH]. Qed.

Lemma prefix_single (a c : ascii) (s : string) :
  String.prefix (String a EmptyString) (String c s) = Ascii.eqb c a.
Proof.
  simpl. destruct (ascii_dec a c) as [->|Hne].
  - rewrite Ascii.eqb_refl. now destruct s.
  - symmetry. apply Ascii.eqb_neq. congruence.
Qed.

(** Replacing one character by another is a map over the characters. *)
Lemma replace_single (a b : ascii) (s : string) :
  Py.replace (String a EmptyString) (String b EmptyString) s
  = Py.of_chars (map (fun c => if Ascii.eqb c a then b else c) (Py.chars s)).
Proof.
  unfold Py.replace. induction s as [|c s IH]; [reflexivity|].
  cbn [Py.replace_from]. rewrite prefix_single.
  cbn [String.length Nat.sub]. rewrite IH.
  cbn [Py.chars map Py.of_chars]. destruct (Ascii.eqb c a); reflexivity.
Qed.

Lemma drop_pad_snoc (l : list ascii) (a : ascii) :
  Pkce.drop_pad (l ++ [a])
  = match Pkce.drop_pad l with
    | [] => if Ascii.eqb a "=" then [] else [a]
    | x :: r => x :: (r ++ [a])%list
    end.
Proof.
  induction l as [|c l IH]; simpl.
  - reflexivity.
  - destruct (Ascii.eqb c "="); [exact IH | reflexivity].
Qed.

Lemma rstrip_pad (s : string) :
  Py.rstrip "=" s = Py.of_chars (rev (Pkce.drop_pad (rev (Py.chars s)))).
Proof.
  induction s as [|a s IH]; [reflexivity|].
  cbn [Py.rstrip Py.chars rev]. rewrite drop_pad_snoc, IH.
  destruct (Pkce.drop_pad (rev (Py.chars s))) as [|x r].
  - simpl. now destruct (Ascii.eqb a "=").
  - change (x :: r ++ [a])%list with ((x :: r) ++ [a])%list.
    rewrite rev_app_distr. cbn [rev app Py.of_chars].
    destruct (rev r ++ [x])%list eqn:E; [now destruct (rev r) | reflexivity].
Qed.

Lemma drop_pad_incl (l : list ascii) (c : ascii) :
  In c (Pkce.drop_pad l) -> In c l.
Proof.
  induction l as [|a l IH]; simpl; [tauto|].
  destruct (Ascii.eqb a "="); simpl; tauto.
Qed.

Lemma drop_pad_head (l : list ascii) :
  match Pkce.drop_pad l with
  | c :: _ => c <> "="%char
  | [] => True
  end.
Proof.
  induction l as [|a l IH]; simpl; [exact I|].
  destruct (Ascii.eqb a "=") eqn:E; [exact IH|]. now apply Ascii.eqb_neq.
Qed.

Lemma last_char_snoc (l : list ascii) (x : ascii) :
  Py.last_char (Py.of_chars (l ++ [x])) = Some x.
Proof.
  induction l as [|a l IH]; [reflexivity|].
  cbn [app Py.of_chars Py.last_char]. rewrite IH.
  now destruct (Py.of_chars (l ++ [x])) eqn:E; [destruct l|].
Qed.

Lemma url_safe_twice (c : ascii) :
  (fun c => if Ascii.eqb c "/" then "_"%char else c)
    ((fun c => if Ascii.eqb c "+" then "-"%char else c) c)
  = Pkce.url_safe c.
Proof.
  unfold Pkce.url_safe. destruct (Ascii.eqb c "+") eqn:E; [reflexivity|].
  reflexivity.
Qed.

Lemma url_safe_plain (c : ascii) :
  Pkce.url_safe c <> "+"%char /\ Pkce.url_safe c <> "/"%char.
Proof.
  unfold Pkce.url_safe.
  destruct (Ascii.eqb c "+") eqn:E1; [split; discriminate|].
  destruct (Ascii.eqb c "/") eqn:E2; [split; discriminate|].
  split; now apply Ascii.eqb_neq.
Qed.

(** ** PKCE *)

(** The RFC 7636 example (appendix B) runs through the model. *)
Example rfc7636_appendix_b :
  Pkce.generate_code_challenge "dBjftJeZ4CVP-mB92K27uhbUJU1p1r_wW1gFWFOEjXk"
  = "E9Melhoa2OwvFrEMTJguCHaoeK1t8URWbuGJSstw-cM".
Proof. vm_compute. reflexivity. Qed.

(** C7.  [generate_code_challenge] is a function of the verifier alone, so
    that two applications agree; it is
    the transform of the specification (SHA-256, base64, "+" to "-", "/" to
    "_", trailing "=" stripped), and its result holds no "+", no "/" and
    does not end in "=". *)
Theorem generate_code_challenge_url_safe (verifier : string) :
  Pkce.generate_code_challenge verifier = Pkce.derive_challenge verifier
  /\ (let first := Pkce.generate_code_challenge verifier in
      let second := Pkce.generate_code_challenge verifier in first = second)
  /\ ~ In "+"%char (Py.chars (Pkce.generate_code_challenge verifier))
  /\ ~ In "/"%char (Py.chars (Pkce.generate_code_challenge verifier))
  /\ Py.last_char (Pkce.generate_code_challenge verifier) <> Some "="%char.
Proof.
  assert (Heq : Pkce.generate_code_challenge verifier = Pkce.derive_challenge verifier).
  { unfold Pkce.generate_code_challenge, Pkce.derive_challenge, Base64.b64encode.
    rewrite rstrip_pad, !replace_single, !chars_of_chars, map_map.
    do 4 f_equal. apply map_ext. intros c. apply url_safe_twice. }
  split; [exact Heq|]. split; [reflexivity|].
  rewrite Heq. unfold Pkce.derive_challenge.
  set (b64 := Base64.encode_chars _).
  assert (Hin : forall c, In c (rev (Pkce.drop_pad (rev (map Pkce.url_safe b64)))) ->
                          exists x, c = Pkce.url_safe x).
  { intros c Hc. apply in_rev, drop_pad_incl in Hc. apply in_rev in Hc.
    apply in_map_iff in Hc as (x & <- & _). now exists x. }
  rewrite chars_of_chars. repeat split.
  - intros Hc. apply Hin in Hc as (x & Hx). destruct (url_safe_plain x). congruence.
  - intros Hc. apply Hin in Hc as (x & Hx). destruct (url_safe_plain x). congruence.
  - pose proof (drop_pad_head (rev (map Pkce.url_safe b64))) as Hh.
    destruct (Pkce.drop_pad _) as [|x r]; [discriminate|].
    cbn [rev]. rewrite last_char_snoc. congruence.
Qed.

Lemma choice_in_class (r : nat) : Pkce.in_class (Pkce.choice Pkce.chars r) = true.
Proof.
  unfold Pkce.choice.
  assert (Hlen : String.length Pkce.chars = 66%nat) by reflexivity.
  rewrite Hlen.
  assert (Hall : forallb (fun i => Pkce.in_class (nth i (Py.chars Pkce.chars) "000"%char))
                   (seq 0 66) = true) by (vm_compute; reflexivity).
  rewrite forallb_forall in Hall. apply Hall, in_seq.
  pose proof (Nat.mod_upper_bound r 66). lia.
Qed.

(** C8.  Whatever the random source draws, the verifier has 128 characters,
    all of them in [A-Za-z0-9-._~]; so has the verifier that
    [generate_code_verifier] returns in any state of any environment. *)
Theorem generate_code_verifier_shape (rand : nat -> nat) :
  String.length (Pkce.generate_code_verifier rand) = 128%nat
  /\ Forall (fun c => Pkce.in_class c = true)
        (Py.chars (Pkce.generate_code_verifier rand))
  /\ forall env s, exists v,
       fst (generate_code_verifier env s) = Ok v
       /\ String.length v = 128%nat
       /\ Forall (fun c => Pkce.in_class c = true) (Py.chars v).
Proof.
  assert (H : forall f, String.length (Pkce.generate_code_verifier f) = 128%nat
                /\ Forall (fun c => Pkce.in_class c = true)
                      (Py.chars (Pkce.generate_code_verifier f))).
  { intros f. unfold Pkce.generate_code_verifier. split.
    - now rewrite length_of_chars, length_map, length_seq.
    - rewrite chars_of_chars. apply List.Forall_forall. intros c Hc.
      apply in_map_iff in Hc as (i & <- & _). apply choice_in_class. }
  split; [apply H|]. split; [apply H|].
  intros env s. eexists. split; [reflexivity|]. apply H.
Qed.

(** ** The monad *)

Lemma returns_halts {A} (m : M A) : returns m -> halts m.
Proof. intros H s. destruct (H s) as (a & s' & ->). discriminate. Qed.

Lemma returns_ret {A} (a : A) : returns (ret a).
Proof. intros s. now exists a, s. Qed.

Lemma returns_get {A} (f : State -> A) : returns (get f).
Proof. intros s. now exists (f s), s. Qed.

Lemma returns_modify (f : State -> State) : returns (modify f).
Proof. intros s. now exists tt, (f s). Qed.

Lemma returns_bind {A B} (m : M A) (k : A -> M B) :
  returns m -> (forall a, returns (k a)) -> returns (bind m k).
Proof.
  intros Hm Hk s. destruct (Hm s) as (a & s1 & E).
  destruct (Hk a s1) as (b & s2 & E2). exists b, s2. unfold bind. now rewrite E.
Qed.

Lemma halts_raise {A} (e : exn) : halts (@raise A e).
Proof. intros s. discriminate. Qed.

Lemma halts_lift {A} (o : outcome A) : o <> Diverge -> halts (lift o).
Proof. intros H s. exact H. Qed.

Lemma halts_bind {A B} (m : M A) (k : A -> M B) :
  halts m -> (forall a, halts (k a)) -> halts (bind m k).
Proof.
  intros Hm Hk s. unfold bind. specialize (Hm s).
  destruct (m s) as [[a|e|] s1]; cbn in *; [apply Hk | discriminate | congruence].
Qed.

Lemma halts_try {A} (m : M A) (h : exn -> M A) :
  halts m -> (forall e, halts (h e)) -> halts (try_except m h).
Proof.
  intros Hm Hh s. unfold try_except. specialize (Hm s).
  destruct (m s) as [[a|e|] s1]; cbn in *; [discriminate | apply Hh | congruence].
Qed.

(** A [try] whose handler returns, around a body that halts, returns. *)
Lemma returns_try {A} (m : M A) (h : exn -> M A) :
  halts m -> (forall e, returns (h e)) -> returns (try_except m h).
Proof.
  intros Hm Hh s. unfold try_except. specialize (Hm s).
  destruct (m s) as [[a|e|] s1]; cbn in *; [now exists a, s1 | apply Hh | congruence].
Qed.

Create HintDb py.
#[local] Hint Resolve returns_ret returns_get returns_modify returns_halts
  halts_raise : py.
#[local] Hint Extern 2 (returns (bind _ _)) => apply returns_bind; [|intros ?] : py.
#[local] Hint Extern 2 (halts (bind _ _)) => apply halts_bind; [|intros ?] : py.
#[local] Hint Extern 2 (halts (try_except _ _)) => apply halts_try; [|intros ?] : py.
#[local] Hint Extern 2 (returns (try_except _ _)) => apply returns_try; [|intros ?] : py.
#[local] Hint Extern 3 (returns (if ?b then _ else _)) => destruct b : py.
#[local] Hint Extern 3 (halts (if ?b then _ else _)) => destruct b : py.
#[local] Hint Extern 3 (returns (match ?x with _ => _ end)) => destruct x : py.
#[local] Hint Extern 3 (halts (match ?x with _ => _ end)) => destruct x : py.

Ltac py_auto := eauto 40 with py.

(** ** The credential store *)

Arguments save_to_keychain : simpl never.
Arguments load_from_keychain : simpl never.
Arguments clear_keychain : simpl never.

Lemma load_from_keychain_eq (s : State) :
  load_from_keychain s = (Ok (stored (keyring s)), s).
Proof.
  unfold load_from_keychain, stored, try_except, bind, get_password, get, ret, raise.
  destruct (keyring s !! k_expiry) as [[|c r]|]; try reflexivity.
  now destruct (Py.float (String c r)).
Qed.

Lemma returns_load_from_keychain : returns load_from_keychain.
Proof. intros s. rewrite load_from_keychain_eq. eauto. Qed.

Lemma returns_save_to_keychain token expiry refresh :
  returns (save_to_keychain token expiry refresh).
Proof.
  unfold save_to_keychain, set_password.
  apply returns_try; [|py_auto]. apply returns_halts. py_auto.
Qed.

Lemma halts_delete_password service user : halts (delete_password service user).
Proof. intros s. unfold delete_password. now destruct (keyring s !! (service, user)). Qed.

Lemma returns_clear_keychain : returns clear_keychain.
Proof.
  unfold clear_keychain. apply returns_try; [|py_auto].
  repeat (apply halts_bind; [apply halts_delete_password|intros _]).
  apply halts_delete_password.
Qed.

#[local] Hint Resolve returns_load_from_keychain returns_save_to_keychain
  returns_clear_keychain halts_delete_password : py.

Arguments saved : simpl never.

Lemma save_to_keychain_eq token expiry_time refresh (s : State) :
  save_to_keychain token expiry_time refresh s
  = (Ok tt, with_keyring (saved token expiry_time refresh (keyring s)) s).
Proof.
  unfold save_to_keychain, saved, try_except, bind, set_password, modify, ret.
  destruct refresh as [[|c r]|]; reflexivity.
Qed.

Lemma saved_token token expiry_time refresh k :
  saved token expiry_time refresh k !! k_token = Some token.
Proof. unfold saved. destruct refresh as [[|c r]|]; now simplify_map_eq. Qed.

Lemma saved_expiry token expiry_time refresh k :
  saved token expiry_time refresh k !! k_expiry
  = Some (Py.str_opt Py.str_float expiry_time).
Proof. unfold saved. destruct refresh as [[|c r]|]; now simplify_map_eq. Qed.

(** *** A whole number of seconds, printed and read *)

Ltac digit_step :=
  cbn [Py.digits_value];
  match goal with
  | |- context [Py.is_digit ?c] => change (Py.is_digit c) with true
  end;
  match goal with
  | |- context [Z.of_nat ?n] =>
      let v := eval vm_compute in (Z.of_nat n) in change (Z.of_nat n) with v
  end;
  cbv iota.

(** The digits of a decimal number, as text. *)
Lemma digits_value_uint (d : Decimal.uint) (p : positive) :
  Py.digits_value (Z.pos p) (NilEmpty.string_of_uint d) = Some (Z.pos (Pos.of_uint_acc d p)).
Proof.
  revert p. induction d; intros p; cbn [NilEmpty.string_of_uint Pos.of_uint_acc];
    [reflexivity| ..];
    (digit_step;
     match goal with |- Py.digits_value ?z _ = Some (Z.pos (Pos.of_uint_acc _ ?q)) =>
       replace z with (Z.pos q) by lia end; apply IHd).
Qed.

Lemma digits_value_of_uint (d : Decimal.uint) :
  Py.digits_value 0 (NilEmpty.string_of_uint d) = Some (Z.of_N (Pos.of_uint d)).
Proof.
  induction d; cbn [NilEmpty.string_of_uint Pos.of_uint]; [reflexivity| ..];
    digit_step; [exact IHd| ..]; apply digits_value_uint.
Qed.

Lemma plain_uint (d : Decimal.uint) : plain (NilEmpty.string_of_uint d).
Proof.
  unfold plain. induction d; cbn [NilEmpty.string_of_uint Py.chars];
    constructor; try assumption; split; reflexivity.
Qed.

Lemma rstrip_space_plain (s : string) :
  plain s -> Py.rstrip_space (s +:+ ".0") = s +:+ ".0".
Proof.
  unfold plain. induction s as [|c s IH]; intros H; [reflexivity|].
  inversion H as [|? ? [Hc _] Hs]; subst.
  change (String c s +:+ ".0") with (String c (s +:+ ".0")).
  cbn [Py.rstrip_space]. rewrite (IH Hs).
  destruct (s +:+ ".0") eqn:E; [|reflexivity].
  destruct s; discriminate E.
Qed.

Lemma split_point_plain (s t : string) :
  plain s -> Py.split_point (s +:+ "." +:+ t) = (s, Some t).
Proof.
  unfold plain. induction s as [|c s IH]; intros H; [reflexivity|].
  inversion H as [|? ? [_ Hc] Hs]; subst.
  change (String c s +:+ "." +:+ t) with (String c (s +:+ "." +:+ t)).
  cbn [Py.split_point]. now rewrite Hc, (IH Hs).
Qed.

Lemma unsigned_value_uint (d : Decimal.uint) :
  d <> Decimal.Nil ->
  Py.unsigned_value (NilEmpty.string_of_uint d) = Some (Z.of_N (Pos.of_uint d)).
Proof.
  intros Hd. pose proof (digits_value_of_uint d) as H.
  destruct d; [contradiction| ..]; exact H.
Qed.

(** [float(str(x))] is [x] for a whole number [x]. *)
Lemma float_str_float (z : Z) : Py.float (Py.str_float z) = Some z.
Proof.
  unfold Py.float, Py.str_float, Py.str_int.
  destruct z as [|p|p]; [reflexivity| |].
  - cbn [Z.to_int NilZero.string_of_int].
    pose proof (Unsigned.to_uint_nonnil p) as Hnil.
    assert (Hs : NilZero.string_of_uint (Pos.to_uint p)
                 = NilEmpty.string_of_uint (Pos.to_uint p))
      by (destruct (Pos.to_uint p); [contradiction|reflexivity ..]).
    rewrite Hs. set (d := Pos.to_uint p) in *.
    assert (Hl : Py.lstrip_space (NilEmpty.string_of_uint d +:+ ".0")
                 = NilEmpty.string_of_uint d +:+ ".0")
      by (destruct d; [contradiction|reflexivity ..]).
    rewrite Hl.
    rewrite (rstrip_space_plain _ (plain_uint d)).
    change ".0" with ("." +:+ "0").
    rewrite (split_point_plain _ "0" (plain_uint d)).
    cbn [Py.all_zero]. change (Ascii.eqb "0" "0" && true) with true. cbv iota.
    assert (Hsig : Py.signed_value (NilEmpty.string_of_uint d)
                   = Py.unsigned_value (NilEmpty.string_of_uint d))
      by (destruct d; [contradiction|reflexivity ..]).
    rewrite Hsig, (unsigned_value_uint d Hnil). subst d.
    now rewrite Unsigned.of_to.
  - cbn [Z.to_int NilZero.string_of_int].
    pose proof (Unsigned.to_uint_nonnil p) as Hnil.
    assert (Hs : NilZero.string_of_uint (Pos.to_uint p)
                 = NilEmpty.string_of_uint (Pos.to_uint p))
      by (destruct (Pos.to_uint p); [contradiction|reflexivity ..]).
    rewrite Hs. set (d := Pos.to_uint p) in *.
    change (String "-" (NilEmpty.string_of_uint d) +:+ ".0")
      with (String "-" (NilEmpty.string_of_uint d +:+ ".0")).
    cbn [Py.lstrip_space]. change (Py.is_space "-") with false. cbv iota.
    cbn [Py.rstrip_space].
    rewrite (rstrip_space_plain _ (plain_uint d)).
    change ".0" with ("." +:+ "0").
    assert (Hne : forall x y, (x +:+ String "." y) <> "")
      by (intros [|? ?] y; discriminate).
    destruct (NilEmpty.string_of_uint d +:+ "." +:+ "0") eqn:E;
      [now apply Hne in E|]. rewrite <- E. clear E.
    cbn [Py.split_point]. change (Ascii.eqb "-" ".") with false. cbv iota.
    rewrite (split_point_plain _ "0" (plain_uint d)).
    cbn [Py.all_zero]. change (Ascii.eqb "0" "0" && true) with true. cbv iota.
    cbn [Py.signed_value]. rewrite (unsigned_value_uint d Hnil). subst d.
    now rewrite Unsigned.of_to.
Qed.

Lemma str_float_nonempty (z : Z) : exists c r, Py.str_float z = String c r.
Proof.
  pose proof (float_str_float z) as H.
  destruct (Py.str_float z) as [|c r]; [discriminate H | eauto].
Qed.

(** What is read back from a store a token was saved in. *)
Lemma stored_saved (token : string) (expiry : Z) (refresh : option string)
    (k : gmap (string * string) string) :
  stored (saved token (Some expiry) refresh k)
  = (Some token, Some expiry, if Py.truthy refresh then refresh else k !! k_refresh).
Proof.
  unfold stored. rewrite saved_expiry, saved_token. cbn [Py.str_opt].
  destruct (str_float_nonempty expiry) as (c & r & E). rewrite E, <- E, float_str_float.
  do 2 f_equal. unfold saved.
  destruct refresh as [[|c' r']|]; cbn [Py.truthy]; now simplify_map_eq.
Qed.

Lemma float_None : Py.float "None" = None.
Proof. reflexivity. Qed.

Lemma stored_unreadable (k : gmap (string * string) string) :
  k !! k_expiry = Some "None" -> stored k = (None, None, None).
Proof. intros H. unfold stored. now rewrite H. Qed.

(** C10.  A token response with an access token and no [expires_in], met
    while no expiry is held in memory, makes [get_token] store the text
    "None" as expiry; [load_from_keychain] then yields
    [(None, None, None)], now and for as long as that entry stays, although
    the access token is in the store. *)
Theorem get_token_without_expiry_unreadable
    (env : Env) (s : State) (auth_code code_verifier : string)
    (status : Z) (td : token_data) (tok : string) :
  token_endpoint env (posts s) = PostResponse status (Some td) ->
  status < 400 \/ 600 <= status ->
  td_access_token td = Some tok ->
  td_expires_in td = None ->
  token_expiry (self s) = None ->
  let s' := snd (get_token env auth_code code_verifier s) in
  fst (get_token env auth_code code_verifier s) = Ok td
  /\ keyring s' !! k_token = Some tok
  /\ keyring s' !! k_expiry = Some "None"
  /\ fst (load_from_keychain s') = Ok (None, None, None)
  /\ forall s'', keyring s'' !! k_expiry = Some "None" ->
       fst (load_from_keychain s'') = Ok (None, None, None).
Proof.
  intros Hreply Hstatus Htok Hexp Hmem.
  assert (Hlater : forall s'', keyring s'' !! k_expiry = Some "None" ->
            fst (load_from_keychain s'') = Ok (None, None, None)).
  { intros s'' H. rewrite load_from_keychain_eq. cbn. now rewrite stored_unreadable. }
  assert (Hrange : (400 <=? status) && (status <? 600) = false).
  { apply andb_false_iff. destruct Hstatus; [left; lia | right; lia]. }
  unfold get_token, try_except, bind, get, requests_post, json_of. cbn.
  rewrite Hreply, Hrange. cbn.
  unfold store_token_data, bind, item. rewrite Htok, Hexp. cbn.
  destruct (td_refresh_token td) as [r|]; cbn; rewrite save_to_keychain_eq; cbn;
    rewrite Hmem, saved_token, saved_expiry; cbn;
    (repeat split; [apply Hlater; cbn; now rewrite saved_expiry | exact Hlater]).
Qed.

Lemma with_keyring_same (s : State) : with_keyring (keyring s) s = s.
Proof. now destruct s. Qed.

Lemma clear_keychain_eq (s : State) :
  clear_keychain s = (Ok tt, with_keyring (cleared (keyring s)) s).
Proof.
  unfold clear_keychain, cleared, try_except, bind, delete_password, ret.
  destruct (keyring s !! k_token); cbn; [|now rewrite with_keyring_same].
  destruct (delete k_token (keyring s) !! k_expiry); cbn; [|reflexivity].
  destruct (delete k_expiry (delete k_token (keyring s)) !! k_refresh); reflexivity.
Qed.

Lemma cleared_consistent (k : gmap (string * string) string) :
  consistent k -> empty_of_credentials (cleared k).
Proof.
  intros [Hr He]. unfold cleared, empty_of_credentials.
  destruct (k !! k_token) eqn:Et.
  - destruct (delete k_token k !! k_expiry) eqn:Ee.
    + destruct (delete k_expiry (delete k_token k) !! k_refresh) eqn:Er;
        now simplify_map_eq.
    + simplify_map_eq. repeat split; try done.
      destruct (k !! k_refresh) eqn:Er; [|done].
      destruct Hr as [? ?]; [eauto|congruence].
  - destruct (k !! k_expiry) eqn:Ee; [destruct He as [? ?]; [eauto|congruence]|].
    destruct (k !! k_refresh) eqn:Er; [destruct Hr as [? ?]; [eauto|congruence]|].
    done.
Qed.

Lemma saved_consistent token expiry_time refresh k :
  consistent (saved token expiry_time refresh k).
Proof.
  split; intros _; [rewrite saved_expiry | rewrite saved_token]; eauto.
Qed.

Lemma stored_empty (k : gmap (string * string) string) :
  empty_of_credentials k -> stored k = (None, None, None).
Proof. intros (Ht & He & Hr). unfold stored. now rewrite He, Ht, Hr. Qed.

(** A refresh that fails: one POST, the object forgets its tokens, the store
    is cleared as far as [clear_keychain] gets, and [None] is returned. *)
Lemma refresh_access_token_rejected (env : Env) (s : State) (c : ascii) (r : string) :
  refresh_token_at s = Some (String c r) ->
  rejected (token_endpoint env (posts s)) = true ->
  refresh_access_token env s
  = (Ok None,
     with_keyring (cleared (keyring s))
       (with_self forget
          (with_posts (S (posts s))
             (emit (TokenPost (token_url (self s)) (refresh_params (self s) (String c r))) s)))).
Proof.
  intros Hrt Hrej. unfold refresh_access_token, refresh_token_at in *.
  unfold bind at 1. cbn [get fst snd].
  unfold bind at 1.
  assert (Hsel : (if Py.truthy (refresh_token (self s)) then ret (refresh_token (self s))
                  else bind load_from_keychain (fun r => ret r.2)) s
                 = (Ok (Some (String c r)), s)).
  { destruct (Py.truthy (refresh_token (self s))).
    - cbn. now rewrite Hrt.
    - unfold bind. rewrite load_from_keychain_eq. cbn. now rewrite Hrt. }
  rewrite Hsel. unfold try_except, bind at 1. unfold requests_post at 1.
  unfold rejected in Hrej. unfold bind at 1.
  destruct (token_endpoint env (posts s)) as [|status body]; cbn.
  - unfold bind; rewrite clear_keychain_eq; reflexivity.
  - destruct ((400 <=? status) && (status <? 600)); cbn.
    + unfold bind; rewrite clear_keychain_eq; reflexivity.
    + destruct body as [td|]; cbn; [|unfold bind; rewrite clear_keychain_eq; reflexivity].
      unfold store_token_data, bind at 1.
      destruct (td_access_token td); [discriminate|]. cbn.
      unfold bind; rewrite clear_keychain_eq; reflexivity.
Qed.

(** With a consistent store the failed refresh leaves no credential at all. *)
Lemma refresh_failure_clears_consistent_store (env : Env) (s : State) (c : ascii) (r : string) :
  refresh_token_at s = Some (String c r) ->
  rejected (token_endpoint env (posts s)) = true ->
  consistent (keyring s) ->
  let s' := snd (refresh_access_token env s) in
  fst (refresh_access_token env s) = Ok None
  /\ access_token (self s') = None
  /\ refresh_token (self s') = None
  /\ token_expiry (self s') = None
  /\ empty_of_credentials (keyring s')
  /\ fst (load_from_keychain s') = Ok (None, None, None).
Proof.
  intros Hrt Hrej Hk. rewrite (refresh_access_token_rejected env s c r Hrt Hrej). cbn.
  repeat split; try apply cleared_consistent; try assumption.
  rewrite load_from_keychain_eq. cbn. f_equal. apply stored_empty.
  now apply cleared_consistent.
Qed.

(** C4, at the failing input.  The refresh is rejected, the object forgets
    its tokens and [None] is returned, but [clear_keychain] stops at the
    missing access token: the refresh token is still in the store. *)
Example refresh_failure_keeps_orphan_refresh_token :
  let r := refresh_access_token Mock.silent orphan_refresh_token in
  token_endpoint Mock.silent (posts orphan_refresh_token) = PostResponse 400 None
  /\ fst r = Ok None
  /\ trace (snd r)
     = [TokenPost (token_url Mock.auth0)
          [("grant_type", "refresh_token"); ("refresh_token", "R");
           ("client_id", client_id Mock.auth0)]]
  /\ access_token (self (snd r)) = None
  /\ refresh_token (self (snd r)) = None
  /\ token_expiry (self (snd r)) = None
  /\ keyring (snd r) !! k_refresh = Some "R"
  /\ fst (load_from_keychain (snd r)) = Ok (None, None, Some "R")
  /\ refresh_token_at (snd r) = Some "R".
Proof. vm_compute. repeat split; reflexivity. Qed.

(** ** The authorization wait *)

Lemma handled_fields (s : State) (batch : list (option string)) :
  let s' := handled s batch in
  auth_code s' = captured (auth_code s) batch
  /\ self s' = self s /\ clock s' = clock s /\ keyring s' = keyring s
  /\ files s' = files s /\ serving s' = serving s /\ posts s' = posts s
  /\ soaps s' = soaps s /\ sleeps s' = sleeps s /\ draws s' = draws s
  /\ exists evs, trace s' = (trace s ++ evs)%list.
Proof.
  revert s. induction batch as [|c batch IH]; intros s.
  - cbn. repeat split; try reflexivity. exists []. now rewrite app_nil_r.
  - cbn [handled fold_left captured]. specialize (IH (do_GET c s)).
    fold (handled (do_GET c s) batch) in *.
    destruct IH as (Ha & H1 & H2 & H3 & H4 & H5 & H6 & H7 & H8 & H9 & evs & Ht).
    unfold captured in *. rewrite Ha, H1, H2, H3, H4, H5, H6, H7, H8, H9, Ht.
    destruct c as [x|]; cbn; repeat split; try reflexivity;
      eexists; rewrite <- app_assoc; reflexivity.
Qed.

Lemma sleep1_eq (env : Env) (s : State) :
  serving s = true ->
  sleep1 env s
  = (Ok tt, with_sleeps (S (sleeps s))
              (with_clock (clock s + 1) (handled s (callbacks env (sleeps s))))).
Proof. intros H. unfold sleep1, modify, handled. now rewrite H. Qed.

Lemma wait_for_code_unfold (env : Env) (n : nat) (start_time : Z) (s : State) :
  wait_for_code env n start_time s
  = match auth_code s with
    | Some c => (Ok c, s)
    | None =>
        if clock s - start_time >? timeout
        then (Raise timed_out, with_serving false (emit ServerShutdown s))
        else match n with
             | O => (Diverge, s)
             | S k =>
                 match sleep1 env s with
                 | (Ok _, s') => wait_for_code env k start_time s'
                 | (Raise e, s') => (Raise e, s')
                 | (Diverge, s') => (Diverge, s')
                 end
             end
    end.
Proof.
  destruct n; cbn [wait_for_code]; unfold bind, get, time, get; cbn;
    destruct (auth_code s); try reflexivity;
    destruct (clock s - start_time >? timeout); reflexivity.
Qed.

(** The wait never uses up its budget: every second slept moves the clock. *)
Lemma wait_for_code_halts (env : Env) (n : nat) (start_time : Z) (s : State) :
  timeout + 1 <= clock s - start_time + Z.of_nat n ->
  fst (wait_for_code env n start_time s) <> Diverge.
Proof.
  revert s. induction n as [|k IH]; intros s Hn; rewrite wait_for_code_unfold;
    destruct (auth_code s); try discriminate;
    destruct (clock s - start_time >? timeout) eqn:E; try discriminate.
  - rewrite Z.gtb_ltb in E. apply Z.ltb_ge in E. unfold timeout in *. lia.
  - unfold sleep1, modify. apply IH. cbn. lia.
Qed.

Lemma start_auth_server_eq (env : Env) (s : State) :
  start_auth_server env s
  = match wait_for_code env (Z.to_nat (timeout + 1)) (clock s) (listening env s) with
    | (Ok c, s') =>
        (Ok (c, Pkce.generate_code_verifier (fun i => random env (draws s + i)%nat)),
         with_serving false (emit ServerShutdown s'))
    | (Raise e, s') => (Raise e, s')
    | (Diverge, s') => (Diverge, s')
    end.
Proof.
  unfold start_auth_server, try_except, bind, server_start, modify,
    generate_code_verifier, get, webbrowser_open, time, server_shutdown, ret, raise.
  cbn -[wait_for_code Z.to_nat Pkce.generate_code_verifier Pkce.generate_code_challenge].
  fold (listening env s).
  destruct (wait_for_code env (Z.to_nat (timeout + 1)) (clock s) (listening env s))
    as [[c|e|] s']; reflexivity.
Qed.

Lemma halts_start_auth_server (env : Env) : halts (start_auth_server env).
Proof.
  intros s. rewrite start_auth_server_eq.
  pose proof (wait_for_code_halts env (Z.to_nat (timeout + 1)) (clock s) (listening env s)) as H.
  destruct (wait_for_code _ _ _ _) as [[c|e|] s']; cbn in *; try discriminate.
  intros _. apply H; [unfold timeout; lia | reflexivity].
Qed.

Lemma halts_json_of (r : post_reply) : halts (json_of r).
Proof.
  unfold json_of. destruct r as [|status [td|]]; [py_auto| |];
    destruct ((400 <=? status) && (status <? 600)); py_auto.
Qed.

Lemma halts_item {A} key (v : option A) : halts (item key v).
Proof. destruct v; cbn; py_auto. Qed.

Lemma returns_requests_post env url params : returns (requests_post env url params).
Proof. intros s. unfold requests_post. eauto. Qed.

#[local] Hint Resolve halts_json_of halts_item returns_requests_post
  halts_start_auth_server : py.

Lemma halts_store_token_data (td : token_data) : halts (store_token_data td).
Proof. unfold store_token_data, time. py_auto. Qed.

#[local] Hint Resolve halts_store_token_data : py.

Lemma halts_get_token env auth_code code_verifier :
  halts (get_token env auth_code code_verifier).
Proof. unfold get_token. py_auto. Qed.

#[local] Hint Resolve halts_get_token : py.

Lemma returns_refresh_access_token env : returns (refresh_access_token env).
Proof. unfold refresh_access_token. py_auto. Qed.

Lemma halts_full_auth_body env : halts (full_auth_body env).
Proof. unfold full_auth_body. py_auto. Qed.

Lemma returns_full_auth_flow env : returns (full_auth_flow env).
Proof.
  unfold full_auth_flow. apply returns_try; [apply halts_full_auth_body | py_auto].
Qed.

#[local] Hint Resolve returns_refresh_access_token returns_full_auth_flow : py.

Lemma returns_get_connection env : returns (get_connection env).
Proof. unfold get_connection, refresh_or_full_auth, time. py_auto. Qed.



(** The wait, followed second by second. *)
Lemma wait_for_code_run (env : Env) (n j : nat) (start_time : Z) (s : State) :
  auth_code s = None -> serving s = true ->
  clock s - start_time = Z.of_nat j ->
  Z.of_nat j + Z.of_nat n = timeout + 1 ->
  let r := wait_for_code env n start_time s in
  self (snd r) = self s /\ keyring (snd r) = keyring s /\ files (snd r) = files s
  /\ posts (snd r) = posts s /\ soaps (snd r) = soaps s /\ draws (snd r) = draws s
  /\ (exists evs, trace (snd r) = (trace s ++ evs)%list)
  /\ match first_code env n (sleeps s) j with
     | None =>
         fst r = Raise timed_out /\ serving (snd r) = false
         /\ auth_code (snd r) = None
         /\ clock (snd r) = start_time + timeout + 1
         /\ last (trace (snd r)) = Some ServerShutdown
     | Some (k, c) =>
         fst r = Ok c /\ serving (snd r) = true
         /\ auth_code (snd r) = Some c
         /\ clock (snd r) = start_time + Z.of_nat k
     end.
Proof.
  revert j s. induction n as [|n IH]; intros j s Hcode Hserv Hclock Hsum r; subst r;
    rewrite wait_for_code_unfold, Hcode.
  - assert (E : (clock s - start_time >? timeout) = true)
      by (rewrite Z.gtb_ltb; apply Z.ltb_lt; unfold timeout in *; lia).
    rewrite E. cbn. repeat split; try reflexivity; try assumption.
    + now exists [ServerShutdown].
    + unfold timeout in *. lia.
    + apply last_snoc.
  - assert (E : (clock s - start_time >? timeout) = false)
      by (rewrite Z.gtb_ltb; apply Z.ltb_ge; unfold timeout in *; lia).
    rewrite E, sleep1_eq by assumption. cbn [first_code].
    set (s1 := with_sleeps _ _).
    destruct (handled_fields s (callbacks env (sleeps s)))
      as (Ha & H1 & H2 & H3 & H4 & H5 & H6 & H7 & H8 & H9 & evs & Ht).
    rewrite Hcode in Ha.
    destruct (captured None (callbacks env (sleeps s))) as [c|] eqn:Ecap.
    + rewrite wait_for_code_unfold. subst s1. cbn [auth_code with_sleeps with_clock].
      rewrite Ha. cbn.
      repeat split; eauto; try congruence; lia.
    + specialize (IH (S j) s1). subst s1. cbn in IH.
      rewrite Ha, H5 in IH.
      specialize (IH eq_refl Hserv ltac:(lia) ltac:(lia)).
      destruct IH as (I1 & I2 & I3 & I4 & I5 & I6 & (evs' & I7) & I8).
      cbn. rewrite I1, I2, I3, I4, I5, I6, H1, H3, H4, H6, H7, H9.
      repeat split; try reflexivity.
      * exists (evs ++ evs')%list. cbn in I7. rewrite I7, Ht. now rewrite app_assoc.
      * exact I8.
Qed.

(** [start_auth_server], by the second in which a code first arrives. *)
Lemma start_auth_server_outcome (env : Env) (s : State) :
  let r := start_auth_server env s in
  self (snd r) = self s /\ keyring (snd r) = keyring s /\ files (snd r) = files s
  /\ posts (snd r) = posts s /\ soaps (snd r) = soaps s
  /\ (exists evs, trace (snd r) = (trace s ++ ServerStarted :: evs)%list)
  /\ serving (snd r) = false
  /\ last (trace (snd r)) = Some ServerShutdown
  /\ match first_code env (Z.to_nat (timeout + 1)) (sleeps s) 0 with
     | None => fst r = Raise timed_out /\ clock (snd r) = clock s + timeout + 1
     | Some (k, c) =>
         fst r = Ok (c, verifier_at env s) /\ clock (snd r) = clock s + Z.of_nat k
     end.
Proof.
  intros r. subst r. rewrite start_auth_server_eq.
  pose proof (wait_for_code_run env (Z.to_nat (timeout + 1)) 0 (clock s) (listening env s)
                eq_refl eq_refl) as H.
  cbn [listening clock emit with_draws with_auth_code with_serving] in H.
  specialize (H ltac:(lia) ltac:(unfold timeout; lia)).
  cbn zeta in H. destruct H as (H1 & H2 & H3 & H4 & H5 & _ & (evs & H7) & H8).
  change (sleeps (listening env s)) with (sleeps s) in H8.
  destruct (wait_for_code env (Z.to_nat (timeout + 1)) (clock s) (listening env s))
    as [[c|e|] s'] eqn:E; cbn [fst snd] in *;
    destruct (first_code env (Z.to_nat (timeout + 1)) (sleeps s) 0) as [[k c']|];
    try (destruct H8 as (H8 & _); discriminate).
  - destruct H8 as ([= ->] & _ & _ & Hc). cbn. rewrite H1, H2, H3, H4, H5, H7.
    repeat split; try reflexivity; try assumption.
    + cbn. rewrite <- !app_assoc. cbn. eauto.
    + apply last_snoc.
  - destruct H8 as ([= ->] & Hs & _ & Hc & Hl). rewrite H1, H2, H3, H4, H5.
    repeat split; try reflexivity; try assumption.
    rewrite H7. cbn. rewrite <- !app_assoc. cbn. eauto.
Qed.






(** ** Storing a token response *)

Lemma with_self_const (f g : OracleAuth -> OracleAuth) (s : State) :
  with_self f (with_self g s) = with_self (fun a => f (g a)) s.
Proof. reflexivity. Qed.

Lemma store_token_data_eq (td : token_data) (tok : string) (s : State) :
  td_access_token td = Some tok ->
  store_token_data td s = (Ok tok, persisted td tok s).
Proof.
  intros H. unfold store_token_data, persisted, updated, bind, item, time, get, modify, ret.
  rewrite H. cbn [fst snd].
  destruct (td_expires_in td) as [d|], (td_refresh_token td) as [r|];
    cbn -[save_to_keychain]; rewrite save_to_keychain_eq; reflexivity.
Qed.

Lemma store_token_data_missing (td : token_data) (s : State) :
  td_access_token td = None ->
  store_token_data td s = (Raise (KeyError "access_token"), s).
Proof. intros H. unfold store_token_data, bind, item. now rewrite H. Qed.

Lemma persisted_fields td tok s :
  access_token (self (persisted td tok s)) = Some tok
  /\ clock (persisted td tok s) = clock s
  /\ trace (persisted td tok s) = trace s
  /\ posts (persisted td tok s) = posts s
  /\ files (persisted td tok s) = files s.
Proof.
  unfold persisted, updated.
  destruct (td_expires_in td), (td_refresh_token td); repeat split; reflexivity.
Qed.

(** [get_token]: one POST; then the response is stored, or the failure
    raised with nothing else changed. *)
Lemma get_token_eq (env : Env) (auth_code code_verifier : string) (s : State) :
  let s1 := posted (token_url (self s)) (code_params (self s) auth_code code_verifier) s in
  get_token env auth_code code_verifier s
  = match token_endpoint env (posts s) with
    | PostFailed => (Raise ConnectionError, s1)
    | PostResponse status body =>
        if (400 <=? status) && (status <? 600) then (Raise (HTTPError status), s1)
        else match body with
             | None => (Raise JSONDecodeError, s1)
             | Some td =>
                 match td_access_token td with
                 | Some tok => (Ok td, persisted td tok s1)
                 | None => (Raise (KeyError "access_token"), s1)
                 end
             end
    end.
Proof.
  unfold get_token, try_except, bind at 1. cbn [get fst snd].
  unfold bind at 1, requests_post. fold (code_params (self s) auth_code code_verifier).
  fold (posted (token_url (self s)) (code_params (self s) auth_code code_verifier) s).
  destruct (token_endpoint env (posts s)) as [|status [td|]]; cbn [json_of];
    try reflexivity.
  - destruct ((400 <=? status) && (status <? 600)); [reflexivity|].
    unfold bind. cbn [ret].
    destruct (td_access_token td) as [tok|] eqn:E.
    + now rewrite (store_token_data_eq td tok _ E).
    + now rewrite (store_token_data_missing td _ E).
  - destruct ((400 <=? status) && (status <? 600)); reflexivity.
Qed.

(** A refresh that succeeds. *)
Lemma refresh_access_token_accepted (env : Env) (s : State) (c : ascii) (r : string)
    (status : Z) (td : token_data) (tok : string) :
  refresh_token_at s = Some (String c r) ->
  token_endpoint env (posts s) = PostResponse status (Some td) ->
  (400 <=? status) && (status <? 600) = false ->
  td_access_token td = Some tok ->
  refresh_access_token env s
  = (Ok (Some tok),
     persisted td tok
       (posted (token_url (self s)) (refresh_params (self s) (String c r)) s)).
Proof.
  intros Hrt Hreply Hstatus Htok. unfold refresh_access_token, refresh_token_at in *.
  unfold bind at 1. cbn [get fst snd].
  unfold bind at 1.
  assert (Hsel : (if Py.truthy (refresh_token (self s)) then ret (refresh_token (self s))
                  else bind load_from_keychain (fun r => ret r.2)) s
                 = (Ok (Some (String c r)), s)).
  { destruct (Py.truthy (refresh_token (self s))).
    - cbn. now rewrite Hrt.
    - unfold bind. rewrite load_from_keychain_eq. cbn. now rewrite Hrt. }
  rewrite Hsel. unfold try_except, bind at 1. unfold requests_post at 1.
  rewrite Hreply. unfold bind at 1. cbn [json_of]. rewrite Hstatus. cbn [ret].
  unfold bind. fold (refresh_params (self s) (String c r)).
  fold (posted (token_url (self s)) (refresh_params (self s) (String c r)) s).
  now rewrite (store_token_data_eq td tok _ Htok).
Qed.

(** Without a refresh token nothing is sent. *)
Lemma refresh_access_token_absent (env : Env) (s : State) :
  Py.truthy (refresh_token_at s) = false ->
  refresh_access_token env s = (Ok None, s).
Proof.
  intros Hrt. unfold refresh_access_token, refresh_token_at in *.
  unfold bind at 1. cbn [get fst snd]. unfold bind at 1.
  destruct (Py.truthy (refresh_token (self s))) eqn:E; [congruence|].
  unfold bind. rewrite load_from_keychain_eq. cbn [ret snd].
  now destruct (stored (keyring s)).2 as [[|c r]|].
Qed.

(** ** [get_connection] *)

Lemma fresh_iff (now : Z) (expiry : option Z) :
  fresh now expiry = true <-> within_margin now expiry.
Proof.
  unfold fresh, within_margin, margin. destruct expiry as [e|].
  - rewrite andb_true_iff, negb_true_iff, Z.eqb_neq, Z.ltb_lt. split.
    + intros [H1 H2]. now exists e.
    + intros (e' & [= <-] & H1 & H2). now split.
  - split; [discriminate | now intros (e & [=] & _)].
Qed.

Lemma truthy_iff (o : option string) :
  Py.truthy o = true <-> exists tok, o = Some tok /\ tok <> "".
Proof.
  destruct o as [[|c r]|]; cbn; split; try discriminate.
  - now intros (tok & [= <-] & H).
  - intros _. now exists (String c r).
  - reflexivity.
  - now intros (tok & [=] & _).
Qed.

Lemma get_connection_memory (env : Env) (s : State) :
  Py.truthy (access_token (self s)) && fresh (clock s) (token_expiry (self s)) = true ->
  get_connection env s = (Ok (access_token (self s)), s).
Proof.
  intros H. unfold get_connection, bind, get, time, get. cbn. now rewrite H.
Qed.

Lemma get_connection_beyond_memory (env : Env) (s : State) :
  Py.truthy (access_token (self s)) && fresh (clock s) (token_expiry (self s)) = false ->
  get_connection env s
  = if Py.truthy (stored_token s) && fresh (clock s) (stored_expiry s)
    then (Ok (stored_token s), promoted s)
    else refresh_or_full_auth env s.
Proof.
  intros H. unfold get_connection, bind at 1. cbn [get fst snd].
  unfold bind at 1, time. cbn [get]. rewrite H.
  unfold bind at 1. rewrite load_from_keychain_eq.
  unfold bind at 1. cbn [get]. fold (stored_token s) (stored_expiry s).
  now destruct (Py.truthy (stored_token s) && fresh (clock s) (stored_expiry s)).
Qed.

Lemma full_auth_flow_starts (env : Env) (s : State) :
  exists evs, trace (snd (full_auth_flow env s)) = (trace s ++ ServerStarted :: evs)%list.
Proof.
  unfold full_auth_flow, try_except, full_auth_body, bind at 1.
  destruct (start_auth_server_outcome env s) as (_ & _ & _ & _ & _ & (evs & Ht) & _).
  destruct (start_auth_server env s) as [[[code verifier]|e|] s1]; cbn [fst snd] in *;
    [|exists evs; exact Ht|exists evs; exact Ht].
  unfold bind at 1. rewrite get_token_eq. cbv zeta.
  set (s2 := posted _ _ s1).
  assert (H2 : trace s2 = (trace s ++ ServerStarted :: evs ++ [TokenPost (token_url (self s1))
                 (code_params (self s1) code verifier)])%list).
  { subst s2. cbn. rewrite Ht, <- app_assoc. reflexivity. }
  destruct (token_endpoint env (posts s1)) as [|status [td|]]; cbn [ret snd];
    try (eexists; exact H2);
    destruct ((400 <=? status) && (status <? 600)); cbn [ret snd];
    try (eexists; exact H2).
  destruct (td_access_token td) as [tok|] eqn:E; cbn [ret snd]; [|eexists; exact H2].
  unfold bind, item. rewrite E. cbn [ret snd].
  destruct (persisted_fields td tok s2) as (_ & _ & -> & _). eexists; exact H2.
Qed.

(** Whatever a refresh or a new authorization comes to, it first posts the
    refresh token or starts the listener. *)
Lemma refresh_or_full_auth_attempts (env : Env) (s : State) :
  exists ev evs,
    trace (snd (refresh_or_full_auth env s)) = (trace s ++ ev :: evs)%list
    /\ attempt (self s) ev.
Proof.
  unfold refresh_or_full_auth, bind.
  destruct (refresh_token_at s) as [[|c r]|] eqn:Hrt.
  1, 3: rewrite refresh_access_token_absent by now rewrite Hrt.
  1, 2: cbn [Py.truthy]; destruct (full_auth_flow_starts env s) as (evs & ->);
        exists ServerStarted, evs; split; [reflexivity | now left].
  destruct (rejected (token_endpoint env (posts s))) eqn:Hrej.
  - rewrite (refresh_access_token_rejected env s c r Hrt Hrej). cbn [Py.truthy].
    match goal with |- context [full_auth_flow env ?s1] =>
      destruct (full_auth_flow_starts env s1) as (evs & ->) end.
    cbn. rewrite <- app_assoc. do 2 eexists. split; [reflexivity|]. right. eauto.
  - unfold rejected in Hrej.
    destruct (token_endpoint env (posts s)) as [|status [td|]] eqn:Hreply;
      [discriminate| |now rewrite orb_true_r in Hrej].
    apply orb_false_iff in Hrej as [Hstatus Htok].
    destruct (td_access_token td) as [tok|] eqn:Etok; [|discriminate].
    rewrite (refresh_access_token_accepted env s c r status td tok Hrt Hreply Hstatus Etok).
    set (s1 := posted _ _ s).
    assert (Ht : trace (persisted td tok s1)
                 = (trace s ++ [TokenPost (token_url (self s)) (refresh_params (self s) (String c r))])%list).
    { destruct (persisted_fields td tok s1) as (_ & _ & -> & _). reflexivity. }
    destruct (Py.truthy (Some tok)); cbn [ret snd].
    + rewrite Ht. do 2 eexists. split; [reflexivity|]. right. eauto.
    + destruct (full_auth_flow_starts env (persisted td tok s1)) as (evs & ->).
      rewrite Ht, <- app_assoc. do 2 eexists. split; [reflexivity|]. right. eauto.
Qed.


Lemma persisted_frame td tok (s : State) :
  files (persisted td tok s) = files s /\ soaps (persisted td tok s) = soaps s.
Proof.
  unfold persisted, updated.
  destruct (td_expires_in td), (td_refresh_token td); split; reflexivity.
Qed.

Lemma full_auth_flow_frame (env : Env) (s : State) :
  files (snd (full_auth_flow env s)) = files s
  /\ soaps (snd (full_auth_flow env s)) = soaps s.
Proof.
  enough (H : forall r, full_auth_flow env s = r ->
                        files (snd r) = files s /\ soaps (snd r) = soaps s)
    by now apply H.
  intros r. unfold full_auth_flow, try_except, full_auth_body, bind at 1.
  destruct (start_auth_server_outcome env s) as (_ & _ & Hf & _ & Hs & _).
  destruct (start_auth_server env s) as [[[code verifier]|e|] s1]; cbn [fst snd] in *;
    [|now intros <-|now intros <-].
  unfold bind at 1. rewrite get_token_eq. cbv zeta.
  set (s2 := posted _ _ s1).
  assert (H2 : files s2 = files s /\ soaps s2 = soaps s) by (subst s2; now split).
  destruct (token_endpoint env (posts s1)) as [|status [td|]]; cbn [ret snd];
    try (now intros <-);
    destruct ((400 <=? status) && (status <? 600)); cbn [ret snd]; try (now intros <-).
  destruct (td_access_token td) as [tok|] eqn:E; cbn [ret snd]; [|now intros <-].
  unfold bind, item. rewrite E. cbn [ret snd]. intros <-. cbn [snd].
  destruct (persisted_frame td tok s2) as [-> ->]. exact H2.
Qed.

(** Getting a token touches neither the files nor the report server. *)
Lemma get_connection_frame (env : Env) (s : State) :
  files (snd (get_connection env s)) = files s
  /\ soaps (snd (get_connection env s)) = soaps s.
Proof.
  destruct (Py.truthy (access_token (self s)) && fresh (clock s) (token_expiry (self s)))
    eqn:Hmem.
  { rewrite get_connection_memory by assumption. now split. }
  rewrite get_connection_beyond_memory by assumption.
  destruct (Py.truthy (stored_token s) && fresh (clock s) (stored_expiry s)).
  { now split. }
  unfold refresh_or_full_auth, bind.
  destruct (refresh_token_at s) as [[|c r]|] eqn:Hrt.
  1, 3: rewrite refresh_access_token_absent by now rewrite Hrt.
  1, 2: cbn [Py.truthy]; apply full_auth_flow_frame.
  destruct (rejected (token_endpoint env (posts s))) eqn:Hrej.
  - rewrite (refresh_access_token_rejected env s c r Hrt Hrej). cbn [Py.truthy].
    match goal with |- context [full_auth_flow env ?s1] =>
      destruct (full_auth_flow_frame env s1) as [-> ->] end.
    now split.
  - unfold rejected in Hrej.
    destruct (token_endpoint env (posts s)) as [|status [td|]] eqn:Hreply;
      [discriminate| |now rewrite orb_true_r in Hrej].
    apply orb_false_iff in Hrej as [Hstatus Htok].
    destruct (td_access_token td) as [tok|] eqn:Etok; [|discriminate].
    rewrite (refresh_access_token_accepted env s c r status td tok Hrt Hreply Hstatus Etok).
    set (s1 := posted _ _ s).
    destruct (persisted_frame td tok s1) as [Hf Hs].
    destruct (Py.truthy (Some tok)); cbn [ret snd].
    + rewrite Hf, Hs. now split.
    + destruct (full_auth_flow_frame env (persisted td tok s1)) as [-> ->].
      rewrite Hf, Hs. now split.
Qed.

Lemma not_fresh (now : Z) (expiry : option Z) :
  ~ within_margin now expiry -> fresh now expiry = false.
Proof.
  intros H. destruct (fresh now expiry) eqn:E; [|reflexivity].
  now apply fresh_iff in E.
Qed.

Lemma get_connection_outside_margin (env : Env) (s : State) :
  ~ within_margin (clock s) (token_expiry (self s)) ->
  ~ within_margin (clock s) (stored_expiry s) ->
  get_connection env s = refresh_or_full_auth env s.
Proof.
  intros Hm Hs. rewrite get_connection_beyond_memory.
  - now rewrite (not_fresh _ _ Hs), andb_false_r.
  - now rewrite (not_fresh _ _ Hm), andb_false_r.
Qed.








(** ** The new authorization inside [get_connection] *)


Lemma in_seconds_run_out : in_seconds Sample.run_out.
Proof.
  split; [reflexivity|]. split; [intros e H; discriminate H|].
  intros t H. vm_compute in H. injection H as <-.
  right. exists 999000. split; reflexivity.
Defined.



(** ** The report pipeline *)

Arguments get_connection : simpl never.
Arguments _make_soap_request : simpl never.

Section Pipeline.

Variable env : Env.
Variable ET : string -> option element.

#[local] Abbreviation run_reply := (run_reply ET).
#[local] Abbreviation chunk_reply := (chunk_reply ET).
#[local] Abbreviation serves := (serves env ET).
#[local] Abbreviation downloaded := (downloaded env).
#[local] Abbreviation broken := (broken ET).

Lemma logged_in_sent body tok' (s : State) (tok : string) :
  logged_in s tok -> logged_in (sent env body tok' s) tok.
Proof. intros H. exact H. Qed.

Lemma logged_in_received out first_chunk p (s : State) (tok : string) :
  logged_in s tok -> logged_in (received out first_chunk p s) tok.
Proof. intros H. destruct p; exact H. Qed.

Lemma get_connection_logged_in (s : State) (tok : string) :
  logged_in s tok -> get_connection env s = (Ok (Some tok), s).
Proof.
  intros (Htok & Hne & Hm). rewrite get_connection_memory.
  - now rewrite Htok.
  - apply andb_true_iff. split; [apply truthy_iff; eauto | now apply fresh_iff].
Qed.

Lemma make_soap_request_with (body : soap_request) (s s1 : State) (tok : string) :
  get_connection env s = (Ok (Some tok), s1) -> tok <> "" ->
  _make_soap_request env body s
  = match soap_endpoint env (soaps s1) with
    | SoapFailed => (Raise ClientError, sent env body tok s1)
    | SoapResponse status text =>
        if status =? 200 then (Ok text, sent env body tok s1)
        else (Raise (Exception (soap_failed status text)), sent env body tok s1)
    end.
Proof.
  intros H Hne. unfold _make_soap_request, bind at 1. rewrite H.
  destruct tok as [|c r]; [contradiction|].
  unfold try_except, bind, session_post. fold (sent env body (String c r) s1).
  destruct (soap_endpoint env (soaps s1)) as [|status text]; [reflexivity|].
  now destruct (status =? 200).
Qed.

Lemma make_soap_request_eq (body : soap_request) (s : State) (tok : string) :
  logged_in s tok ->
  _make_soap_request env body s
  = match soap_endpoint env (soaps s) with
    | SoapFailed => (Raise ClientError, sent env body tok s)
    | SoapResponse status text =>
        if status =? 200 then (Ok text, sent env body tok s)
        else (Raise (Exception (soap_failed status text)), sent env body tok s)
    end.
Proof.
  intros H. apply make_soap_request_with; [|apply H].
  now apply get_connection_logged_in.
Qed.

Lemma logged_in_authorized (s : State) (tok : string) :
  logged_in s tok -> authorized env (named s) tok (named s).
Proof.
  intros H. split; [|exact H]. now apply get_connection_logged_in.
Qed.

Lemma authorized_frame (s s1 : State) (tok : string) :
  authorized env (named s) tok s1 -> files s1 = files s /\ soaps s1 = soaps s.
Proof.
  intros [Hcall _]. pose proof (get_connection_frame env (named s)) as H.
  rewrite Hcall in H. exact H.
Qed.

Lemma decode_chunk_payload (c : ascii) (r : string) (p : option string) (s : State) :
  payload (Some (String c r)) = inr p ->
  exists d, p = Some d /\ decode_chunk (String c r) s = (Ok d, s).
Proof.
  unfold payload, decode_chunk. destruct (b64decode_utf8 (String c r)) as [e|d].
  - discriminate.
  - intros [= <-]. now exists d.
Qed.

(** One turn of the loop on a good answer. *)
Lemma download_loop_step (fuel : nat) (file_id : option string) (out : string)
    (begin_idx : Z) (first_chunk : bool) (s : State) (tok : string)
    (p : option string) (offset : Z) :
  logged_in s tok ->
  chunk_reply (soap_endpoint env (soaps s)) p offset ->
  let s1 := received out first_chunk p (sent env (download_request file_id begin_idx) tok s) in
  download_loop env ET (S fuel) file_id out begin_idx first_chunk s
  = if offset =? -1 then (Ok tt, s1)
    else download_loop env ET fuel file_id out (begin_idx + 5000)
           (still_first first_chunk p) s1.
Proof.
  intros Hin (text & chunk & Hreply & Hparse & Hpay) s1. subst s1.
  cbn [download_loop]. unfold bind at 1.
  unfold _create_download_chunk_envelope, chunk_size.
  fold (download_request file_id begin_idx).
  rewrite (make_soap_request_eq _ s tok Hin), Hreply. cbn [Z.eqb Pos.eqb].
  unfold bind at 1, lift. rewrite Hparse. cbn [fst snd].
  destruct chunk as [[|c r]|].
  - injection Hpay as <-. unfold bind, ret. cbn [received still_first].
    now destruct (offset =? -1).
  - destruct (decode_chunk_payload c r p
                (sent env (download_request file_id begin_idx) tok s) Hpay)
      as (d & -> & Hd).
    unfold bind at 1. unfold bind at 1. rewrite Hd.
    unfold bind, write_file, modify, ret. cbn [received still_first].
    now destruct (offset =? -1).
  - injection Hpay as <-. unfold bind, ret. cbn [received still_first].
    now destruct (offset =? -1).
Qed.

Lemma append_empty_r (a : string) : a +:+ "" = a.
Proof.
  induction a as [|c a IH]; [reflexivity|].
  change (String c (a +:+ "") = String c a). now rewrite IH.
Qed.

Lemma append_assoc (a b c : string) : (a +:+ b) +:+ c = a +:+ (b +:+ c).
Proof.
  induction a as [|x a IH]; [reflexivity|].
  change (String x ((a +:+ b) +:+ c) = String x (a +:+ (b +:+ c))). now rewrite IH.
Qed.

Lemma soaps_received out first_chunk p (s : State) :
  soaps (received out first_chunk p s) = soaps s.
Proof. now destruct p. Qed.

Lemma trace_received out first_chunk p (s : State) :
  trace (received out first_chunk p s) = trace s.
Proof. now destruct p. Qed.

(** What the download requests leave: one more request each, in the order
    of the begin offsets, the payloads joined in the output file, and
    nothing else touched. *)
Lemma downloaded_fields (tok : string) (file_id : option string) (out : string)
    (ps : list (option string)) (begin_idx : Z) (first_chunk : bool) (s : State) :
  let s' := downloaded tok file_id out begin_idx first_chunk ps s in
  soaps s' = (soaps s + length ps)%nat
  /\ trace s'
     = (trace s
        ++ map (fun i => SoapPost (soap_url env)
                           (download_request file_id (begin_idx + 5000 * Z.of_nat i)) tok)
             (seq 0 (length ps)))%list
  /\ files s'
     = match joined ps with
       | Some content =>
           <[out := (if first_chunk then "" else default "" (files s !! out)) +:+ content]>
             (files s)
       | None => files s
       end
  /\ self s' = self s /\ clock s' = clock s /\ keyring s' = keyring s
  /\ posts s' = posts s /\ draws s' = draws s.
Proof.
  revert begin_idx first_chunk s.
  induction ps as [|p ps IH]; intros begin_idx first_chunk s.
  - cbn. rewrite app_nil_r. repeat split; try reflexivity. lia.
  - cbn [downloaded length joined].
    specialize (IH (begin_idx + 5000) (still_first first_chunk p)
                  (received out first_chunk p
                     (sent env (download_request file_id begin_idx) tok s))).
    cbv zeta in IH. destruct IH as (Hs & Ht & Hf & H1 & H2 & H3 & H4 & H5).
    rewrite Hs, Ht, Hf, H1, H2, H3, H4, H5, soaps_received, trace_received.
    repeat split; try (destruct p; reflexivity).
    + cbn. lia.
    + cbn [seq map sent trace emit with_soaps]. rewrite <- app_assoc. cbn [app].
      change (Z.of_nat 0) with 0. rewrite Z.mul_0_r, Z.add_0_r. do 2 f_equal.
      rewrite <- seq_shift, map_map. apply map_ext. intros i. do 2 f_equal. lia.
    + destruct p as [d|]; cbn [received still_first sent files with_files with_soaps emit].
      * rewrite lookup_insert_eq. cbn [default].
        destruct (joined ps) as [content|]; cbn [default].
        -- unfold id. now rewrite insert_insert_eq, append_assoc.
        -- unfold id. now rewrite append_empty_r.
      * reflexivity.
Qed.

(** The loop ends with the answer whose offset is -1 and not before. *)
Lemma download_loop_ends (script : list (option string * Z)) (last_payload : option string)
    (fuel : nat) (file_id : option string) (out : string) (begin_idx : Z)
    (first_chunk : bool) (s : State) (tok : string) :
  logged_in s tok ->
  serves (soaps s) (script ++ [(last_payload, -1)]) ->
  Forall (fun e => snd e <> -1) script ->
  (length script < fuel)%nat ->
  download_loop env ET fuel file_id out begin_idx first_chunk s
  = (Ok tt, downloaded tok file_id out begin_idx first_chunk
              (map fst (script ++ [(last_payload, -1)])) s).
Proof.
  revert fuel begin_idx first_chunk s.
  induction script as [|[p offset] script IH]; intros fuel begin_idx first_chunk s
    Hin Hserves Hnot Hfuel; (destruct fuel as [|fuel]; [cbn in Hfuel; lia|]);
    inversion Hserves as [|k p' o' rest Hreply Hrest]; subst.
  - now rewrite (download_loop_step _ _ _ _ _ _ tok _ _ Hin Hreply).
  - rewrite (download_loop_step _ _ _ _ _ _ tok _ _ Hin Hreply). cbv zeta.
    inversion Hnot as [|? ? Hoff Hnot']; subst. cbn [snd] in Hoff.
    destruct (Z.eqb_spec offset (-1)) as [|_]; [contradiction|].
    apply IH.
    + now apply logged_in_received, logged_in_sent.
    + now rewrite soaps_received.
    + assumption.
    + cbn in Hfuel. lia.
Qed.

Lemma download_loop_diverges (script : list (option string * Z))
    (fuel : nat) (file_id : option string) (out : string) (begin_idx : Z)
    (first_chunk : bool) (s : State) (tok : string) :
  logged_in s tok ->
  serves (soaps s) script ->
  Forall (fun e => snd e <> -1) script ->
  (fuel <= length script)%nat ->
  fst (download_loop env ET fuel file_id out begin_idx first_chunk s) = Diverge.
Proof.
  revert script begin_idx first_chunk s.
  induction fuel as [|fuel IH]; intros script begin_idx first_chunk s
    Hin Hserves Hnot Hfuel; [reflexivity|].
  destruct script as [|[p offset] script]; [cbn in Hfuel; lia|].
  inversion Hserves as [|k p' o' rest Hreply Hrest]; subst.
  rewrite (download_loop_step _ _ _ _ _ _ tok _ _ Hin Hreply). cbv zeta.
  inversion Hnot as [|? ? Hoff Hnot']; subst. cbn [snd] in Hoff.
  destruct (Z.eqb_spec offset (-1)) as [|_]; [contradiction|].
  apply (IH script).
  - now apply logged_in_received, logged_in_sent.
  - now rewrite soaps_received.
  - assumption.
  - cbn in Hfuel. lia.
Qed.

(** A broken answer after good ones ends the loop with its exception, the
    request it answered being the last one sent. *)
Lemma download_loop_breaks (script : list (option string * Z)) (e : exn)
    (fuel : nat) (file_id : option string) (out : string) (begin_idx : Z)
    (first_chunk : bool) (s : State) (tok : string) :
  logged_in s tok ->
  serves (soaps s) script ->
  Forall (fun e => snd e <> -1) script ->
  broken false (soap_endpoint env (soaps s + length script)) e ->
  (length script < fuel)%nat ->
  exists s',
    download_loop env ET fuel file_id out begin_idx first_chunk s = (Raise e, s')
    /\ soaps s' = S (soaps s + length script)
    /\ files s' = files (downloaded tok file_id out begin_idx first_chunk (map fst script) s).
Proof.
  revert fuel begin_idx first_chunk s.
  induction script as [|[p offset] script IH]; intros fuel begin_idx first_chunk s
    Hin Hserves Hnot Hbroken Hfuel; (destruct fuel as [|fuel]; [cbn in Hfuel; lia|]).
  - cbn [length] in Hbroken. rewrite Nat.add_0_r in Hbroken.
    cbn [download_loop]. unfold bind at 1.
    rewrite (make_soap_request_eq _ s tok Hin).
    inversion Hbroken as [r status text Hstatus|
                          |text root Hroot Hfind]; subst.
    + destruct (Z.eqb_spec status 200) as [|_]; [contradiction|].
      eexists. split; [reflexivity|]. cbn. split; [lia | reflexivity].
    + cbn [Z.eqb Pos.eqb]. unfold bind at 1, lift.
      unfold _parse_download_chunk_response. rewrite Hroot.
      eexists. split;
        [destruct Hfind as [-> | ->];
           [|destruct (find (ns2 "reportDataChunk") root)]; reflexivity
        |cbn; split; [lia | reflexivity]].
  - inversion Hserves as [|k p' o' rest Hreply Hrest]; subst.
    rewrite (download_loop_step _ _ _ _ _ _ tok _ _ Hin Hreply). cbv zeta.
    inversion Hnot as [|? ? Hoff Hnot']; subst. cbn [snd] in Hoff.
    destruct (Z.eqb_spec offset (-1)) as [|_]; [contradiction|].
    set (s1 := received _ _ _ _).
    destruct (IH fuel (begin_idx + 5000) (still_first first_chunk p) s1) as (s' & H1 & H2 & H3).
    + now apply logged_in_received, logged_in_sent.
    + subst s1. now rewrite soaps_received.
    + assumption.
    + subst s1. rewrite soaps_received. cbn [sent soaps with_soaps].
      cbn [length] in Hbroken.
      now replace (S (soaps s) + length script)%nat with (soaps s + S (length script))%nat by lia.
    + cbn in Hfuel. lia.
    + exists s'. split; [exact H1|]. subst s1. rewrite soaps_received in H2.
      cbn [sent soaps with_soaps] in H2. split; [cbn [length]; lia | exact H3].
Qed.

Lemma get_report_data_eq (fuel : nat) (report_path : string)
    (parameters : list (string * string)) (s s1 : State) (tok : string) :
  authorized env (named s) tok s1 ->
  let out := output_path env report_path s in
  let s0 := sent env (RunReport report_path parameters) tok s1 in
  get_report_data env ET fuel report_path parameters s
  = match soap_endpoint env (soaps s1) with
    | SoapFailed => (Raise ClientError, s0)
    | SoapResponse status text =>
        if status =? 200 then
          match _parse_run_report_response ET text with
          | Ok file_id =>
              match download_loop env ET fuel file_id out 0 true s0 with
              | (Ok _, s') => (Ok out, s')
              | (Raise e, s') => (Raise e, s')
              | (Diverge, s') => (Diverge, s')
              end
          | Raise e => (Raise e, s0)
          | Diverge => (Diverge, s0)
          end
        else (Raise (Exception (soap_failed status text)), s0)
    end.
Proof.
  intros [Hcall Hin] out s0. unfold get_report_data, try_except, bind at 1.
  unfold _generate_output_filename, bind at 1, time. cbn [get fst snd].
  unfold bind at 1. cbn [get]. unfold bind at 1. cbn [modify ret].
  fold (output_path env report_path s). fold out. fold (named s).
  unfold bind at 1, _create_run_report_envelope.
  rewrite (make_soap_request_with _ (named s) s1 tok Hcall (proj1 (proj2 Hin))).
  fold s0.
  destruct (soap_endpoint env (soaps s1)) as [|status text]; [reflexivity|].
  destruct (status =? 200); [|reflexivity].
  unfold bind at 1, lift.
  destruct (_parse_run_report_response ET text) as [file_id|e|]; try reflexivity.
  unfold bind, ret.
  now destruct (download_loop env ET fuel file_id out 0 true s0) as [[[]|e|] s'].
Qed.

Lemma serves_prefix (k : nat) (script rest : list (option string * Z)) :
  serves k (script ++ rest) -> serves k script.
Proof.
  revert k. induction script as [|[p offset] script IH]; intros k H.
  - constructor.
  - inversion H; subst. constructor; [assumption | now apply IH].
Qed.

Lemma joined_none (ps : list (option string)) :
  Forall (fun p => p = None) ps -> joined ps = None.
Proof. induction 1 as [|p ps -> _ IH]; [reflexivity | exact IH]. Qed.

(** The payload is [None] exactly for a chunk without text. *)
Lemma payload_none (chunk : option string) :
  payload chunk = inr None <-> Py.truthy chunk = false.
Proof.
  destruct chunk as [[|c r]|]; cbn; split; try reflexivity; try discriminate.
  destruct (b64decode_utf8 (String c r)); discriminate.
Qed.

(** The messages of the transport error and of the two structural errors
    differ whatever the status and the body. *)
Lemma soap_failed_distinct (status : Z) (text : string) :
  soap_failed status text <> "Could not find reportFileID in response"
  /\ soap_failed status text
     <> "Could not find reportDataChunk or reportDataOffset in response".
Proof. split; discriminate. Qed.

(** C1.  With a file id from the run call and download answers whose
    offsets differ from -1 up to one that is -1 (as 0, 5000, 10000, -1),
    [get_report_data] returns the output path after exactly one download
    request per answer, the begin offsets being 0, 5000, 10000, ... in this
    order; the decoded chunks are in the output file in the order of the
    requests, and no further request goes out.  The loop does not end
    before the answer with offset -1. *)
Theorem get_report_data_chunked_download
    (s s1 : State) (tok report_path : string) (parameters : list (string * string))
    (file_id : option string) (script : list (option string * Z))
    (last_payload : option string) :
  authorized env (named s) tok s1 ->
  run_reply (soap_endpoint env (soaps s)) file_id ->
  serves (S (soaps s)) (script ++ [(last_payload, -1)]) ->
  Forall (fun e => snd e <> -1) script ->
  let n := length script in
  let out := output_path env report_path s in
  (forall fuel, (n < fuel)%nat ->
     let r := get_report_data env ET fuel report_path parameters s in
     fst r = Ok out
     /\ trace (snd r)
        = (trace s1
           ++ SoapPost (soap_url env) (RunReport report_path parameters) tok
              :: map (fun i => SoapPost (soap_url env)
                         (DownloadReportDataChunk (Py.str_opt id file_id)
                            (5000 * Z.of_nat i) 5000) tok)
                   (seq 0 (S n)))%list
     /\ soaps (snd r) = (soaps s + 2 + n)%nat
     /\ files (snd r)
        = match joined (map fst script ++ [last_payload]) with
          | Some content => <[out := content]> (files s)
          | None => files s
          end)
  /\ (forall fuel, (fuel <= n)%nat ->
      fst (get_report_data env ET fuel report_path parameters s) = Diverge).
Proof.
  intros Hauth (text & Hreply & Hparse) Hserves Hnot n out.
  destruct (authorized_frame s s1 tok Hauth) as [Hfiles Hsoaps].
  rewrite <- Hsoaps in Hreply, Hserves |- *. rewrite <- Hfiles.
  set (s0 := sent env (RunReport report_path parameters) tok s1).
  assert (Hin0 : logged_in s0 tok) by exact (proj2 Hauth).
  split.
  - intros fuel Hfuel r. subst r.
    rewrite (get_report_data_eq fuel report_path parameters s s1 tok Hauth), Hreply, Hparse.
    cbn [Z.eqb Pos.eqb]. fold s0. fold out.
    rewrite (download_loop_ends script last_payload fuel file_id out 0 true s0 tok
               Hin0 Hserves Hnot Hfuel).
    cbn [fst snd].
    destruct (downloaded_fields tok file_id out
                (map fst (script ++ [(last_payload, -1)])) 0 true s0)
      as (Hs & Ht & Hf & _).
    rewrite Hs, Ht, Hf, map_app, !length_app, !length_map. cbn [map fst length].
    replace (length script + 1)%nat with (S n) by (subst n; lia).
    repeat split.
    + subst s0. cbn [sent trace emit with_soaps]. rewrite <- app_assoc.
      reflexivity.
    + subst s0 n. cbn. lia.
  - intros fuel Hfuel.
    rewrite (get_report_data_eq fuel report_path parameters s s1 tok Hauth), Hreply, Hparse.
    cbn [Z.eqb Pos.eqb]. fold s0. fold out.
    assert (Hd : fst (download_loop env ET fuel file_id out 0 true s0) = Diverge).
    { apply (download_loop_diverges script fuel file_id out 0 true s0 tok Hin0).
      - exact (serves_prefix _ _ _ Hserves).
      - exact Hnot.
      - exact Hfuel. }
    destruct (download_loop env ET fuel file_id out 0 true s0) as [[[]|e|] s'];
      cbn in Hd; try discriminate. reflexivity.
Qed.

(** C9.  When every download answer up to the one with offset -1 comes
    without chunk text (no text or the empty text), [get_report_data]
    still returns the output path it made up, and it leaves the files as
    they were: nothing is created or written at that path, so that the
    path names no file unless one was there before. *)
Theorem get_report_data_without_chunks
    (s s1 : State) (tok report_path : string) (parameters : list (string * string))
    (file_id : option string) (script : list (option string * Z)) (fuel : nat) :
  authorized env (named s) tok s1 ->
  run_reply (soap_endpoint env (soaps s)) file_id ->
  serves (S (soaps s)) (script ++ [(None, -1)]) ->
  Forall (fun e => fst e = None /\ snd e <> -1) script ->
  (length script < fuel)%nat ->
  let out := output_path env report_path s in
  let r := get_report_data env ET fuel report_path parameters s in
  fst r = Ok out
  /\ files (snd r) = files s
  /\ soaps (snd r) = (soaps s + 2 + length script)%nat
  /\ (files s !! out = None -> files (snd r) !! out = None).
Proof.
  intros Hauth (text & Hreply & Hparse) Hserves Hall Hfuel out r. subst r.
  destruct (authorized_frame s s1 tok Hauth) as [Hfiles Hsoaps].
  rewrite <- Hsoaps in Hreply, Hserves |- *. rewrite <- Hfiles.
  set (s0 := sent env (RunReport report_path parameters) tok s1).
  assert (Hin0 : logged_in s0 tok) by exact (proj2 Hauth).
  assert (Hnot : Forall (fun e => snd e <> -1) script).
  { eapply List.Forall_impl; [|exact Hall]. now intros e [_ H]. }
  assert (Hnone : joined (map fst (script ++ [(None, -1)])) = None).
  { apply joined_none. rewrite map_app. apply List.Forall_app. split.
    - apply List.Forall_map. eapply List.Forall_impl; [|exact Hall]. now intros e [H _].
    - now constructor. }
  rewrite (get_report_data_eq fuel report_path parameters s s1 tok Hauth), Hreply, Hparse.
  cbn [Z.eqb Pos.eqb]. fold s0. fold out.
  rewrite (download_loop_ends script None fuel file_id out 0 true s0 tok
             Hin0 Hserves Hnot Hfuel).
  cbn [fst snd].
  destruct (downloaded_fields tok file_id out
              (map fst (script ++ [(None, -1)])) 0 true s0) as (Hs & _ & Hf & _).
  rewrite Hf, Hs, Hnone, length_map, length_app. cbn [length].
  repeat split; [subst s0; cbn; lia | trivial].
Qed.

(** C6.  An answer with a status other than 200, to the run call or to a
    download call, ends [get_report_data] with the exception whose message
    holds the status and the body, no further request going out and
    nothing returned; a 200 answer whose document lacks the file id, or the
    chunk or offset element, ends it with the exception naming what is
    missing, whose message differs from that of the transport error. *)
Theorem soap_failure_aborts_pipeline
    (s s1 : State) (tok report_path : string) (parameters : list (string * string)) :
  authorized env (named s) tok s1 ->
  (forall e fuel,
     broken true (soap_endpoint env (soaps s)) e ->
     let r := get_report_data env ET fuel report_path parameters s in
     fst r = Raise e /\ soaps (snd r) = S (soaps s) /\ files (snd r) = files s)
  /\ (forall file_id script e fuel,
       run_reply (soap_endpoint env (soaps s)) file_id ->
       serves (S (soaps s)) script ->
       Forall (fun e => snd e <> -1) script ->
       broken false (soap_endpoint env (S (soaps s) + length script)) e ->
       (length script < fuel)%nat ->
       let r := get_report_data env ET fuel report_path parameters s in
       fst r = Raise e /\ soaps (snd r) = (soaps s + 2 + length script)%nat)
  /\ (forall status text,
       soap_failed status text <> "Could not find reportFileID in response"
       /\ soap_failed status text
          <> "Could not find reportDataChunk or reportDataOffset in response").
Proof.
  intros Hauth.
  destruct (authorized_frame s s1 tok Hauth) as [Hfiles Hsoaps].
  rewrite <- Hsoaps, <- Hfiles.
  set (s0 := sent env (RunReport report_path parameters) tok s1).
  assert (Hin0 : logged_in s0 tok) by exact (proj2 Hauth).
  split; [|split; [|apply soap_failed_distinct]].
  - intros e fuel Hbroken r. subst r.
    rewrite (get_report_data_eq fuel report_path parameters s s1 tok Hauth). fold s0.
    inversion Hbroken as [r status text Hstatus|text root Hroot Hfind|]; subst.
    + destruct (Z.eqb_spec status 200) as [|_]; [contradiction|].
      repeat split.
    + cbn [Z.eqb Pos.eqb]. unfold _parse_run_report_response. rewrite Hroot, Hfind.
      repeat split.
  - intros file_id script e fuel (text & Hreply & Hparse) Hserves Hnot Hbroken Hfuel r.
    subst r.
    rewrite (get_report_data_eq fuel report_path parameters s s1 tok Hauth), Hreply, Hparse.
    cbn [Z.eqb Pos.eqb]. fold s0.
    destruct (download_loop_breaks script e fuel file_id
                (output_path env report_path s) 0 true s0 tok Hin0 Hserves Hnot Hbroken Hfuel)
      as (s' & -> & Hs & _).
    cbn [fst snd]. split; [reflexivity|]. rewrite Hs. subst s0. cbn. lia.
Qed.

End Pipeline.

(** ** The scenarios of the specification, run on the scripted world *)

Lemma logged_in_mock : logged_in Mock.logged_in "TOKEN".
Proof.
  split; [reflexivity|]. split; [discriminate|].
  exists 1003600. split; [reflexivity|]. split; [discriminate | reflexivity].
Defined.

Lemma authorized_from_store :
  authorized Mock.four_chunks (named Mock.in_store) "TOKEN" (promoted (named Mock.in_store)).
Proof.
  split; [vm_compute; reflexivity|].
  split; [reflexivity|]. split; [discriminate|].
  exists 1003600. split; [reflexivity|]. split; [discriminate | reflexivity].
Defined.

(** The chunked download of the specification, the token coming from the
    store: four download requests, at 0, 5000, 10000 and 15000. *)
Lemma get_report_data_chunked_download_witness :
  let r := get_report_data Mock.four_chunks Mock.fromstring 4
             Mock.report_path Mock.parameters Mock.in_store in
  fst r = Ok Mock.output_file
  /\ trace (snd r)
     = [ SoapPost Mock.url (RunReport Mock.report_path Mock.parameters) "TOKEN";
         SoapPost Mock.url (DownloadReportDataChunk "FILE123" 0 5000) "TOKEN";
         SoapPost Mock.url (DownloadReportDataChunk "FILE123" 5000 5000) "TOKEN";
         SoapPost Mock.url (DownloadReportDataChunk "FILE123" 10000 5000) "TOKEN";
         SoapPost Mock.url (DownloadReportDataChunk "FILE123" 15000 5000) "TOKEN" ]
  /\ soaps (snd r) = 5%nat
  /\ files (snd r) = {[ Mock.output_file := "ABCD" ]}.
Proof.
  assert (Hrun : run_reply Mock.fromstring
                   (soap_endpoint Mock.four_chunks (soaps (promoted (named Mock.in_store))))
                   (Some "FILE123")).
  { exists "run". split; reflexivity. }
  assert (Hserves : serves Mock.four_chunks Mock.fromstring
                      (S (soaps (promoted (named Mock.in_store))))
                      ([(Some "A", 0); (Some "B", 5000); (Some "C", 10000)]
                       ++ [(Some "D", -1)])).
  { repeat constructor.
    - exists "A", (Some "QQ=="). repeat split; reflexivity.
    - exists "B", (Some "Qg=="). repeat split; reflexivity.
    - exists "C", (Some "Qw=="). repeat split; reflexivity.
    - exists "D", (Some "RA=="). repeat split; reflexivity. }
  assert (Hnot : Forall (fun e : option string * Z => snd e <> -1)
                   [(Some "A", 0); (Some "B", 5000); (Some "C", 10000)]).
  { repeat constructor; discriminate. }
  destruct (get_report_data_chunked_download Mock.four_chunks Mock.fromstring
              Mock.in_store (promoted (named Mock.in_store)) "TOKEN"
              Mock.report_path Mock.parameters (Some "FILE123")
              [(Some "A", 0); (Some "B", 5000); (Some "C", 10000)] (Some "D")
              authorized_from_store Hrun Hserves Hnot) as [H _].
  destruct (H 4%nat (Nat.lt_succ_diag_r 3)) as (H1 & H2 & H3 & H4).
  split; [exact H1|]. split; [exact H2|]. split; [exact H3 | exact H4].
Defined.

Lemma get_report_data_without_chunks_witness :
  let r := get_report_data Mock.no_chunks Mock.fromstring 2
             Mock.report_path Mock.parameters Mock.logged_in in
  fst r = Ok Mock.output_file
  /\ files (snd r) = files Mock.logged_in
  /\ files (snd r) !! Mock.output_file = None.
Proof.
  assert (Hrun : run_reply Mock.fromstring
                   (soap_endpoint Mock.no_chunks (soaps (named Mock.logged_in)))
                   (Some "FILE123")).
  { exists "run". split; reflexivity. }
  assert (Hserves : serves Mock.no_chunks Mock.fromstring (S (soaps (named Mock.logged_in)))
                      ([(None, 0)] ++ [(None, -1)])).
  { repeat constructor.
    - exists "empty", None. repeat split; reflexivity.
    - exists "end", None. repeat split; reflexivity. }
  assert (Hall : Forall (fun e : option string * Z => fst e = None /\ snd e <> -1)
                   [(None, 0)]).
  { repeat constructor. discriminate. }
  destruct (get_report_data_without_chunks Mock.no_chunks Mock.fromstring
              Mock.logged_in (named Mock.logged_in) "TOKEN"
              Mock.report_path Mock.parameters (Some "FILE123")
              [(None, 0)] 2
              (logged_in_authorized Mock.no_chunks Mock.logged_in "TOKEN" logged_in_mock)
              Hrun Hserves Hall (Nat.lt_succ_diag_r 1))
    as (H1 & H2 & _ & H4).
  split; [exact H1|]. split; [exact H2 | exact (H4 eq_refl)].
Defined.

Lemma soap_failure_aborts_pipeline_witness :
  fst (get_report_data Mock.failing_second_download Mock.fromstring 5
         Mock.report_path Mock.parameters Mock.logged_in)
  = Raise (Exception "SOAP request failed with status 503: Service Unavailable")
  /\ soaps (snd (get_report_data Mock.failing_second_download Mock.fromstring 5
                   Mock.report_path Mock.parameters Mock.logged_in)) = 3%nat.
Proof.
  assert (Hrun : run_reply Mock.fromstring
                   (soap_endpoint Mock.failing_second_download (soaps (named Mock.logged_in)))
                   (Some "FILE123")).
  { exists "run". split; reflexivity. }
  assert (Hserves : serves Mock.failing_second_download Mock.fromstring
                      (S (soaps (named Mock.logged_in))) [(Some "A", 0)]).
  { repeat constructor. exists "A", (Some "QQ=="). repeat split; reflexivity. }
  assert (Hnot : Forall (fun e : option string * Z => snd e <> -1) [(Some "A", 0)]).
  { repeat constructor. discriminate. }
  assert (Hbroken : broken Mock.fromstring false
                      (soap_endpoint Mock.failing_second_download
                         (S (soaps (named Mock.logged_in)) + length [(Some "A", 0)]))
                      (Exception (soap_failed 503 "Service Unavailable"))).
  { apply (broken_status Mock.fromstring false 503 "Service Unavailable"). discriminate. }
  exact (proj1 (proj2 (soap_failure_aborts_pipeline Mock.failing_second_download
                         Mock.fromstring Mock.logged_in (named Mock.logged_in) "TOKEN"
                         Mock.report_path Mock.parameters
                         (logged_in_authorized Mock.failing_second_download
                            Mock.logged_in "TOKEN" logged_in_mock)))
           (Some "FILE123") [(Some "A", 0)] _ 5%nat Hrun Hserves Hnot Hbroken
           (ltac:(repeat constructor) : (1 < 5)%nat)).
Defined.

Lemma get_token_without_expiry_unreadable_witness :
  let s' := snd (get_token Mock.no_expires_in "CODE" "verifier" Mock.state0) in
  keyring s' !! k_token = Some "T"
  /\ keyring s' !! k_expiry = Some "None"
  /\ keyring s' !! k_refresh = Some "R"
  /\ fst (load_from_keychain s') = Ok (None, None, None).
Proof.
  destruct (get_token_without_expiry_unreadable Mock.no_expires_in Mock.state0
              "CODE" "verifier" 200 (TokenData (Some "T") None (Some "R")) "T"
              eq_refl (or_introl eq_refl) eq_refl eq_refl eq_refl)
    as (_ & H1 & H2 & H3 & _).
  split; [exact H1|]. split; [exact H2|]. split; [reflexivity | exact H3].
Defined.

(** The end-to-end scenario of the specification: report path
    "/X/Y/Report.xdo", parameter P_A = 1, file id FILE123, a chunk decoding
    to two lines and a last answer without chunk. *)
Example end_to_end_scenario :
  let r := get_report_data Mock.two_rows Mock.fromstring 3
             Mock.report_path Mock.parameters Mock.logged_in in
  let nl := String (ascii_of_nat 10) "" in
  fst r = Ok Mock.output_file
  /\ files (snd r) !! Mock.output_file = Some ("h1,h2" +:+ nl +:+ "r1,r2" +:+ nl)
  /\ trace (snd r)
     = [ SoapPost Mock.url (RunReport "/X/Y/Report.xdo" [("P_A", "1")]) "TOKEN";
         SoapPost Mock.url (DownloadReportDataChunk "FILE123" 0 5000) "TOKEN";
         SoapPost Mock.url (DownloadReportDataChunk "FILE123" 5000 5000) "TOKEN" ].
Proof. vm_compute. repeat split; reflexivity. Qed.

(** A whole authorization: the user answers in the fourth second, the code
    is exchanged, and the next call is served from memory. *)
Example authorization_then_cache :
  let env := Mock.answering 3 "CODE"
               (PostResponse 200 (Some (TokenData (Some "T") (Some 3600) (Some "R")))) in
  let r1 := get_connection env Mock.state0 in
  let r2 := get_connection env (snd r1) in
  fst r1 = Ok (Some "T")
  /\ clock (snd r1) = clock Mock.state0 + 4
  /\ token_expiry (self (snd r1)) = Some (clock Mock.state0 + 4 + 3600)
  /\ stored (keyring (snd r1)) = (Some "T", Some (clock Mock.state0 + 4 + 3600), Some "R")
  /\ r2 = (Ok (Some "T"), snd r1).
Proof. vm_compute. repeat split; reflexivity. Qed.

(** * Further properties of the code *)

(** ** The PKCE challenge *)

Lemma compress_length (h block : list Z) :
  length h = 8%nat -> length (Sha256.compress h block) = 8%nat.
Proof.
  intros H. unfold Sha256.compress. rewrite length_map, length_combine, H. reflexivity.
Qed.

Lemma digest_length (msg : list Z) : length (Sha256.digest msg) = 32%nat.
Proof.
  unfold Sha256.digest.
  set (blocks := Sha256.chunks _ _ _). clearbody blocks.
  assert (H : forall h, length h = 8%nat ->
                length (fold_left Sha256.compress blocks h) = 8%nat).
  { induction blocks as [|b blocks IH]; intros h Hh; [exact Hh|].
    cbn [fold_left]. apply IH. now apply compress_length. }
  specialize (H Sha256.H0 eq_refl).
  destruct (fold_left Sha256.compress blocks Sha256.H0)
    as [|a [|b [|c [|d [|e [|f [|g [|h [|i l]]]]]]]]]; try discriminate.
  reflexivity.
Qed.

Lemma sextet_url_safe (i : Z) : base64url (Pkce.url_safe (Base64.sextet i)) = true.
Proof.
  unfold Base64.sextet.
  assert (H : forallb (fun c => base64url (Pkce.url_safe c))
                (Py.chars Base64.alphabet) = true) by (vm_compute; reflexivity).
  rewrite forallb_forall in H.
  destruct (nth_in_or_default (Z.to_nat i) (Py.chars Base64.alphabet) "A"%char) as [Hin| ->].
  - now apply H.
  - reflexivity.
Qed.

Lemma base64url_not_pad (c : ascii) : base64url c = true -> Ascii.eqb c "=" = false.
Proof.
  intros H. destruct (Ascii.eqb_spec c "="%char) as [->|]; [discriminate H | reflexivity].
Qed.

(** X1.  Whatever the verifier, the challenge has 43 characters, all of
    them letters, digits, "-" or "_": the length and the alphabet RFC 7636
    asks of an S256 challenge. *)
Theorem generate_code_challenge_length (verifier : string) :
  String.length (Pkce.generate_code_challenge verifier) = 43%nat
  /\ Forall (fun c => base64url c = true) (Py.chars (Pkce.generate_code_challenge verifier)).
Proof.
  unfold Pkce.generate_code_challenge, Base64.b64encode.
  rewrite rstrip_pad, !replace_single, !chars_of_chars, map_map.
  rewrite (map_ext _ Pkce.url_safe) by (intros c; apply url_safe_twice).
  pose proof (digest_length (Py.encode verifier)) as Hlen.
  set (hash := Sha256.digest _) in *. clearbody hash.
  do 33 (destruct hash as [|? hash]; try discriminate Hlen).
  cbn [Base64.encode_chars map rev app].
  cbn [Pkce.drop_pad]. rewrite Ascii.eqb_refl.
  cbn [Pkce.drop_pad]. rewrite (base64url_not_pad _ (sextet_url_safe _)).
  rewrite length_of_chars. split; [reflexivity|].
  cbn [rev app]. repeat constructor; apply sextet_url_safe.
Qed.

(** ** Timestamps through the credential store *)

(** X2.  What [save_to_keychain] stores with an expiry, [load_from_keychain]
    reads back: the token, the same expiry, and the refresh token that was
    given, or, when none (or an empty one) was given, the refresh token the
    store held before, which [save_to_keychain] leaves in place.  No entry
    other than the three is touched.  (Python prints a whole float below
    10^16 as its digits and ".0".) *)
Theorem save_then_load (token : string) (expiry : Z) (refresh : option string) (s : State) :
  Z.abs expiry < 10 ^ 16 ->
  let s' := snd (save_to_keychain token (Some expiry) refresh s) in
  fst (save_to_keychain token (Some expiry) refresh s) = Ok tt
  /\ fst (load_from_keychain s')
     = Ok (Some token, Some expiry,
           if Py.truthy refresh then refresh else keyring s !! k_refresh)
  /\ forall key, key <> k_token -> key <> k_expiry -> key <> k_refresh ->
       keyring s' !! key = keyring s !! key.
Proof.
  intros _ s'. subst s'. rewrite save_to_keychain_eq. cbn [fst snd].
  split; [reflexivity|]. rewrite load_from_keychain_eq. cbn [fst keyring with_keyring].
  rewrite stored_saved. split; [reflexivity|].
  intros key H1 H2 H3. unfold saved.
  destruct refresh as [[|c r]|]; now simplify_map_eq.
Qed.

Lemma save_then_load_witness :
  Z.abs 1003600 < 10 ^ 16
  /\ fst (load_from_keychain
            (snd (save_to_keychain "TOKEN" (Some 1003600) (Some "R") Mock.state0)))
     = Ok (Some "TOKEN", Some 1003600, Some "R").
Proof.
  split; [reflexivity|].
  exact (proj1 (proj2 (save_then_load "TOKEN" 1003600 (Some "R") Mock.state0 eq_refl))).
Defined.

Lemma updated_expiry (td : token_data) (tok : string) (now : Z) (a : OracleAuth) :
  token_expiry (updated td tok now a)
  = match td_expires_in td with
    | Some d => Some (now + d)
    | None => token_expiry a
    end.
Proof.
  unfold updated. destruct (td_expires_in td), (td_refresh_token td); reflexivity.
Qed.

Lemma persisted_stored (td : token_data) (tok : string) (d : Z) (s : State) :
  td_expires_in td = Some d ->
  token_expiry (self (persisted td tok s)) = Some (clock s + d)
  /\ stored_token (persisted td tok s) = Some tok
  /\ stored_expiry (persisted td tok s) = Some (clock s + d).
Proof.
  intros Hd. unfold stored_token, stored_expiry, persisted.
  cbn [self keyring with_keyring with_self]. rewrite updated_expiry, Hd, stored_saved.
  repeat split.
Qed.

(** X3.  With the clock and [expires_in] in whole seconds below 2^51, which
    binary64 adds, prints and reads without rounding: after [get_token]
    stored a token that comes with [expires_in], an object without token in
    memory, beside the same store (a new process), gets that token from
    [get_connection] for as long as more than 300 seconds of its life are
    left: nothing is sent, and the token and its expiry move into the
    object. *)
Theorem stored_token_serves_new_process (env : Env) (s s2 : State)
    (auth_code code_verifier : string) (status d : Z) (td : token_data) (tok : string) :
  token_endpoint env (posts s) = PostResponse status (Some td) ->
  status < 400 \/ 600 <= status ->
  td_access_token td = Some tok -> tok <> "" ->
  td_expires_in td = Some d ->
  0 <= clock s < second_bound ->
  0 < d < second_bound ->
  keyring s2 = keyring (snd (get_token env auth_code code_verifier s)) ->
  access_token (self s2) = None ->
  0 <= clock s2 < clock s + d - 300 ->
  fst (get_token env auth_code code_verifier s) = Ok td
  /\ get_connection env s2
     = (Ok (Some tok),
        with_self (fun a => set_token_expiry (Some (clock s + d))
                              (set_access_token (Some tok) a)) s2).
Proof.
  intros Hreply Hstatus Htok Hne Hd Hnow Hlife Hk Hmem Hclock.
  assert (Hrange : (400 <=? status) && (status <? 600) = false).
  { apply andb_false_iff. destruct Hstatus; [left; lia | right; lia]. }
  rewrite get_token_eq in *. cbv zeta in *. rewrite Hreply, Hrange, Htok in *.
  cbn [fst snd] in *. split; [reflexivity|].
  set (s1 := posted _ _ s) in *.
  destruct (persisted_stored td tok d s1 Hd) as (_ & Ht & He).
  change (clock s1) with (clock s) in He.
  rewrite get_connection_beyond_memory by now rewrite Hmem.
  unfold stored_token, stored_expiry, promoted in *.
  unfold stored_token, stored_expiry. rewrite Hk, Ht, He.
  assert (Hf : Py.truthy (Some tok) && fresh (clock s2) (Some (clock s + d)) = true).
  { apply andb_true_iff. split; [apply truthy_iff; eauto|].
    apply fresh_iff. exists (clock s + d). repeat split; lia. }
  now rewrite Hf.
Qed.

(** X4.  A refreshed token whose [expires_in] is 300 seconds or less is
    never served from memory or from the store: the next [get_connection],
    even at once, starts with a new refresh request or a new authorization. *)
Theorem short_lived_token_is_not_cached (env : Env) (s : State) (c : ascii) (r : string)
    (status d : Z) (td : token_data) (tok : string) :
  refresh_token_at s = Some (String c r) ->
  token_endpoint env (posts s) = PostResponse status (Some td) ->
  status < 400 \/ 600 <= status ->
  td_access_token td = Some tok ->
  td_expires_in td = Some d ->
  d <= 300 ->
  Z.abs (clock s + d) < 10 ^ 16 ->
  let s' := snd (refresh_access_token env s) in
  fst (refresh_access_token env s) = Ok (Some tok)
  /\ get_connection env s' = refresh_or_full_auth env s'
  /\ exists ev evs,
       trace (snd (get_connection env s')) = (trace s' ++ ev :: evs)%list
       /\ attempt (self s') ev.
Proof.
  intros Hrt Hreply Hstatus Htok Hd Hshort _.
  assert (Hrange : (400 <=? status) && (status <? 600) = false).
  { apply andb_false_iff. destruct Hstatus; [left; lia | right; lia]. }
  rewrite (refresh_access_token_accepted env s c r status td tok Hrt Hreply Hrange Htok).
  cbn [fst snd]. split; [reflexivity|].
  set (s1 := posted _ _ s).
  destruct (persisted_stored td tok d s1 Hd) as (Hm & _ & He).
  change (clock s1) with (clock s) in *.
  assert (Hc : clock (persisted td tok s1) = clock s)
    by exact (proj1 (proj2 (persisted_fields td tok s1))).
  assert (Hout : get_connection env (persisted td tok s1)
                 = refresh_or_full_auth env (persisted td tok s1)).
  { apply get_connection_outside_margin; rewrite Hc.
    - rewrite Hm. intros (e & [= <-] & _ & H). lia.
    - rewrite He. intros (e & [= <-] & _ & H). lia. }
  split; [exact Hout|]. rewrite Hout. apply refresh_or_full_auth_attempts.
Qed.

(** ** Clearing the store *)

Lemma cleared_other (k : gmap (string * string) string) (key : string * string) :
  key <> k_token -> key <> k_expiry -> key <> k_refresh ->
  cleared k !! key = k !! key.
Proof.
  intros H1 H2 H3. unfold cleared.
  destruct (k !! k_token); [|reflexivity].
  destruct (delete k_token k !! k_expiry).
  - destruct (delete k_expiry (delete k_token k) !! k_refresh); now simplify_map_eq.
  - now simplify_map_eq.
Qed.

(** X5.  [clear_keychain] never raises and touches nothing but the three
    entries of the service.  It deletes them in the order token, expiry,
    refresh token and stops at the first that is missing: with no token
    entry it deletes nothing, with a token but no expiry only the token;
    from a store in which a refresh token comes with an expiry and an
    expiry with a token, all three are gone. *)
Theorem clear_keychain_scope (s : State) :
  let s' := snd (clear_keychain s) in
  fst (clear_keychain s) = Ok tt
  /\ self s' = self s /\ trace s' = trace s /\ files s' = files s
  /\ (forall key, key <> k_token -> key <> k_expiry -> key <> k_refresh ->
        keyring s' !! key = keyring s !! key)
  /\ (keyring s !! k_token = None -> keyring s' = keyring s)
  /\ (is_Some (keyring s !! k_token) -> keyring s !! k_expiry = None ->
        keyring s' = delete k_token (keyring s))
  /\ (consistent (keyring s) -> empty_of_credentials (keyring s')).
Proof.
  intros s'. subst s'. rewrite clear_keychain_eq. cbn [fst snd keyring with_keyring].
  do 4 (split; [reflexivity|]). split; [|split; [|split]].
  - intros key. apply cleared_other.
  - intros H. unfold cleared. now rewrite H.
  - intros [v Hv] He. unfold cleared. rewrite Hv.
    now rewrite lookup_delete_ne, He by discriminate.
  - apply cleared_consistent.
Qed.

(** X6.  [close_connection] on a store as [save_to_keychain] leaves it:
    the object holds no token, no expiry and no refresh token, the store
    none of the three entries, and nothing was sent; the next
    [get_connection] is the interactive authorization, which starts the
    listener without any refresh request. *)
Theorem close_connection_forgets (env : Env) (s : State) :
  consistent (keyring s) ->
  let s' := snd (close_connection s) in
  fst (close_connection s) = Ok tt
  /\ access_token (self s') = None
  /\ token_expiry (self s') = None
  /\ refresh_token (self s') = None
  /\ empty_of_credentials (keyring s')
  /\ trace s' = trace s
  /\ get_connection env s' = full_auth_flow env s'
  /\ exists evs, trace (snd (get_connection env s')) = (trace s ++ ServerStarted :: evs)%list.
Proof.
  intros Hk s'. subst s'.
  unfold close_connection, bind, modify. cbn [fst snd]. rewrite clear_keychain_eq.
  cbn [fst snd]. set (s' := with_keyring _ _).
  assert (He : empty_of_credentials (keyring s')) by (apply cleared_consistent, Hk).
  assert (Hget : get_connection env s' = full_auth_flow env s').
  { rewrite get_connection_beyond_memory by reflexivity.
    unfold stored_token, stored_expiry. rewrite (stored_empty _ He). cbn [fst snd Py.truthy andb].
    unfold refresh_or_full_auth, bind.
    rewrite refresh_access_token_absent; [reflexivity|].
    unfold refresh_token_at. cbn [Py.truthy]. change (refresh_token (self s')) with (@None string).
    cbn [Py.truthy]. now rewrite (stored_empty _ He). }
  do 4 (split; [reflexivity|]). split; [exact He|]. split; [reflexivity|].
  split; [exact Hget|]. rewrite Hget. apply (full_auth_flow_starts env s').
Qed.

(** ** What obtaining a token does and does not do *)

Lemma full_auth_flow_eq (env : Env) (s : State) :
  full_auth_flow env s
  = match start_auth_server env s with
    | (Ok r, s1) =>
        let s2 := posted (token_url (self s1)) (code_params (self s1) (fst r) (snd r)) s1 in
        match token_endpoint env (posts s1) with
        | PostResponse status (Some td) =>
            if (400 <=? status) && (status <? 600) then (Ok None, s2)
            else match td_access_token td with
                 | Some tok => (Ok (Some tok), persisted td tok s2)
                 | None => (Ok None, s2)
                 end
        | _ => (Ok None, s2)
        end
    | (Raise e, s1) => (Ok None, s1)
    | (Diverge, s1) => (Diverge, s1)
    end.
Proof.
  unfold full_auth_flow, try_except, full_auth_body, bind at 1.
  destruct (start_auth_server env s) as [[r|e|] s1]; try reflexivity.
  unfold bind at 1. rewrite get_token_eq. cbv zeta.
  destruct (token_endpoint env (posts s1)) as [|status [td|]]; try reflexivity;
    destruct ((400 <=? status) && (status <? 600)); try reflexivity.
  destruct (td_access_token td) as [tok|] eqn:E; [|reflexivity].
  unfold bind, item. now rewrite E.
Qed.

Lemma same_config_refl a : same_config a a.
Proof. repeat split. Qed.

Lemma same_config_updated td tok now a : same_config (updated td tok now a) a.
Proof.
  unfold updated. destruct (td_expires_in td), (td_refresh_token td); repeat split.
Qed.

Lemma footprint_refl (n : nat) (s : State) : footprint n s s.
Proof.
  unfold footprint. repeat split; try lia; try tauto.
Qed.

Lemma footprint_posted (n : nat) url params (s s' : State) :
  footprint n (posted url params s) s' -> footprint (S n) s s'.
Proof.
  unfold footprint. cbn. intros (H1 & H2 & H4 & H5 & H6 & H7).
  repeat split; try tauto; try lia; apply H6 || apply H7.
Qed.

Lemma footprint_persisted (n : nat) td tok (s : State) : footprint n s (persisted td tok s).
Proof.
  unfold footprint, persisted. cbn [serving posts clock soaps files self keyring
                                    with_keyring with_self].
  repeat split; try lia; try tauto; try apply same_config_updated.
  intros key H1 H2 H3. unfold saved.
  destruct (td_refresh_token td); [destruct (refresh_token _) as [[|? ?]|]|];
    now simplify_map_eq.
Qed.

Lemma footprint_after (n m : nat) (a b c : State) :
  instant n a b -> footprint m b c -> footprint (n + m) a c.
Proof.
  unfold instant, footprint, same_config.
  intros (A1 & A2 & A4 & A5 & A6 & A7) (B1 & B2 & B4 & B5 & B6 & B7).
  destruct A6 as (A61 & A62 & A63 & A64 & A65), B6 as (B61 & B62 & B63 & B64 & B65).
  rewrite A1 in *. repeat split; try tauto; try lia; try congruence.
  intros key H1 H2 H3. now rewrite B7, A7.
Qed.

Lemma instant_footprint (n : nat) (a b : State) : instant n a b -> footprint n a b.
Proof.
  unfold instant, footprint.
  intros (A1 & A2 & A4 & A5 & A6 & A7).
  rewrite A1. repeat split; try tauto; try lia; apply A6 || apply A7.
Qed.

Lemma instant_posted_persisted td tok url params (s : State) :
  instant 1 s (persisted td tok (posted url params s)).
Proof.
  unfold instant, persisted, posted.
  cbn [serving posts clock soaps files self keyring with_keyring with_self with_posts emit].
  repeat split; try lia; try apply same_config_updated.
  intros key H1 H2 H3. unfold saved.
  destruct (td_refresh_token td); [destruct (refresh_token _) as [[|? ?]|]|];
    now simplify_map_eq.
Qed.

Lemma full_auth_flow_footprint (env : Env) (s : State) :
  footprint 1 s (snd (full_auth_flow env s))
  /\ serving (snd (full_auth_flow env s)) = false.
Proof.
  rewrite full_auth_flow_eq.
  destruct (start_auth_server_outcome env s) as (H1 & H2 & H3 & H4 & H5 & _ & H7 & _).
  destruct (start_auth_server env s) as [[r|e|] s1]; cbn [fst snd] in *.
  - assert (Hbase : forall s2, instant 1 s1 s2 -> footprint 1 s s2 /\ serving s2 = false).
    { unfold instant, footprint. intros s2 (A1 & A2 & A4 & A5 & A6 & A7).
      rewrite A1, A4, A5, H3, H4, H5, H7, <- H1, <- H2 in *.
      repeat split; try tauto; try lia; try assumption; apply A6. }
    assert (Hpost : instant 1 s1
              (posted (token_url (self s1)) (code_params (self s1) r.1 r.2) s1)).
    { unfold instant, posted. cbn. repeat split; lia. }
    cbv zeta.
    destruct (token_endpoint env (posts s1)) as [|status [td|]]; cbn [snd];
      try (apply Hbase, Hpost).
    destruct ((400 <=? status) && (status <? 600)); cbn [snd]; [apply Hbase, Hpost|].
    destruct (td_access_token td) as [tok|]; cbn [snd]; [|apply Hbase, Hpost].
    apply Hbase, instant_posted_persisted.
  - unfold footprint. rewrite H1, H2, H3, H4, H5, H7.
    repeat split; try tauto; try lia.
  - unfold footprint. rewrite H1, H2, H3, H4, H5, H7.
    repeat split; try tauto; try lia.
Qed.

Lemma footprint_mono (n m : nat) (s s' : State) :
  (n <= m)%nat -> footprint n s s' -> footprint m s s'.
Proof.
  unfold footprint. intros Hnm (H1 & H2 & H4 & H5 & H6 & H7).
  repeat split; try tauto; try lia; apply H6 || apply H7.
Qed.

Lemma instant_rejected url params (s : State) :
  instant 1 s (with_keyring (cleared (keyring s)) (with_self forget (posted url params s))).
Proof.
  unfold instant, posted.
  cbn [serving posts clock soaps files self keyring with_keyring with_self with_posts emit].
  repeat split; try lia. apply cleared_other.
Qed.

Lemma refresh_or_full_auth_footprint (env : Env) (s : State) :
  footprint 2 s (snd (refresh_or_full_auth env s)).
Proof.
  unfold refresh_or_full_auth, bind.
  destruct (refresh_token_at s) as [[|c r]|] eqn:Hrt.
  1, 3: rewrite refresh_access_token_absent by now rewrite Hrt.
  1, 2: cbn [Py.truthy]; apply (footprint_mono 1); [lia | apply full_auth_flow_footprint].
  destruct (rejected (token_endpoint env (posts s))) eqn:Hrej.
  - rewrite (refresh_access_token_rejected env s c r Hrt Hrej). cbn [Py.truthy].
    eapply (footprint_after 1 1); [|apply full_auth_flow_footprint]. apply instant_rejected.
  - unfold rejected in Hrej.
    destruct (token_endpoint env (posts s)) as [|status [td|]] eqn:Hreply;
      [discriminate| |now rewrite orb_true_r in Hrej].
    apply orb_false_iff in Hrej as [Hstatus Htok].
    destruct (td_access_token td) as [tok|] eqn:Etok; [|discriminate].
    rewrite (refresh_access_token_accepted env s c r status td tok Hrt Hreply Hstatus Etok).
    destruct (Py.truthy (Some tok)); cbn [ret snd].
    + apply (footprint_mono 1); [lia|]. apply instant_footprint, instant_posted_persisted.
    + eapply (footprint_after 1 1); [|apply full_auth_flow_footprint].
      apply instant_posted_persisted.
Qed.

(** X10.  What one call of [get_connection] can do, by whatever path: it
    leaves the listener stopped if it was, sends at most two requests to
    the token endpoint, sends nothing to the report service, writes no
    file, keeps the five configuration fields of the object and touches no
    entry of the store but the three of the service.  How long the call
    takes is not stated: the requests have no timeout. *)
Theorem get_connection_footprint (env : Env) (s : State) :
  let s' := snd (get_connection env s) in
  (serving s = false -> serving s' = false)
  /\ (posts s <= posts s' <= posts s + 2)%nat
  /\ soaps s' = soaps s /\ files s' = files s
  /\ (auth_url (self s') = auth_url (self s) /\ token_url (self s') = token_url (self s)
      /\ client_id (self s') = client_id (self s) /\ scope (self s') = scope (self s)
      /\ redirect_uri (self s') = redirect_uri (self s))
  /\ forall key, key <> k_token -> key <> k_expiry -> key <> k_refresh ->
       keyring s' !! key = keyring s !! key.
Proof.
  change (footprint 2 s (snd (get_connection env s))).
  destruct (Py.truthy (access_token (self s)) && fresh (clock s) (token_expiry (self s)))
    eqn:Hmem.
  { rewrite get_connection_memory by assumption. apply footprint_refl. }
  rewrite get_connection_beyond_memory by assumption.
  destruct (Py.truthy (stored_token s) && fresh (clock s) (stored_expiry s)).
  - unfold footprint, promoted. cbn. repeat split; try tauto; lia.
  - apply refresh_or_full_auth_footprint.
Qed.

(** X11.  In a state of whole seconds, where the expiry text of the store
    is one [str] wrote: when there is no refresh token (in the object or
    in the store) and [get_connection] returns [None], the interactive
    authorization having failed, the object and the store are as they
    were: an expired token in the store is not removed. *)
Theorem failed_authorization_keeps_credentials (env : Env) (s : State) :
  in_seconds s ->
  Py.truthy (refresh_token_at s) = false ->
  fst (get_connection env s) = Ok None ->
  self (snd (get_connection env s)) = self s
  /\ keyring (snd (get_connection env s)) = keyring s.
Proof.
  intros _ Hrt.
  destruct (Py.truthy (access_token (self s)) && fresh (clock s) (token_expiry (self s)))
    eqn:Hmem.
  { rewrite get_connection_memory by assumption. cbn [fst snd]. intros [= H].
    rewrite H in Hmem. discriminate Hmem. }
  rewrite get_connection_beyond_memory by assumption.
  destruct (Py.truthy (stored_token s) && fresh (clock s) (stored_expiry s)) eqn:Hst.
  { cbn [fst snd]. intros [= H]. rewrite H in Hst. discriminate Hst. }
  unfold refresh_or_full_auth, bind. rewrite (refresh_access_token_absent env s Hrt).
  cbn [Py.truthy]. rewrite full_auth_flow_eq.
  destruct (start_auth_server_outcome env s) as (H1 & H2 & _).
  destruct (start_auth_server env s) as [[r|e|] s1]; cbn [fst snd] in *;
    [|now intros _|discriminate].
  cbv zeta.
  destruct (token_endpoint env (posts s1)) as [|status [td|]]; cbn [fst snd];
    try (now intros _).
  destruct ((400 <=? status) && (status <? 600)); cbn [fst snd]; [now intros _|].
  destruct (td_access_token td) as [tok|]; cbn [fst snd]; [discriminate | now intros _].
Qed.

(** X7.  [get_oauth_headers], and [_get_auth_header] of the order and
    location services, end in one of two ways in every state: with the two
    headers, the first being "Bearer " and the non-empty token
    [get_connection] returned, or with their own exception ("Failed to get
    access token", "Failed to get OAuth access token").  No time-out, HTTP
    or key error of the authorization reaches the caller. *)
Theorem bearer_header_or_one_exception (env : Env) (s : State) :
  exists token s',
    get_connection env s = (Ok token, s')
    /\ get_oauth_headers env s
       = (match token with
          | Some (String c r) =>
              Ok [("Authorization", "Bearer " +:+ String c r);
                  ("Content-Type", "application/json")]
          | _ => Raise (Exception "Failed to get access token")
          end, s')
    /\ _get_auth_header env s
       = (match token with
          | Some (String c r) =>
              Ok [("Authorization", "Bearer " +:+ String c r);
                  ("Content-Type", "application/json")]
          | _ => Raise (Exception "Failed to get OAuth access token")
          end, s').
Proof.
  destruct (returns_get_connection env s) as (token & s' & H).
  exists token, s'. split; [exact H|].
  unfold get_oauth_headers, _get_auth_header, bind. rewrite H.
  destruct token as [[|c r]|]; split; reflexivity.
Qed.

(** ** The interactive authorization *)

Lemma start_auth_server_trace (env : Env) (s : State) :
  exists evs,
    trace (snd (start_auth_server env s))
    = (trace s ++ ServerStarted
         :: BrowserOpened (auth_url (self s))
              (auth_params (self s) (Pkce.generate_code_challenge (verifier_at env s)))
         :: evs)%list.
Proof.
  rewrite start_auth_server_eq.
  pose proof (wait_for_code_run env (Z.to_nat (timeout + 1)) 0 (clock s) (listening env s)
                eq_refl eq_refl) as H.
  cbn [listening clock emit with_draws with_auth_code with_serving] in H.
  specialize (H ltac:(lia) ltac:(unfold timeout; lia)).
  cbn zeta in H. destruct H as (_ & _ & _ & _ & _ & _ & (evs & H7) & _).
  assert (Hl : trace (listening env s)
               = (trace s ++ [ServerStarted;
                    BrowserOpened (auth_url (self s))
                      (auth_params (self s)
                         (Pkce.generate_code_challenge (verifier_at env s)))])%list).
  { unfold listening. cbn [trace emit with_draws with_auth_code with_serving].
    now rewrite <- app_assoc. }
  rewrite Hl in H7.
  destruct (wait_for_code env (Z.to_nat (timeout + 1)) (clock s) (listening env s))
    as [[c|e|] s']; cbn [fst snd] in *.
  - exists (evs ++ [ServerShutdown])%list. cbn [trace with_serving emit].
    rewrite H7, <- !app_assoc. reflexivity.
  - exists evs. rewrite H7, <- !app_assoc. reflexivity.
  - exists evs. rewrite H7, <- !app_assoc. reflexivity.
Qed.

Lemma full_auth_flow_trace (env : Env) (s : State) (code verifier : string) :
  fst (start_auth_server env s) = Ok (code, verifier) ->
  trace (snd (full_auth_flow env s))
  = (trace (snd (start_auth_server env s))
     ++ [TokenPost (token_url (self s)) (code_params (self s) code verifier)])%list.
Proof.
  intros H. rewrite full_auth_flow_eq.
  destruct (start_auth_server_outcome env s) as (H1 & _).
  destruct (start_auth_server env s) as [[r|e|] s1]; cbn [fst snd] in *; try discriminate.
  injection H as ->. cbn [fst snd]. rewrite H1.
  assert (Hp : forall td tok s2, trace (persisted td tok s2) = trace s2)
    by (intros; apply persisted_fields).
  destruct (token_endpoint env (posts s1)) as [|status [td|]]; try reflexivity.
  destruct ((400 <=? status) && (status <? 600)); [reflexivity|].
  destruct (td_access_token td); [|reflexivity].
  cbn [snd]. now rewrite Hp.
Qed.

(** X8.  When the listener receives a code, the interactive authorization
    opens the browser once, with the S256 challenge of the 128-character
    verifier it generated, and its last act is one POST to the token
    endpoint carrying that code and that same verifier. *)
Theorem code_exchange_sends_verifier_of_challenge (env : Env) (s : State)
    (code verifier : string) :
  fst (start_auth_server env s) = Ok (code, verifier) ->
  String.length verifier = 128%nat
  /\ exists evs,
       trace (snd (full_auth_flow env s))
       = (trace s
          ++ ServerStarted
          :: BrowserOpened (auth_url (self s))
               [("client_id", client_id (self s)); ("response_type", "code");
                ("redirect_uri", redirect_uri (self s)); ("scope", scope (self s));
                ("code_challenge", Pkce.generate_code_challenge verifier);
                ("code_challenge_method", "S256")]
          :: evs
          ++ [TokenPost (token_url (self s))
                [("grant_type", "authorization_code"); ("code", code);
                 ("redirect_uri", redirect_uri (self s)); ("client_id", client_id (self s));
                 ("code_verifier", verifier)]])%list.
Proof.
  intros H. rewrite (full_auth_flow_trace env s code verifier H).
  destruct (start_auth_server_trace env s) as (evs & Ht).
  assert (Hv : verifier = verifier_at env s).
  { destruct (start_auth_server_outcome env s) as (_ & _ & _ & _ & _ & _ & _ & _ & H9).
    destruct (first_code env (Z.to_nat (timeout + 1)) (sleeps s) 0) as [[k c]|];
      destruct H9 as [H9 _]; rewrite H9 in H; [now injection H | discriminate]. }
  subst verifier. split.
  - unfold verifier_at, Pkce.generate_code_verifier.
    now rewrite length_of_chars, length_map, length_seq.
  - exists evs. rewrite Ht, <- app_assoc. reflexivity.
Qed.

Lemma captured_some (batch : list (option string)) (held : option string) (c : string) :
  captured held batch = Some c -> In (Some c) batch \/ held = Some c.
Proof.
  revert held. unfold captured.
  induction batch as [|x batch IH]; intros held H; cbn in *; [now right|].
  apply IH in H as [H|H]; [now left; right|].
  destruct x as [y|]; [left; left; exact H | now right].
Qed.

Lemma first_code_source (env : Env) (n from j k : nat) (c : string) :
  first_code env n from j = Some (k, c) ->
  exists i, (i < n)%nat /\ k = (j + i + 1)%nat /\ In (Some c) (callbacks env (from + i)).
Proof.
  revert from j. induction n as [|n IH]; intros from j; cbn [first_code]; [discriminate|].
  destruct (captured None (callbacks env from)) as [c'|] eqn:E.
  - intros [= <- <-]. exists 0%nat. rewrite (Nat.add_0_r from).
    apply captured_some in E as [E|E]; [|discriminate]. repeat split; [lia | lia | exact E].
  - intros H. apply IH in H as (i & Hi & -> & Hin). exists (S i).
    replace (from + S i)%nat with (S from + i)%nat by lia. repeat split; [lia | lia | exact Hin].
Qed.

Lemma listening_forgets (env : Env) (s : State) (held : option string) :
  listening env (with_auth_code held s) = listening env s.
Proof. reflexivity. Qed.

(** X9.  The code [start_auth_server] returns arrived in a callback during
    this wait, within its first 301 seconds, and the call returns in the
    second it arrived; a code the handler still held from an earlier
    authorization has no influence on the call. *)
Theorem authorization_code_comes_from_this_wait (env : Env) (s : State)
    (code verifier : string) :
  fst (start_auth_server env s) = Ok (code, verifier) ->
  (exists i, (i < 301)%nat
             /\ In (Some code) (callbacks env (sleeps s + i))
             /\ clock (snd (start_auth_server env s)) = clock s + Z.of_nat i + 1)
  /\ forall held, start_auth_server env (with_auth_code held s) = start_auth_server env s.
Proof.
  intros H. split.
  - destruct (start_auth_server_outcome env s) as (_ & _ & _ & _ & _ & _ & _ & _ & H9).
    destruct (first_code env (Z.to_nat (timeout + 1)) (sleeps s) 0) as [[k c]|] eqn:E;
      destruct H9 as [H9 Hc]; rewrite H9 in H; [|discriminate].
    injection H as -> _. apply first_code_source in E as (i & Hi & -> & Hin).
    exists i. repeat split; [exact Hi | exact Hin | rewrite Hc; lia].
  - intros held. rewrite !start_auth_server_eq. reflexivity.
Qed.

(** ** The report pipeline when things go wrong *)

Section PipelineFailures.

Variable env : Env.
Variable ET : string -> option element.

#[local] Abbreviation unusable := (unusable ET).

Lemma logged_in_downloaded tok' file_id out begin_idx first_chunk ps (s : State) tok :
  logged_in s tok -> logged_in (downloaded env tok' file_id out begin_idx first_chunk ps s) tok.
Proof.
  intros H.
  destruct (downloaded_fields env tok' file_id out ps begin_idx first_chunk s)
    as (_ & _ & _ & H1 & H2 & _).
  unfold logged_in in *. now rewrite H1, H2.
Qed.

(** The loop after a run of good answers none of which ends the data. *)
Lemma download_loop_prefix (script : list (option string * Z))
    (fuel : nat) (file_id : option string) (out : string) (begin_idx : Z)
    (first_chunk : bool) (s : State) (tok : string) :
  logged_in s tok ->
  serves env ET (soaps s) script ->
  Forall (fun e => snd e <> -1) script ->
  download_loop env ET (length script + fuel) file_id out begin_idx first_chunk s
  = download_loop env ET fuel file_id out (begin_idx + 5000 * Z.of_nat (length script))
      (fold_left still_first (map fst script) first_chunk)
      (downloaded env tok file_id out begin_idx first_chunk (map fst script) s).
Proof.
  revert begin_idx first_chunk s.
  induction script as [|[p offset] script IH]; intros begin_idx first_chunk s Hin Hserves Hnot.
  - cbn. now rewrite Z.add_0_r.
  - inversion Hserves as [|k p' o' rest Hreply Hrest]; subst.
    inversion Hnot as [|? ? Hoff Hnot']; subst. cbn [snd] in Hoff.
    cbn [length Nat.add].
    rewrite (download_loop_step env ET _ _ _ _ _ _ tok _ _ Hin Hreply). cbv zeta.
    destruct (Z.eqb_spec offset (-1)) as [|_]; [contradiction|].
    rewrite IH.
    + cbn [map fst fold_left downloaded]. f_equal. lia.
    + now apply logged_in_received, logged_in_sent.
    + now rewrite soaps_received.
    + assumption.
Qed.

(** One turn of the loop on an answer it cannot use. *)
Lemma download_loop_unusable (fuel : nat) (file_id : option string) (out : string)
    (begin_idx : Z) (first_chunk : bool) (s : State) (tok : string) (e : exn) :
  logged_in s tok ->
  unusable (soap_endpoint env (soaps s)) e ->
  download_loop env ET (S fuel) file_id out begin_idx first_chunk s
  = (Raise e, sent env (download_request file_id begin_idx) tok s).
Proof.
  intros Hin Hbad. cbn [download_loop]. unfold bind at 1.
  unfold _create_download_chunk_envelope, chunk_size.
  fold (download_request file_id begin_idx).
  rewrite (make_soap_request_eq env _ s tok Hin).
  inversion Hbad as [Hr|text Hdoc Hr|text root ce oe Hdoc Hc Ho Ht Hr
                     |text root ce oe t Hdoc Hc Ho Ht Hascii Hint Hr
                     |text chunk offset err Hparse Hne Hdec Hr]; subst; try reflexivity;
    cbn [Z.eqb Pos.eqb]; unfold bind at 1, lift.
  - unfold _parse_download_chunk_response. now rewrite Hdoc.
  - unfold _parse_download_chunk_response. now rewrite Hdoc, Hc, Ho, Ht.
  - unfold _parse_download_chunk_response. now rewrite Hdoc, Hc, Ho, Ht, Hint.
  - rewrite Hparse. cbn [fst snd]. destruct chunk as [|c r]; [contradiction|].
    unfold bind at 1. unfold bind at 1. unfold decode_chunk. rewrite Hdec.
    now destruct err.
Qed.

(** X14.  A download answer the loop cannot use (no response, a document
    that does not parse, an offset element without text or whose text is
    ASCII and no integer, a chunk that is not ASCII, not base64 or not
    UTF-8), after
    any number of good answers, ends [get_report_data] with the exception
    of the library call that failed: [ClientError], [ParseError],
    [TypeError], [ValueError], [binascii.Error], [UnicodeDecodeError].  No
    further request is sent, and the output file is left with the chunks
    received before, the partial file of the log message; the chunk of the
    failing answer is not written. *)
Theorem unusable_download_keeps_partial_file
    (s s1 : State) (tok report_path : string) (parameters : list (string * string))
    (file_id : option string) (script : list (option string * Z)) (e : exn) (fuel : nat) :
  authorized env (named s) tok s1 ->
  run_reply ET (soap_endpoint env (soaps s)) file_id ->
  serves env ET (S (soaps s)) script ->
  Forall (fun e => snd e <> -1) script ->
  unusable (soap_endpoint env (S (soaps s) + length script)) e ->
  (length script < fuel)%nat ->
  let out := output_path env report_path s in
  let r := get_report_data env ET fuel report_path parameters s in
  fst r = Raise e
  /\ soaps (snd r) = (soaps s + 2 + length script)%nat
  /\ files (snd r)
     = match joined (map fst script) with
       | Some content => <[out := content]> (files s)
       | None => files s
       end.
Proof.
  intros Hauth (text & Hreply & Hparse) Hserves Hnot Hbad Hfuel out r. subst r.
  destruct (authorized_frame env s s1 tok Hauth) as [Hfiles Hsoaps].
  rewrite <- Hsoaps in Hreply, Hserves, Hbad |- *. rewrite <- Hfiles.
  set (s0 := sent env (RunReport report_path parameters) tok s1).
  assert (Hin0 : logged_in s0 tok) by exact (proj2 Hauth).
  rewrite (get_report_data_eq env ET fuel report_path parameters s s1 tok Hauth), Hreply, Hparse.
  cbn [Z.eqb Pos.eqb]. fold s0. fold out.
  destruct fuel as [|fuel]; [lia|].
  replace (S fuel) with (length script + S (fuel - length script))%nat by lia.
  rewrite (download_loop_prefix script _ file_id out 0 true s0 tok Hin0 Hserves Hnot).
  set (s' := downloaded env tok file_id out 0 true (map fst script) s0).
  destruct (downloaded_fields env tok file_id out (map fst script) 0 true s0)
    as (Hs & _ & Hf & _).
  fold s' in Hs, Hf. rewrite length_map in Hs.
  assert (Hbad' : unusable (soap_endpoint env (soaps s')) e)
    by (rewrite Hs; exact Hbad).
  rewrite (download_loop_unusable _ file_id out _ _ s' tok e
             (logged_in_downloaded _ _ _ _ _ _ _ _ Hin0) Hbad').
  cbn [fst snd sent soaps files with_soaps emit]. rewrite Hs, Hf.
  split; [reflexivity|]. split; [subst s0; cbn; lia|].
  destruct (joined (map fst script)); reflexivity.
Qed.

(** X13.  When [get_connection] has no token to give ([None], or the empty
    text), [get_report_data] raises "Failed to get OAuth access token"
    before anything is sent to the report service, and writes no file. *)
Theorem get_report_data_without_token
    (s s1 : State) (token : option string) (report_path : string)
    (parameters : list (string * string)) (fuel : nat) :
  get_connection env (named s) = (Ok token, s1) ->
  Py.truthy token = false ->
  let r := get_report_data env ET fuel report_path parameters s in
  fst r = Raise (Exception "Failed to get OAuth access token")
  /\ soaps (snd r) = soaps s /\ files (snd r) = files s
  /\ trace (snd r) = trace s1.
Proof.
  intros Hcall Htok r. subst r.
  pose proof (get_connection_frame env (named s)) as Hframe. rewrite Hcall in Hframe.
  cbn [fst snd named files soaps with_draws] in Hframe.
  assert (E : get_report_data env ET fuel report_path parameters s
              = (Raise (Exception "Failed to get OAuth access token"), s1)).
  { unfold get_report_data, try_except, bind at 1.
    unfold _generate_output_filename, bind at 1, time. cbn [get fst snd].
    unfold bind at 1. cbn [get]. unfold bind at 1. cbn [modify ret].
    fold (named s).
    unfold bind at 1, _make_soap_request, bind at 1. rewrite Hcall.
    destruct token as [[|c r]|]; try discriminate Htok; reflexivity. }
  rewrite E. cbn [fst snd]. repeat split; apply Hframe.
Qed.
End PipelineFailures.

(** ** The output file and the service address *)

Lemma chars_append (a b : string) : Py.chars (a +:+ b) = (Py.chars a ++ Py.chars b)%list.
Proof.
  induction a as [|c a IH]; [reflexivity|].
  change (String c a +:+ b) with (String c (a +:+ b)). cbn [Py.chars app]. now rewrite IH.
Qed.

Lemma last_segment_from_no_sep (sep : ascii) (s acc : string) :
  ~ In sep (Py.chars acc) -> ~ In sep (Py.chars (Py.last_segment_from sep acc s)).
Proof.
  revert acc. induction s as [|c s IH]; intros acc Hacc; cbn [Py.last_segment_from];
    [exact Hacc|].
  destruct (Ascii.eqb_spec c sep) as [->|Hne]; apply IH.
  - intros [].
  - rewrite chars_append. cbn [Py.chars]. intros Hin. apply in_app_or in Hin as [Hin|[Hin|[]]];
      [now apply Hacc | congruence].
Qed.

Lemma replace_from_removes (old : string) (c : ascii) (s : string) (skip : nat) :
  In c (Py.chars (Py.replace_from old "" skip s)) -> In c (Py.chars s).
Proof.
  revert skip. induction s as [|a s IH]; intros skip; cbn [Py.replace_from]; [tauto|].
  destruct skip as [|k].
  - destruct (String.prefix old (String a s)).
    + change ("" +:+ ?x) with x. intros H. right. exact (IH _ H).
    + cbn [Py.chars]. intros [H|H]; [now left | right; exact (IH _ H)].
  - intros H. right. exact (IH _ H).
Qed.

Lemma slash_match {A} (c : ascii) (X Y : A) :
  match c with "/"%char => X | _ => Y end = if Ascii.eqb c "/" then X else Y.
Proof. destruct c as [[] [] [] [] [] [] [] []]; reflexivity. Qed.

Lemma path_join_eq (a b : string) :
  path_join a b
  = match b with
    | String c _ =>
        if Ascii.eqb c "/" then b
        else match Py.last_char a with
             | None => b
             | Some x => if Ascii.eqb x "/" then a +:+ b else a +:+ "/" +:+ b
             end
    | EmptyString =>
        match Py.last_char a with
        | None => b
        | Some x => if Ascii.eqb x "/" then a +:+ b else a +:+ "/" +:+ b
        end
    end.
Proof.
  unfold path_join. destruct b as [|c r].
  - destruct (Py.last_char a) as [x|]; [apply slash_match | reflexivity].
  - rewrite slash_match. destruct (Ascii.eqb c "/"); [reflexivity|].
    destruct (Py.last_char a) as [x|]; [apply slash_match | reflexivity].
Qed.

Lemma last_char_none (s : string) : Py.last_char s = None -> s = "".
Proof.
  induction s as [|c s IH]; [reflexivity|]. cbn [Py.last_char].
  destruct s as [|d s]; [discriminate|]. intros H. now apply IH in H.
Qed.

Lemma path_join_relative (a b : string) :
  (forall r, b <> String "/" r) ->
  exists sep, (sep = "" \/ sep = "/") /\ path_join a b = a +:+ sep +:+ b.
Proof.
  intros Hb. rewrite path_join_eq.
  assert (Hjoin : exists sep, (sep = "" \/ sep = "/")
            /\ match Py.last_char a with
               | None => b
               | Some x => if Ascii.eqb x "/" then a +:+ b else a +:+ "/" +:+ b
               end = a +:+ sep +:+ b).
  { destruct (Py.last_char a) as [x|] eqn:El.
    - destruct (Ascii.eqb x "/"); [exists "" | exists "/"]; split; auto.
    - exists "". split; [now left|].
      now rewrite (last_char_none a El). }
  destruct b as [|c r]; [exact Hjoin|].
  destruct (Ascii.eqb_spec c "/"%char) as [->|_]; [|exact Hjoin].
  exfalso. now apply (Hb r).
Qed.

(** X16.  The output file name is the downloads directory, a "/" unless
    the directory is empty or ends with one, and
    name_timestamp_id.csv, where the name is the part of the report path
    after its last "/" with every ".xdo" removed: it holds no "/", so that
    the folders of the report path never reach the file name, and a report
    path cannot direct the file to another directory.  One value of the
    random source is used. *)
Theorem output_file_lies_in_downloads_dir (env : Env) (report_path : string) (s : State) :
  exists name sep,
    name = Py.replace ".xdo" "" (Py.last_segment "/" report_path)
    /\ ~ In "/"%char (Py.chars name)
    /\ (sep = "" \/ sep = "/")
    /\ _generate_output_filename env report_path s
       = (Ok (downloads_dir env +:+ sep +:+ name +:+ "_" +:+ strftime env (clock s)
              +:+ "_" +:+ Py.take 8 (uuid4 env (draws s)) +:+ ".csv"),
          with_draws (S (draws s)) s).
Proof.
  set (name := Py.replace ".xdo" "" (Py.last_segment "/" report_path)).
  assert (Hname : ~ In "/"%char (Py.chars name)).
  { intros Hin. apply replace_from_removes in Hin.
    revert Hin. apply last_segment_from_no_sep. intros []. }
  set (rest := "_" +:+ strftime env (clock s) +:+ "_"
               +:+ Py.take 8 (uuid4 env (draws s)) +:+ ".csv").
  destruct (path_join_relative (downloads_dir env) (name +:+ rest)) as (sep & Hsep & Hjoin).
  { clearbody name. intros r Hr. destruct name as [|c name]; [discriminate Hr|].
    change (String c name +:+ rest) with (String c (name +:+ rest)) in Hr.
    injection Hr as -> _. apply Hname. now left. }
  exists name, sep. repeat split; [exact Hname | exact Hsep |].
  unfold _generate_output_filename, bind, time, get, modify, ret. cbn [fst snd].
  fold name. f_equal. f_equal. exact Hjoin.
Qed.

Lemma rstrip_spec (c : ascii) (s : string) :
  Py.last_char (Py.rstrip c s) <> Some c
  /\ exists k, s = Py.rstrip c s +:+ copies k c.
Proof.
  induction s as [|a s (IHl & k & IHk)]; [split; [discriminate | now exists 0%nat]|].
  cbn [Py.rstrip]. destruct (Py.rstrip c s) as [|x y] eqn:E.
  - destruct (Ascii.eqb_spec a c) as [->|Hne].
    + split; [discriminate|]. exists (S k). rewrite IHk at 1. reflexivity.
    + split; [cbn; congruence|]. exists k. rewrite IHk at 1. reflexivity.
  - split; [exact IHl|]. exists k. rewrite IHk at 1. reflexivity.
Qed.

(** X17.  However many "/" the configured base URL ends with, the service
    address is the base URL without them followed by
    "/xmlpserver/services/PublicReportWSSService". *)
Theorem soap_url_ignores_trailing_slashes (env : Env) :
  exists b k,
    base_url env = b +:+ copies k "/"
    /\ Py.last_char b <> Some "/"%char
    /\ soap_url env = b +:+ "/xmlpserver/services/PublicReportWSSService".
Proof.
  destruct (rstrip_spec "/" (base_url env)) as (Hl & k & Hk).
  exists (Py.rstrip "/" (base_url env)), k. repeat split; assumption.
Qed.

(** ** Configuration and logging *)

Lemma upper_char_idempotent (c : ascii) :
  Str.upper_char (Str.upper_char c) = Str.upper_char c.
Proof. destruct c as [[] [] [] [] [] [] [] []]; reflexivity. Qed.

Lemma upper_idempotent (s : string) : Str.upper (Str.upper s) = Str.upper s.
Proof.
  induction s as [|c s IH]; [reflexivity|].
  cbn [Str.upper]. now rewrite upper_char_idempotent, IH.
Qed.

Lemma lookup_valid (key : string) :
  match Environment.lookup key Environment.ORACLE_CONFIGS with
  | Some c => In (key, c) Environment.ORACLE_CONFIGS
  | None => ~ In key ["DEV1"; "TEST"; "PROD"]
  end.
Proof.
  unfold Environment.lookup.
  destruct (List.find _ Environment.ORACLE_CONFIGS) as [[k c]|] eqn:E; cbn [fmap option_fmap option_map snd].
  - apply find_some in E as [Hin Hk]. cbn [fst] in Hk.
    apply String.eqb_eq in Hk. now subst k.
  - intros Hin.
    assert (Hany : exists c, In (key, c) Environment.ORACLE_CONFIGS).
    { cbn in Hin. destruct Hin as [<-|[<-|[<-|[]]]]; eexists; cbn; eauto. }
    destruct Hany as (c & Hc).
    apply (find_none _ _ E) in Hc. cbn [fst] in Hc. now rewrite String.eqb_refl in Hc.
Qed.

(** X18.  [get_env_config] with [ORACLE_ENV] set to an ASCII text: the
    result is the entry of [ORACLE_CONFIGS] under the upper-cased value,
    with that upper-cased name under ['env'], or, when the upper-cased value
    is none of DEV1, TEST and PROD, the [ValueError] naming it and the three
    valid names.  The letter case of the value does not matter; an unset
    variable stands for PROD, but a variable set to the empty text is an
    error. *)
Theorem get_env_config_by_name (environ : gmap string string) (v : string) :
  Str.is_ascii v = true ->
  environ !! "ORACLE_ENV" = Some v ->
  match Environment.get_env_config environ with
  | inr config =>
      Environment.env config = Str.upper v
      /\ In (Str.upper v, Environment.entry config) Environment.ORACLE_CONFIGS
      /\ Environment.api config = Environment.API_CONFIG
  | inl msg =>
      ~ In (Str.upper v) ["DEV1"; "TEST"; "PROD"]
      /\ msg = "Invalid Oracle Environment: " +:+ Str.upper v
               +:+ ". Valid values are: DEV1, TEST, PROD"
  end
  /\ Environment.get_env_config (<["ORACLE_ENV" := Str.upper v]> environ)
     = Environment.get_env_config environ
  /\ Environment.get_env_config (delete "ORACLE_ENV" environ)
     = Environment.get_env_config (<["ORACLE_ENV" := "PROD"]> environ)
  /\ forall other, other !! "ORACLE_ENV" = Some "" ->
       Environment.get_env_config other
       = inl "Invalid Oracle Environment: . Valid values are: DEV1, TEST, PROD".
Proof.
  intros _ Hv. unfold Environment.get_env_config.
  rewrite Hv, !lookup_insert_eq, lookup_delete_eq. cbn [default]. unfold id.
  rewrite upper_idempotent. split; [|split; [reflexivity|split; [reflexivity|]]].
  - pose proof (lookup_valid (Str.upper v)) as H.
    destruct (Environment.lookup (Str.upper v) Environment.ORACLE_CONFIGS); cbn; auto.
  - intros other ->. reflexivity.
Qed.

Lemma mem_In (x : string) (l : list string) : Str.mem x l = true <-> In x l.
Proof.
  unfold Str.mem. rewrite existsb_exists. split.
  - intros (y & Hy & E). apply String.eqb_eq in E. now subst y.
  - intros H. exists x. split; [exact H | apply String.eqb_refl].
Qed.

Lemma debug_level_valid (environ : gmap string string) :
  In (LoggerConfig.debug_level (LoggerConfig._initialize environ))
     LoggerConfig.VALID_LOG_LEVELS.
Proof.
  unfold LoggerConfig._initialize. cbn [LoggerConfig.debug_level].
  destruct (Str.mem _ LoggerConfig.VALID_LOG_LEVELS) eqn:E.
  - now apply mem_In.
  - cbn. tauto.
Qed.

(** X19.  [LoggerConfig.log] in a process environment of ASCII values.
    The configured level is always one of the five valid ones.  With
    [MCP_DEBUG_ENABLED] unset nothing is handed to the [logging] module, not
    even an error.  What is handed over has the level asked for, in upper
    case, or the configured level when none or an unknown one was asked
    for; it is the configured level or one of WARNING, ERROR, CRITICAL, so
    that an INFO or DEBUG message passes only when the configured level is
    exactly its own (an INFO message never with level DEBUG).  A message
    without level, or with an unknown one, always passes when logging is
    enabled. *)
Theorem log_hands_over_by_level (environ : gmap string string)
    (service_name message : string) (level : option string)
    (kwargs : list (string * string)) :
  (forall name v, environ !! name = Some v -> Str.is_ascii v = true) ->
  (forall l, level = Some l -> Str.is_ascii l = true) ->
  let i := LoggerConfig._initialize environ in
  let handed := LoggerConfig.log i service_name message level kwargs in
  In (LoggerConfig.debug_level i) LoggerConfig.VALID_LOG_LEVELS
  /\ (environ !! LoggerConfig.ENV_DEBUG_ENABLED = None -> handed = None)
  /\ (forall lvl text, handed = Some (lvl, text) ->
        Str.upper (LoggerConfig.getenv environ LoggerConfig.ENV_DEBUG_ENABLED "No") = "YES"
        /\ lvl = LoggerConfig.message_level i level
        /\ (lvl = LoggerConfig.debug_level i \/ In lvl ["WARNING"; "ERROR"; "CRITICAL"])
        /\ (lvl = "INFO" \/ lvl = "DEBUG" -> LoggerConfig.debug_level i = lvl))
  /\ (LoggerConfig.debug_enabled i = true ->
      Str.mem (Str.upper (default "" level)) LoggerConfig.VALID_LOG_LEVELS = false ->
      exists text, handed = Some (LoggerConfig.debug_level i, text)).
Proof.
  intros _ _ i handed. split; [apply debug_level_valid|]. subst handed.
  unfold LoggerConfig.log.
  assert (Hlogger : LoggerConfig._logger i = LoggerConfig.debug_enabled i) by reflexivity.
  rewrite Hlogger. split; [|split].
  - intros Hunset. subst i. unfold LoggerConfig._initialize, LoggerConfig.getenv.
    rewrite Hunset. reflexivity.
  - intros lvl text.
    destruct (LoggerConfig.debug_enabled i) eqn:Hen; [|discriminate]. cbn [negb orb].
    destruct (Str.mem (LoggerConfig.message_level i level) LoggerConfig.ALWAYS_LOG_LEVELS
              || String.eqb (LoggerConfig.message_level i level) (LoggerConfig.debug_level i))
      eqn:Hshould; [|discriminate]. cbn [negb].
    intros [= <- _].
    assert (Hor : LoggerConfig.message_level i level = LoggerConfig.debug_level i
                  \/ In (LoggerConfig.message_level i level) ["WARNING"; "ERROR"; "CRITICAL"]).
    { apply orb_true_iff in Hshould as [H|H]; [right; now apply mem_In | left].
      now apply String.eqb_eq. }
    repeat split.
    + subst i. unfold LoggerConfig._initialize in Hen. cbn [LoggerConfig.debug_enabled] in Hen.
      now apply String.eqb_eq in Hen.
    + exact Hor.
    + intros Hlow. destruct Hor as [Heq|Hin]; [now symmetry|].
      cbn in Hin. destruct Hlow as [E|E]; rewrite E in Hin;
        destruct Hin as [H|[H|[H|[]]]]; discriminate H.
  - intros Hen Hinvalid. rewrite Hen. cbn [negb orb].
    assert (Hml : LoggerConfig.message_level i level = LoggerConfig.debug_level i).
    { unfold LoggerConfig.message_level.
      destruct level as [[|c r]|]; cbn [default] in Hinvalid; unfold id in Hinvalid.
      - destruct (Str.mem (LoggerConfig.debug_level i) LoggerConfig.VALID_LOG_LEVELS);
          reflexivity.
      - now rewrite Hinvalid.
      - destruct (Str.mem (LoggerConfig.debug_level i) LoggerConfig.VALID_LOG_LEVELS);
          reflexivity. }
    rewrite Hml, String.eqb_refl, orb_true_r. cbn [negb]. eauto.
Qed.

(** ** Callers and the refresh token *)

(** X20.  [SetupTaskCSVExportService._get_headers], in a valid
    environment, never raises: it returns the two headers whatever
    [get_connection] returned on the new [OracleAuth] object, and when that
    is [None] the first header is "Bearer None".  The object of the state is
    left as it was; a token that was obtained stays in the store only. *)
Theorem export_headers_never_fail (env : Env) (environ : gmap string string)
    (config : Environment.config) (s : State) :
  Environment.get_env_config environ = inr config ->
  exists token s1,
    get_connection env (with_self (fun _ => OracleAuth_init config) s) = (Ok token, s1)
    /\ fst (_get_headers env environ s)
       = Ok [("Authorization", "Bearer " +:+ Py.str_opt id token);
             ("Content-Type", "application/json")]
    /\ (token = None ->
        fst (_get_headers env environ s)
        = Ok [("Authorization", "Bearer None"); ("Content-Type", "application/json")])
    /\ self (snd (_get_headers env environ s)) = self s
    /\ keyring (snd (_get_headers env environ s)) = keyring s1.
Proof.
  intros Hcfg.
  destruct (returns_get_connection env (with_self (fun _ => OracleAuth_init config) s))
    as (token & s1 & H).
  exists token, s1. split; [exact H|].
  unfold _get_headers. rewrite Hcfg. cbv zeta. rewrite H. cbn [fst snd].
  repeat split. now intros ->.
Qed.

Lemma stored_refresh (k : gmap (string * string) string) (x : string) :
  snd (stored k) = Some x -> k !! k_refresh = Some x.
Proof.
  unfold stored. destruct (k !! k_expiry) as [[|c r]|]; cbn [snd]; try tauto.
  destruct (Py.float (String c r)); cbn [snd]; [tauto | discriminate].
Qed.

(** X12.  With the clock and [expires_in] in whole seconds below 2^51 in
    absolute value, which binary64 adds, prints and reads without rounding:
    after a successful refresh whose response has [expires_in], if the
    response carries a (non-empty) refresh token, it is the one the
    next refresh sends and the one in the store; if it carries none, the
    refresh token just used stays the one to send, and the store keeps the
    refresh-token entry it had. *)
Theorem refresh_keeps_or_rotates_refresh_token (env : Env) (s : State) (c : ascii)
    (r : string) (status d : Z) (td : token_data) (tok : string) :
  refresh_token_at s = Some (String c r) ->
  token_endpoint env (posts s) = PostResponse status (Some td) ->
  status < 400 \/ 600 <= status ->
  td_access_token td = Some tok ->
  td_expires_in td = Some d ->
  Z.abs (clock s) < second_bound ->
  Z.abs d < second_bound ->
  td_refresh_token td <> Some "" ->
  let s' := snd (refresh_access_token env s) in
  fst (refresh_access_token env s) = Ok (Some tok)
  /\ refresh_token_at s'
     = Some (match td_refresh_token td with
             | Some new => new
             | None => String c r
             end)
  /\ fst (load_from_keychain s')
     = Ok (Some tok, Some (clock s + d),
           match td_refresh_token td with
           | Some new => Some new
           | None => keyring s !! k_refresh
           end).
Proof.
  intros Hrt Hreply Hstatus Htok Hd _ _ Hne.
  assert (Hrange : (400 <=? status) && (status <? 600) = false).
  { apply andb_false_iff. destruct Hstatus; [left; lia | right; lia]. }
  rewrite (refresh_access_token_accepted env s c r status td tok Hrt Hreply Hrange Htok).
  cbn [fst snd]. split; [reflexivity|].
  set (s1 := posted _ _ s).
  assert (Hstored : stored (keyring (persisted td tok s1))
                    = (Some tok, Some (clock s + d),
                       match td_refresh_token td with
                       | Some new => Some new
                       | None => keyring s !! k_refresh
                       end)).
  { unfold persisted. cbn [keyring with_keyring with_self self].
    rewrite updated_expiry, Hd, stored_saved. unfold updated. rewrite Hd.
    destruct (td_refresh_token td) as [[|c' r']|]; [contradiction| |]; reflexivity. }
  split; [|now rewrite load_from_keychain_eq, Hstored].
  unfold refresh_token_at in *. rewrite Hstored. cbn [snd].
  unfold persisted, updated. rewrite Hd. cbn [self with_keyring with_self].
  destruct (td_refresh_token td) as [[|c' r']|]; [contradiction|reflexivity|].
  cbn [refresh_token set_token_expiry set_access_token].
  change (self s1) with (self s).
  destruct (Py.truthy (refresh_token (self s))); [exact Hrt|].
  now apply stored_refresh.
Qed.

(** ** Base64 chunks *)

Lemma byte_cases (P : Z -> bool) :
  forallb (fun n => P (Z.of_nat n)) (seq 0 256) = true ->
  forall a, byte a -> P a = true.
Proof.
  intros H a [Ha1 Ha2]. rewrite forallb_forall in H.
  specialize (H (Z.to_nat a)). rewrite Z2Nat.id in H by lia.
  apply H, in_seq. lia.
Qed.

Lemma byte_cases2 (P : Z -> Z -> bool) :
  forallb (fun n => forallb (fun m => P (Z.of_nat n) (Z.of_nat m)) (seq 0 256)) (seq 0 256)
  = true ->
  forall a b, byte a -> byte b -> P a b = true.
Proof.
  intros H a b Ha Hb.
  apply (byte_cases (fun a => forallb (fun m => P a (Z.of_nat m)) (seq 0 256)) H) in Ha.
  now apply (byte_cases (P a) Ha).
Qed.

Lemma sextet_round (i : Z) :
  0 <= i < 64 ->
  Base64.sextet_value (Base64.sextet i) = Some i /\ Ascii.eqb (Base64.sextet i) "=" = false.
Proof.
  intros Hi.
  assert (H : forallb (fun n => sextet_ok (Z.of_nat n)) (seq 0 64) = true)
    by (vm_compute; reflexivity).
  rewrite forallb_forall in H. specialize (H (Z.to_nat i)).
  rewrite Z2Nat.id in H by lia. specialize (H ltac:(apply in_seq; lia)).
  unfold sextet_ok in H. destruct (Base64.sextet_value (Base64.sextet i)) as [v|]; [|discriminate].
  apply andb_true_iff in H as [Hv Hp]. apply Z.eqb_eq in Hv. subst v.
  split; [reflexivity|]. now destruct (Ascii.eqb (Base64.sextet i) "=").
Qed.

Lemma in64_range (x : Z) : in64 x = true -> 0 <= x < 64.
Proof. unfold in64. intros H. apply andb_true_iff in H as [H1 H2]. lia. Qed.

Lemma first_two_ok a b : byte a -> byte b -> first_two a b = true.
Proof. apply byte_cases2. vm_compute. reflexivity. Qed.

Lemma last_two_ok b c : byte b -> byte c -> last_two b c = true.
Proof. apply byte_cases2. vm_compute. reflexivity. Qed.

Lemma short_group_ok a : byte a -> short_group a = true.
Proof. apply byte_cases. vm_compute. reflexivity. Qed.

Lemma first_two_spec (a b : Z) :
  byte a -> byte b ->
  let s1 := Z.shiftr a 2 in
  let s2 := Z.lor (Z.shiftl (Z.land a 3) 4) (Z.shiftr b 4) in
  0 <= s1 < 64 /\ 0 <= s2 < 64
  /\ Z.lor (Z.shiftl s1 2) (Z.shiftr s2 4) = a
  /\ Z.land s2 15 = Z.shiftr b 4.
Proof.
  intros Ha Hb. pose proof (first_two_ok a b Ha Hb) as H. unfold first_two in H.
  cbv zeta in *.
  apply andb_true_iff in H as [H H4]. apply andb_true_iff in H as [H H3].
  apply andb_true_iff in H as [H1 H2].
  apply in64_range in H1, H2. apply Z.eqb_eq in H3, H4. auto.
Qed.

Lemma last_two_spec (b c : Z) :
  byte b -> byte c ->
  let s3 := Z.lor (Z.shiftl (Z.land b 15) 2) (Z.shiftr c 6) in
  let s4 := Z.land c 63 in
  0 <= s3 < 64 /\ 0 <= s4 < 64
  /\ Z.lor (Z.shiftl (Z.shiftr b 4) 4) (Z.shiftr s3 2) = b
  /\ Z.lor (Z.shiftl (Z.land s3 3) 6) s4 = c.
Proof.
  intros Hb Hc. pose proof (last_two_ok b c Hb Hc) as H. unfold last_two in H.
  cbv zeta in *.
  apply andb_true_iff in H as [H H4]. apply andb_true_iff in H as [H H3].
  apply andb_true_iff in H as [H1 H2].
  apply in64_range in H1, H2. apply Z.eqb_eq in H3, H4. auto.
Qed.

Lemma short_group_spec (a : Z) :
  byte a ->
  let s2 := Z.shiftl (Z.land a 3) 4 in
  let s3 := Z.shiftl (Z.land a 15) 2 in
  0 <= s2 < 64 /\ 0 <= s3 < 64
  /\ Z.lor (Z.shiftl (Z.shiftr a 2) 2) (Z.shiftr s2 4) = a
  /\ Z.lor (Z.shiftl (Z.shiftr a 4) 4) (Z.shiftr s3 2) = a.
Proof.
  intros Ha. pose proof (short_group_ok a Ha) as H. unfold short_group in H.
  cbv zeta in *.
  apply andb_true_iff in H as [H H4]. apply andb_true_iff in H as [H H3].
  apply andb_true_iff in H as [H1 H2].
  apply in64_range in H1, H2. apply Z.eqb_eq in H3, H4. auto.
Qed.

Ltac sextet_step H :=
  cbn [Base64.a2b_base64];
  rewrite (proj2 (sextet_round _ H)), (proj1 (sextet_round _ H)); cbv iota beta.

Lemma a2b_encode (n : nat) (bs out : list Z) (lc : Z) :
  (length bs <= n)%nat -> Forall byte bs ->
  Base64.a2b_base64 (Base64.encode_chars bs) 0 lc 0 out = Some (out ++ bs)%list.
Proof.
  revert bs out lc. induction n as [|n IH]; intros bs out lc Hlen Hbs.
  { destruct bs; [cbn; now rewrite app_nil_r | cbn in Hlen; lia]. }
  destruct bs as [|a [|b [|c rest]]].
  - cbn. now rewrite app_nil_r.
  - inversion Hbs as [|? ? Ha _]; subst.
    destruct (first_two_spec a 0 Ha ltac:(unfold byte; lia)) as (A1 & _).
    destruct (short_group_spec a Ha) as (S2 & _ & E1 & _).
    cbn [Base64.encode_chars].
    sextet_step A1. sextet_step S2.
    cbn [Base64.a2b_base64 Ascii.eqb Bool.eqb Nat.leb Nat.add]. cbv iota.
    now rewrite E1.
  - inversion Hbs as [|? ? Ha Hbs']; subst. inversion Hbs' as [|? ? Hb _]; subst.
    destruct (first_two_spec a b Ha Hb) as (A1 & A2 & E1 & E2).
    destruct (short_group_spec b Hb) as (_ & S3 & _ & E3).
    cbn [Base64.encode_chars].
    sextet_step A1. sextet_step A2. sextet_step S3.
    cbn [Base64.a2b_base64 Ascii.eqb Bool.eqb Nat.leb Nat.add]. cbv iota.
    rewrite E1, E2, E3, <- app_assoc. reflexivity.
  - inversion Hbs as [|? ? Ha Hbs']; subst. inversion Hbs' as [|? ? Hb Hbs'']; subst.
    inversion Hbs'' as [|? ? Hc Hrest]; subst.
    destruct (first_two_spec a b Ha Hb) as (A1 & A2 & E1 & E2).
    destruct (last_two_spec b c Hb Hc) as (A3 & A4 & E3 & E4).
    cbn [Base64.encode_chars].
    sextet_step A1. sextet_step A2. sextet_step A3. sextet_step A4.
    rewrite E1, E2, E3, E4, IH; [|cbn in Hlen; lia|assumption].
    rewrite <- !app_assoc. reflexivity.
Qed.

Lemma encode_chars_ascii (n : nat) (bs : list Z) :
  (length bs <= n)%nat -> forallb Base64.is_ascii (Base64.encode_chars bs) = true.
Proof.
  assert (Hs : forall i, Base64.is_ascii (Base64.sextet i) = true).
  { intros i. unfold Base64.sextet.
    assert (H : forallb Base64.is_ascii (Py.chars Base64.alphabet) = true)
      by (vm_compute; reflexivity).
    rewrite forallb_forall in H.
    destruct (nth_in_or_default (Z.to_nat i) (Py.chars Base64.alphabet) "A"%char) as [Hin| ->];
      [now apply H | reflexivity]. }
  revert bs. induction n as [|n IH]; intros bs Hlen.
  { destruct bs; [reflexivity | cbn in Hlen; lia]. }
  destruct bs as [|a [|b [|c rest]]]; cbn [Base64.encode_chars forallb];
    rewrite ?Hs; try reflexivity.
  apply IH. cbn in Hlen. lia.
Qed.

Lemma encode_bytes (s : string) : Forall byte (Py.encode s).
Proof.
  unfold Py.encode. induction s as [|c s IH]; cbn [Py.chars map]; constructor; [|exact IH].
  pose proof (nat_ascii_bounded c). unfold byte. lia.
Qed.

Lemma of_bytes_encode (s : string) : Py.of_bytes (Py.encode s) = s.
Proof.
  unfold Py.of_bytes, Py.encode. rewrite map_map.
  induction s as [|c s IH]; [reflexivity|].
  cbn [Py.chars map Py.of_chars]. now rewrite Nat2Z.id, ascii_nat_embedding, IH.
Qed.

Lemma b64encode_nonempty (bs : list Z) : bs <> [] -> Base64.b64encode bs <> "".
Proof.
  unfold Base64.b64encode. destruct bs as [|a [|b [|c rest]]]; [congruence| ..]; discriminate.
Qed.

(** X15.  A chunk that is the standard base64 encoding, with padding, of a
    non-empty UTF-8 text decodes to that text: it is what the loop writes to
    the output file. *)
Theorem base64_chunk_is_written_as_its_text (text : string) (s : State) :
  text <> "" ->
  Py.utf8_valid (S (length (Py.encode text))) (Py.encode text) = true ->
  let chunk := Base64.b64encode (Py.encode text) in
  b64decode_utf8 chunk = inr text
  /\ payload (Some chunk) = inr (Some text)
  /\ decode_chunk chunk s = (Ok text, s).
Proof.
  intros Hne Hutf chunk.
  assert (Hdec : b64decode_utf8 chunk = inr text).
  { subst chunk. unfold b64decode_utf8, Base64.b64encode. rewrite chars_of_chars.
    rewrite (encode_chars_ascii _ _ (le_n _)).
    rewrite (a2b_encode _ _ [] 0 (le_n _) (encode_bytes text)).
    cbn [app]. now rewrite Hutf, of_bytes_encode. }
  split; [exact Hdec|].
  assert (Hc : chunk <> "").
  { subst chunk. apply b64encode_nonempty. destruct text; [contradiction | discriminate]. }
  clearbody chunk. destruct chunk as [|c r]; [contradiction|].
  unfold payload, decode_chunk. rewrite Hdec. split; reflexivity.
Qed.

Lemma base64_chunk_is_written_as_its_text_witness :
  b64decode_utf8 (Base64.b64encode (Py.encode "h1,h2")) = inr "h1,h2"
  /\ Base64.b64encode (Py.encode "h1,h2") = "aDEsaDI=".
Proof.
  split; [|reflexivity].
  exact (proj1 (base64_chunk_is_written_as_its_text "h1,h2" Mock.state0
                  (ltac:(discriminate) : "h1,h2" <> "") eq_refl)).
Defined.

(** ** Scenarios *)



Lemma stored_token_serves_new_process_witness :
  let s1 := snd (get_token (Sample.granting Sample.hour) "CODE" "V" Mock.state0) in
  fst (get_connection (Sample.granting Sample.hour) (Sample.restarted (keyring s1)))
  = Ok (Some "T").
Proof.
  cbv zeta.
  rewrite (proj2 (stored_token_serves_new_process (Sample.granting Sample.hour)
                    Mock.state0
                    (Sample.restarted
                       (keyring (snd (get_token (Sample.granting Sample.hour) "CODE" "V"
                                        Mock.state0))))
                    "CODE" "V" 200 3600 Sample.hour "T"
                    eq_refl (or_introl eq_refl) eq_refl
                    (ltac:(discriminate) : "T" <> "") eq_refl
                    (conj (ltac:(discriminate) : 0 <= 1000000) eq_refl)
                    (conj eq_refl eq_refl) eq_refl eq_refl
                    (conj (ltac:(discriminate) : 0 <= 1000000) eq_refl))).
  reflexivity.
Defined.

Lemma short_lived_token_is_not_cached_witness :
  let s' := snd (refresh_access_token (Sample.granting Sample.minute) Sample.refreshable) in
  fst (refresh_access_token (Sample.granting Sample.minute) Sample.refreshable) = Ok (Some "T")
  /\ get_connection (Sample.granting Sample.minute) s'
     = refresh_or_full_auth (Sample.granting Sample.minute) s'.
Proof.
  pose proof (short_lived_token_is_not_cached (Sample.granting Sample.minute)
                Sample.refreshable "R" "" 200 60 Sample.minute "T"
                eq_refl eq_refl (or_introl eq_refl) eq_refl eq_refl
                (ltac:(discriminate) : 60 <= 300) eq_refl) as (H1 & H2 & _).
  split; [exact H1 | exact H2].
Defined.

Lemma close_connection_forgets_witness :
  (keyring Sample.signed_in !! k_token = Some "TOKEN"
   /\ keyring Sample.signed_in !! k_expiry = Some "1003600.0"
   /\ keyring Sample.signed_in !! k_refresh = Some "R")
  /\ fst (close_connection Sample.signed_in) = Ok tt
  /\ access_token (self (snd (close_connection Sample.signed_in))) = None
  /\ empty_of_credentials (keyring (snd (close_connection Sample.signed_in))).
Proof.
  split; [repeat split|].
  pose proof (close_connection_forgets Mock.silent Sample.signed_in
                (saved_consistent "TOKEN" (Some 1003600) (Some "R") ∅))
    as (H1 & H2 & _ & _ & H5 & _).
  split; [exact H1|]. split; [exact H2 | exact H5].
Defined.

Lemma failed_authorization_keeps_credentials_witness :
  fst (get_connection Mock.silent Sample.run_out) = Ok None
  /\ keyring (snd (get_connection Mock.silent Sample.run_out)) !! k_token = Some "OLD"
  /\ keyring (snd (get_connection Mock.silent Sample.run_out)) !! k_expiry
     = Some "999000.0".
Proof.
  assert (H : fst (get_connection Mock.silent Sample.run_out) = Ok None)
    by (vm_compute; reflexivity).
  split; [exact H|].
  rewrite (proj2 (failed_authorization_keeps_credentials Mock.silent Sample.run_out
                    in_seconds_run_out eq_refl H)).
  split; reflexivity.
Defined.

Lemma code_exchange_sends_verifier_of_challenge_witness :
  String.length (verifier_at (Mock.answering 0 "CODE" PostFailed) Mock.state0) = 128%nat.
Proof.
  assert (H : fst (start_auth_server (Mock.answering 0 "CODE" PostFailed) Mock.state0)
              = Ok ("CODE", verifier_at (Mock.answering 0 "CODE" PostFailed) Mock.state0))
    by (vm_compute; reflexivity).
  exact (proj1 (code_exchange_sends_verifier_of_challenge _ _ _ _ H)).
Defined.

Lemma authorization_code_comes_from_this_wait_witness :
  exists i, (i < 301)%nat
    /\ In (Some "CODE")
          (callbacks (Mock.answering 2 "CODE" PostFailed) (sleeps Mock.state0 + i)).
Proof.
  assert (H : fst (start_auth_server (Mock.answering 2 "CODE" PostFailed) Mock.state0)
              = Ok ("CODE", verifier_at (Mock.answering 2 "CODE" PostFailed) Mock.state0))
    by (vm_compute; reflexivity).
  destruct (proj1 (authorization_code_comes_from_this_wait _ _ _ _ H)) as (i & Hi & Hin & _).
  exists i. split; [exact Hi | exact Hin].
Defined.

Lemma unusable_download_keeps_partial_file_witness :
  let r := get_report_data Sample.bad_second_chunk Sample.fromstring 5
             Mock.report_path Mock.parameters Mock.logged_in in
  fst r = Raise BinasciiError
  /\ files (snd r) = <[Mock.output_file := "A"]> (files Mock.logged_in).
Proof.
  assert (Hrun : run_reply Sample.fromstring
                   (soap_endpoint Sample.bad_second_chunk (soaps Mock.logged_in))
                   (Some "FILE123")).
  { exists "run". split; reflexivity. }
  assert (Hserves : serves Sample.bad_second_chunk Sample.fromstring
                      (S (soaps Mock.logged_in)) [(Some "A", 0)]).
  { repeat constructor. exists "A", (Some "QQ=="). repeat split; reflexivity. }
  assert (Hnot : Forall (fun e : option string * Z => snd e <> -1) [(Some "A", 0)]).
  { repeat constructor. discriminate. }
  assert (Hbad : unusable Sample.fromstring
                   (soap_endpoint Sample.bad_second_chunk
                      (S (soaps Mock.logged_in) + length [(Some "A", 0)]))
                   BinasciiError).
  { apply (unusable_chunk Sample.fromstring "bad" "QQ=" 0 BadBase64);
      [reflexivity | discriminate | reflexivity]. }
  destruct (unusable_download_keeps_partial_file Sample.bad_second_chunk Sample.fromstring
              Mock.logged_in (named Mock.logged_in) "TOKEN" Mock.report_path Mock.parameters
              (Some "FILE123") [(Some "A", 0)] BinasciiError 5
              (logged_in_authorized Sample.bad_second_chunk Mock.logged_in "TOKEN"
                 logged_in_mock)
              Hrun Hserves Hnot Hbad (ltac:(repeat constructor) : (1 < 5)%nat))
    as (H1 & _ & H3).
  split; [exact H1 | exact H3].
Defined.

Lemma get_report_data_without_token_witness :
  fst (get_report_data Mock.silent Mock.fromstring 5 Mock.report_path Mock.parameters
         Mock.state0)
  = Raise (Exception "Failed to get OAuth access token").
Proof.
  assert (H : get_connection Mock.silent (named Mock.state0)
              = (Ok None, snd (get_connection Mock.silent (named Mock.state0))))
    by (vm_compute; reflexivity).
  exact (proj1 (get_report_data_without_token Mock.silent Mock.fromstring Mock.state0 _ None
                  Mock.report_path Mock.parameters 5 H eq_refl)).
Defined.

Lemma get_env_config_by_name_witness :
  exists config,
    Environment.get_env_config {[ "ORACLE_ENV" := "test" ]} = inr config
    /\ Environment.env config = "TEST".
Proof.
  pose proof (get_env_config_by_name {[ "ORACLE_ENV" := "test" ]} "test" eq_refl eq_refl)
    as (H & _).
  destruct (Environment.get_env_config {[ "ORACLE_ENV" := "test" ]}) as [msg|config] eqn:E.
  - destruct H as [H _]. exfalso. apply H. cbn. tauto.
  - exists config. split; [reflexivity | exact (proj1 H)].
Defined.

Lemma log_hands_over_by_level_witness :
  LoggerConfig.log (LoggerConfig._initialize {[ "MCP_DEBUG_ENABLED" := "Yes" ]})
    "report" "Making SOAP request" (Some "INFO") [("url", "u")] = None.
Proof.
  pose proof (log_hands_over_by_level {[ "MCP_DEBUG_ENABLED" := "Yes" ]}
                "report" "Making SOAP request" (Some "INFO") [("url", "u")]) as H.
  cbv zeta in H.
  destruct H as (_ & _ & H & _).
  - intros name v Hv. apply lookup_singleton_Some in Hv as [_ <-]. reflexivity.
  - intros l [= <-]. reflexivity.
  - destruct (LoggerConfig.log _ _ _ _ _) as [[lvl text]|]; [|reflexivity].
    destruct (H lvl text eq_refl) as (_ & Hl & _ & Hlow).
    exfalso. cbv in Hl. subst lvl. specialize (Hlow (or_introl eq_refl)). discriminate Hlow.
Defined.

Lemma export_headers_never_fail_witness :
  fst (_get_headers Mock.silent ∅ Mock.state0)
  = Ok [("Authorization", "Bearer None"); ("Content-Type", "application/json")].
Proof.
  assert (Hcfg : Environment.get_env_config ∅ = inr Sample.production)
    by (vm_compute; reflexivity).
  destruct (export_headers_never_fail Mock.silent ∅ Sample.production Mock.state0 Hcfg)
    as (token & s1 & Hget & _ & Hnone & _).
  apply Hnone.
  assert (H : fst (get_connection Mock.silent
                     (with_self (fun _ => OracleAuth_init Sample.production) Mock.state0))
              = Ok None) by (vm_compute; reflexivity).
  rewrite Hget in H. now injection H.
Defined.

Lemma refresh_keeps_or_rotates_refresh_token_witness :
  refresh_token_at (snd (refresh_access_token (Sample.granting Sample.hour) Sample.refreshable))
  = Some "R2".
Proof.
  exact (proj1 (proj2 (refresh_keeps_or_rotates_refresh_token (Sample.granting Sample.hour)
                         Sample.refreshable "R" "" 200 3600 Sample.hour "T"
                         eq_refl eq_refl (or_introl eq_refl) eq_refl eq_refl
                         eq_refl eq_refl
                         (ltac:(discriminate) : Some "R2" <> Some "")))).
Defined.
